(** * JumpServer Terraform provider: a shallow embedding of its lifecycle code

    The development follows the three Go files of the provider:
    - [provider.go]: provider configuration, token exchange, the
      authenticating transport and the host-suggestions data source;
    - [resource_assets_host.go]: the host resource (Create/Read/Update/Delete);
    - the account resource (bulk account creation).

    Go strings are byte sequences and are modelled as [string] (a list of
    8-bit [ascii]); the few library functions the provider calls on them
    ([strings.Trim], [%q] formatting, [uuid.Parse], [url.QueryEscape],
    [url.Values]) are written out on bytes, UTF-8 decoding included.  HTTP
    traffic is explicit: every operation runs in a small monad that logs the
    requests handed to the network and can stop early with diagnostics. *)

From Stdlib Require Import ZArith NArith List String Ascii Bool Lia.
From Stdlib Require Import DecimalString.
Import ListNotations.
Open Scope string_scope.
Open Scope Z_scope.
Set Warnings "-register-all".

(* ===================================================================== *)
(** * Bytes and Go strings *)
(* ===================================================================== *)

Definition byte_of (c : ascii) : Z := Z.of_N (N_of_ascii c).
Definition chr (n : Z) : ascii := ascii_of_N (Z.to_N (n mod 256)).

(** The straight double quote and the backslash, by code. *)
Definition dquote : ascii := chr 34.
Definition backslash : ascii := chr 92.

Definition str1 (c : ascii) : string := String c EmptyString.

(** [len(s)] *)
Definition len (s : string) : Z := Z.of_nat (String.length s).

(** [s[n:]] for [n] within bounds. *)
Fixpoint drop (n : nat) (s : string) : string :=
  match n, s with
  | O, _ => s
  | S k, EmptyString => EmptyString
  | S k, String _ s' => drop k s'
  end.

(** [s[:n]] for [n] within bounds. *)
Fixpoint take (n : nat) (s : string) : string :=
  match n, s with
  | O, _ => EmptyString
  | S k, EmptyString => EmptyString
  | S k, String c s' => String c (take k s')
  end.

(** [s[i]] (0 outside the string; callers check the length first). *)
Definition byteAt (s : string) (i : Z) : Z :=
  if i <? 0 then 0
  else match String.get (Z.to_nat i) s with
       | Some c => byte_of c
       | None => 0
       end.

(** [fmt.Sprintf("%d", n)] *)
Definition fmt_d (n : Z) : string := NilZero.string_of_int (Z.to_int n).

Definition hexdigit (upper : bool) (d : Z) : ascii :=
  if d <? 10 then chr (48 + d)
  else chr ((if upper then 65 else 97) + (d - 10)).

Definition lowerhex (d : Z) : ascii := hexdigit false d.
Definition upperhex (d : Z) : ascii := hexdigit true d.

Definition isLower (c : Z) : bool := (97 <=? c) && (c <=? 122).
Definition isUpper (c : Z) : bool := (65 <=? c) && (c <=? 90).
Definition isDigit (c : Z) : bool := (48 <=? c) && (c <=? 57).

(** ASCII-only lower-casing of one byte. *)
Definition lowerByte (c : Z) : Z := if isUpper c then c + 32 else c.

(* ===================================================================== *)
(** * [unicode/utf8] *)
(* ===================================================================== *)

Definition RuneError : Z := 65533.  (* U+FFFD *)
Definition RuneSelf : Z := 128.
Definition UTFMax : Z := 4.

(** The [first] table of package utf8: for a leading byte of a multi-byte
    sequence, the sequence's size and the accepted range of its second
    byte; [None] for ASCII and for bytes that start no sequence. *)
Definition first (b : Z) : option (nat * Z * Z) :=
  if (194 <=? b) && (b <=? 223) then Some (2%nat, 128, 191)
  else if b =? 224 then Some (3%nat, 160, 191)
  else if (225 <=? b) && (b <=? 236) then Some (3%nat, 128, 191)
  else if b =? 237 then Some (3%nat, 128, 159)
  else if (238 <=? b) && (b <=? 239) then Some (3%nat, 128, 191)
  else if b =? 240 then Some (4%nat, 144, 191)
  else if (241 <=? b) && (b <=? 243) then Some (4%nat, 128, 191)
  else if b =? 244 then Some (4%nat, 128, 143)
  else None.

Definition isCont (b : Z) : bool := (128 <=? b) && (b <=? 191).

(** [utf8.DecodeRuneInString]: the first rune of [s] and its width in
    bytes; [(RuneError, 0)] on the empty string and [(RuneError, 1)] on an
    invalid or truncated sequence. *)
Definition DecodeRuneInString (s : string) : Z * nat :=
  let n := len s in
  if n <? 1 then (RuneError, 0%nat)
  else
    let s0 := byteAt s 0 in
    if s0 <? RuneSelf then (s0, 1%nat)
    else match first s0 with
         | None => (RuneError, 1%nat)
         | Some (sz, lo, hi) =>
           if n <? Z.of_nat sz then (RuneError, 1%nat)
           else
             let s1 := byteAt s 1 in
             if (s1 <? lo) || (hi <? s1) then (RuneError, 1%nat)
             else if (sz <=? 2)%nat then
               (Z.lor (Z.shiftl (Z.land s0 31) 6) (Z.land s1 63), 2%nat)
             else
               let s2 := byteAt s 2 in
               if negb (isCont s2) then (RuneError, 1%nat)
               else if (sz <=? 3)%nat then
                 (Z.lor (Z.lor (Z.shiftl (Z.land s0 15) 12)
                                (Z.shiftl (Z.land s1 63) 6))
                        (Z.land s2 63), 3%nat)
               else
                 let s3 := byteAt s 3 in
                 if negb (isCont s3) then (RuneError, 1%nat)
                 else
                   (Z.lor (Z.lor (Z.lor (Z.shiftl (Z.land s0 7) 18)
                                        (Z.shiftl (Z.land s1 63) 12))
                                 (Z.shiftl (Z.land s2 63) 6))
                          (Z.land s3 63), 4%nat)
         end.

(** [utf8.RuneStart] *)
Definition RuneStart (b : Z) : bool := negb (Z.land b 192 =? 128).

(** The backwards scan of [DecodeLastRuneInString]:
    [for start--; start >= lim; start-- { if RuneStart(s[start]) { break } }],
    entered here after the initial [start--]. *)
Fixpoint scanBack (fuel : nat) (s : string) (start lim : Z) : Z :=
  match fuel with
  | O => start
  | S f =>
    if start <? lim then start
    else if RuneStart (byteAt s start) then start
    else scanBack f s (start - 1) lim
  end.

(** [utf8.DecodeLastRuneInString] *)
Definition DecodeLastRuneInString (s : string) : Z * nat :=
  let e := len s in
  if e =? 0 then (RuneError, 0%nat)
  else
    let r := byteAt s (e - 1) in
    if r <? RuneSelf then (r, 1%nat)
    else
      let lim := Z.max 0 (e - UTFMax) in
      let start := scanBack 4 s (e - 2) lim in
      let start := if start <? 0 then 0 else start in
      let (r, size) := DecodeRuneInString (drop (Z.to_nat start) s) in
      if negb (start + Z.of_nat size =? e) then (RuneError, 1%nat)
      else (r, size).

(** [utf8.ValidRune] *)
Definition ValidRune (r : Z) : bool :=
  ((0 <=? r) && (r <? 55296)) || ((57343 <? r) && (r <=? 1114111)).

(** [utf8.AppendRune] into an empty buffer: the UTF-8 encoding of [r]
    (that of U+FFFD for surrogates and out-of-range values). *)
Definition encodeRune (r : Z) : string :=
  let enc3 (r : Z) :=
    String (chr (Z.lor 224 (Z.shiftr r 12)))
      (String (chr (Z.lor 128 (Z.land (Z.shiftr r 6) 63)))
        (str1 (chr (Z.lor 128 (Z.land r 63))))) in
  if (0 <=? r) && (r <=? 127) then str1 (chr r)
  else if (0 <=? r) && (r <=? 2047) then
    String (chr (Z.lor 192 (Z.shiftr r 6)))
      (str1 (chr (Z.lor 128 (Z.land r 63))))
  else if negb (ValidRune r) then enc3 RuneError
  else if r <=? 65535 then enc3 r
  else
    String (chr (Z.lor 240 (Z.shiftr r 18)))
      (String (chr (Z.lor 128 (Z.land (Z.shiftr r 12) 63)))
        (String (chr (Z.lor 128 (Z.land (Z.shiftr r 6) 63)))
          (str1 (chr (Z.lor 128 (Z.land r 63)))))).

(** The runes a [for _, r := range s] loop yields. *)
Fixpoint runes_from (s : string) (skip : nat) : list Z :=
  match s with
  | EmptyString => []
  | String _ s' =>
    match skip with
    | S k => runes_from s' k
    | O => let (r, n) := DecodeRuneInString s in r :: runes_from s' (n - 1)
    end
  end.

Definition runes (s : string) : list Z := runes_from s 0.

(* ===================================================================== *)
(** * [strings] *)
(* ===================================================================== *)

Fixpoint bytes (s : string) : list Z :=
  match s with
  | EmptyString => []
  | String c s' => byte_of c :: bytes s'
  end.

(** [strings.ContainsRune]: an ASCII rune is looked up as a byte; any
    other rune is found exactly when it is one of the runes of [s] (UTF-8
    is self-synchronising, so the substring search of the encoding and
    the rune walk agree). *)
Definition ContainsRune (s : string) (r : Z) : bool :=
  if (0 <=? r) && (r <? RuneSelf) then existsb (Z.eqb r) (bytes s)
  else if r =? RuneError then existsb (Z.eqb RuneError) (runes s)
  else if negb (ValidRune r) then false
  else existsb (Z.eqb r) (runes s).

Fixpoint trimLeftUnicode_loop (fuel : nat) (s cutset : string) : string :=
  match fuel with
  | O => s
  | S f =>
    match s with
    | EmptyString => s
    | String c _ =>
      let (r, n) := if byte_of c <? RuneSelf then (byte_of c, 1%nat)
                    else DecodeRuneInString s in
      if negb (ContainsRune cutset r) then s
      else trimLeftUnicode_loop f (drop n s) cutset
    end
  end.

Definition trimLeftUnicode (s cutset : string) : string :=
  trimLeftUnicode_loop (String.length s) s cutset.

Fixpoint trimRightUnicode_loop (fuel : nat) (s cutset : string) : string :=
  match fuel with
  | O => s
  | S f =>
    if len s =? 0 then s
    else
      let last := byteAt s (len s - 1) in
      let (r, n) := if last <? RuneSelf then (last, 1%nat)
                    else DecodeLastRuneInString s in
      if negb (ContainsRune cutset r) then s
      else trimRightUnicode_loop f (take (String.length s - n) s) cutset
  end.

Definition trimRightUnicode (s cutset : string) : string :=
  trimRightUnicode_loop (String.length s) s cutset.

(** [strings.Trim(s, cutset)] (the general, rune-wise path; the
    single-byte and all-ASCII cut sets take shortcuts with the same
    result). *)
Definition Trim (s cutset : string) : string :=
  if (len s =? 0) || (len cutset =? 0) then s
  else trimLeftUnicode (trimRightUnicode s cutset) cutset.

(** ASCII case-insensitive equality of two byte strings.  On the ASCII
    target [urn:uuid:] this is what [strings.EqualFold] decides: no
    non-ASCII rune simple-folds to one of its letters. *)
Fixpoint equalFoldASCII (a b : string) : bool :=
  match a, b with
  | EmptyString, EmptyString => true
  | String x a', String y b' =>
    (lowerByte (byte_of x) =? lowerByte (byte_of y)) && equalFoldASCII a' b'
  | _, _ => false
  end.

(* ===================================================================== *)
(** * [strconv]: quoting, as [fmt]'s [%q] verb does it *)
(* ===================================================================== *)

(** [strconv.IsPrint].  Latin-1 is decided in the function itself; beyond
    it Go consults generated Unicode tables, which are taken as a
    parameter ([wide]). *)
Definition IsPrint (wide : Z -> bool) (r : Z) : bool :=
  if r <=? 255 then
    if (32 <=? r) && (r <=? 126) then true
    else if (161 <=? r) && (r <=? 255) then negb (r =? 173)
    else false
  else wide r.

Definition hex2 (b : Z) : string :=
  String (lowerhex (Z.shiftr b 4)) (str1 (lowerhex (Z.land b 15))).

(** [lowerhex[r>>s & 0xF]] for [s] from [4*(n-1)] down to 0. *)
Fixpoint hexN (n : nat) (r : Z) : string :=
  match n with
  | O => EmptyString
  | S k => String (lowerhex (Z.land (Z.shiftr r (4 * Z.of_nat k)) 15)) (hexN k r)
  end.

(** [strconv.appendEscapedRune] with the double quote as [quote],
    [ASCIIonly = false] and [graphicOnly = false]. *)
Definition appendEscapedRune (wide : Z -> bool) (r : Z) : string :=
  if (r =? byte_of dquote) || (r =? byte_of backslash) then
    String backslash (str1 (chr r))
  else if IsPrint wide r then encodeRune r
  else if r =? 7 then "\a"
  else if r =? 8 then "\b"
  else if r =? 12 then "\f"
  else if r =? 10 then "\n"
  else if r =? 13 then "\r"
  else if r =? 9 then "\t"
  else if r =? 11 then "\v"
  else if (r <? 32) || (r =? 127) then "\x" ++ hex2 (r mod 256)
  else if negb (ValidRune r) then "\u" ++ hexN 4 RuneError
  else if r <? 65536 then "\u" ++ hexN 4 r
  else "\U" ++ hexN 8 r.

(** The loop of [strconv.appendQuotedWith] between the two quotes. *)
Fixpoint quoteBody (wide : Z -> bool) (s : string) (skip : nat) : string :=
  match s with
  | EmptyString => EmptyString
  | String c s' =>
    match skip with
    | S k => quoteBody wide s' k
    | O =>
      let (r, width) := if byte_of c <? RuneSelf then (byte_of c, 1%nat)
                        else DecodeRuneInString s in
      (if (width =? 1)%nat && (r =? RuneError) then "\x" ++ hex2 (byte_of c)
       else appendEscapedRune wide r)
      ++ quoteBody wide s' (width - 1)
    end
  end.

(** [strconv.Quote(s)], i.e. [fmt.Sprintf("%q", s)]. *)
Definition Quote (wide : Z -> bool) (s : string) : string :=
  String dquote (quoteBody wide s 0 ++ str1 dquote).

(* ===================================================================== *)
(** * [github.com/google/uuid]: [uuid.Parse] *)
(* ===================================================================== *)

(** The [xvalues] table: the value of a hexadecimal digit. *)
Definition xvalues (c : Z) : option Z :=
  if isDigit c then Some (c - 48)
  else if (97 <=? c) && (c <=? 102) then Some (c - 87)
  else if (65 <=? c) && (c <=? 70) then Some (c - 55)
  else None.

Definition xtob (x1 x2 : Z) : option Z :=
  match xvalues x1, xvalues x2 with
  | Some b1, Some b2 => Some (Z.lor (Z.shiftl b1 4) b2)
  | _, _ => None
  end.

Fixpoint hexpairs (s : string) (offsets : list Z) : option (list Z) :=
  match offsets with
  | [] => Some []
  | x :: rest =>
    match xtob (byteAt s x) (byteAt s (x + 1)) with
    | None => None
    | Some v =>
      match hexpairs s rest with
      | None => None
      | Some vs => Some (v :: vs)
      end
    end
  end.

(** [uuid.Parse]: [Some] of the 16 bytes, or [None] where Go returns an
    error.  Accepted are the 36-byte canonical form, the same behind
    [urn:uuid:] (45 bytes) or with one byte on either side (38 bytes,
    meant for braces), and 32 hexadecimal digits. *)
Definition uuid_Parse (s : string) : option (list Z) :=
  let n := len s in
  if n =? 32 then
    hexpairs s [0; 2; 4; 6; 8; 10; 12; 14; 16; 18; 20; 22; 24; 26; 28; 30]
  else
    let body :=
      if n =? 36 then Some s
      else if n =? 36 + 9 then
        if equalFoldASCII (take 9 s) "urn:uuid:" then Some (drop 9 s) else None
      else if n =? 36 + 2 then Some (drop 1 s)
      else None in
    match body with
    | None => None
    | Some s =>
      if negb (byteAt s 8 =? 45) || negb (byteAt s 13 =? 45)
         || negb (byteAt s 18 =? 45) || negb (byteAt s 23 =? 45) then None
      else hexpairs s [0; 2; 4; 6; 9; 11; 14; 16; 19; 21; 24; 26; 28; 30; 32; 34]
    end.

(* ===================================================================== *)
(** * [net/url]: query escaping and [url.Values] *)
(* ===================================================================== *)

(** [shouldEscape(c, encodeQueryComponent)]: everything but the
    unreserved characters. *)
Definition shouldEscape (c : Z) : bool :=
  if isLower c || isUpper c || isDigit c then false
  else if (c =? 45) || (c =? 95) || (c =? 46) || (c =? 126) then false
  else true.

(** [url.QueryEscape] *)
Fixpoint QueryEscape (s : string) : string :=
  match s with
  | EmptyString => EmptyString
  | String c s' =>
    let b := byte_of c in
    if b =? 32 then String "+" (QueryEscape s')
    else if shouldEscape b then
      String "%" (String (upperhex (Z.shiftr b 4))
                         (String (upperhex (Z.land b 15)) (QueryEscape s')))
    else String c (QueryEscape s')
  end.

(** [url.Values] is a [map[string][]string]; it is kept as an association
    list with one entry per key. *)
Definition Values := list (string * list string).

(** [v.Add(key, value)]: [v[key] = append(v[key], value)] *)
Fixpoint Values_Add (v : Values) (key value : string) : Values :=
  match v with
  | [] => [(key, [value])]
  | (k, vs) :: rest =>
    if String.eqb k key then (k, (vs ++ [value])%list) :: rest
    else (k, vs) :: Values_Add rest key value
  end.

(** [v.Has(key)] *)
Definition Values_Has (v : Values) (key : string) : bool :=
  existsb (fun kv => String.eqb (fst kv) key) v.

(** [v[key]] *)
Fixpoint Values_Lookup (v : Values) (key : string) : list string :=
  match v with
  | [] => []
  | (k, vs) :: rest => if String.eqb k key then vs else Values_Lookup rest key
  end.

(** [slices.Sort(keys)]: insertion into a list sorted bytewise. *)
Fixpoint insertKey (k : string) (ks : list string) : list string :=
  match ks with
  | [] => [k]
  | k' :: rest => if String.leb k k' then k :: ks else k' :: insertKey k rest
  end.

Definition sortKeys (ks : list string) : list string :=
  fold_right insertKey [] ks.

(** The inner loop of [Encode] for one key: each value is written as
    [key=value], with an ampersand before it unless the buffer is empty. *)
Fixpoint encodeKey (buf keyEscaped : string) (vs : list string) : string :=
  match vs with
  | [] => buf
  | v :: rest =>
    let buf := if 0 <? len buf then buf ++ "&" else buf in
    encodeKey (buf ++ keyEscaped ++ "=" ++ QueryEscape v) keyEscaped rest
  end.

(** [v.Encode()]: the keys in sorted order. *)
Definition Values_Encode (v : Values) : string :=
  fold_left (fun buf k => encodeKey buf (QueryEscape k) (Values_Lookup v k))
            (sortKeys (map fst v)) EmptyString.

(* ===================================================================== *)
(** * [net/http] headers *)
(* ===================================================================== *)

(** [validHeaderFieldByte]: the token characters of RFC 7230. *)
Definition validHeaderFieldByte (c : Z) : bool :=
  isLower c || isUpper c || isDigit c
  || existsb (Z.eqb c) [33; 35; 36; 37; 38; 39; 42; 43; 45; 46; 94; 95; 96; 124; 126].

Fixpoint canonicalize (upper : bool) (s : string) : string :=
  match s with
  | EmptyString => EmptyString
  | String c s' =>
    let b := byte_of c in
    let b' := if upper && isLower b then b - 32
              else if negb upper && isUpper b then b + 32
              else b in
    String (chr b') (canonicalize (b' =? 45) s')
  end.

(** [textproto.CanonicalMIMEHeaderKey]: a key with a byte outside the
    token characters is returned as it is. *)
Definition CanonicalMIMEHeaderKey (s : string) : string :=
  if forallb validHeaderFieldByte (bytes s) then canonicalize true s else s.

Definition Header := list (string * string).

(** [h.Set(key, value)] *)
Definition Header_Set (h : Header) (key value : string) : Header :=
  let k := CanonicalMIMEHeaderKey key in
  (filter (fun kv => negb (String.eqb (fst kv) k)) h ++ [(k, value)])%list.

(** [h.Get(key)] *)
Fixpoint Header_Get (h : Header) (key : string) : string :=
  match h with
  | [] => EmptyString
  | (k, v) :: rest =>
    if String.eqb k (CanonicalMIMEHeaderKey key) then v else Header_Get rest key
  end.

(* ===================================================================== *)
(** * Values of the plugin framework ([types.String], [types.List], ...) *)
(* ===================================================================== *)

(** [types.String]: null, unknown, or a known Go string. *)
Inductive TString : Type :=
| StringNull
| StringUnknown
| StringValue (s : string).

(** [types.Int64] *)
Inductive TInt64 : Type :=
| Int64Null
| Int64Unknown
| Int64Value (i : Z).

(** [types.Bool] *)
Inductive TBool : Type :=
| BoolNull
| BoolUnknown
| BoolValue (b : bool).

(** [types.List] with elements of type [A] *)
Inductive TList (A : Type) : Type :=
| ListNull
| ListUnknown
| ListValue (elems : list A).
Arguments ListNull {A}.
Arguments ListUnknown {A}.
Arguments ListValue {A} elems.

(** [attr.Value] as far as the provider's schemas use it.  An object
    carries its attribute map ([map[string]attr.Value], here an
    association list read by first match). *)
Inductive AttrValue : Type :=
| AString (s : TString)
| AInt64 (i : TInt64)
| ABool (b : TBool)
| AObject (attrs : list (string * AttrValue)).

Definition String_IsNull (v : TString) : bool :=
  match v with StringNull => true | _ => false end.

(** [v.ValueString()]: the empty string for null and unknown. *)
Definition ValueString (v : TString) : string :=
  match v with StringValue s => s | _ => EmptyString end.

Definition Int64_IsNull (v : TInt64) : bool :=
  match v with Int64Null => true | _ => false end.

(** [v.ValueInt64()]: zero for null and unknown. *)
Definition ValueInt64 (v : TInt64) : Z :=
  match v with Int64Value i => i | _ => 0 end.

(** [v.ValueBool()]: false for null and unknown. *)
Definition ValueBool (v : TBool) : bool :=
  match v with BoolValue b => b | _ => false end.

Definition List_IsNull {A} (l : TList A) : bool :=
  match l with ListNull => true | _ => false end.

(** [l.Elements()]: no elements for null and unknown. *)
Definition Elements {A} (l : TList A) : list A :=
  match l with ListValue elems => elems | _ => [] end.

(** [v.String()] of a [types.String]: the fixed texts for unknown and
    null, the value quoted with [%q] otherwise. *)
Definition String_String (wide : Z -> bool) (v : TString) : string :=
  match v with
  | StringUnknown => "<unknown>"
  | StringNull => "<null>"
  | StringValue s => Quote wide s
  end.

(** Lookup in a Go map kept as an association list. *)
Fixpoint lookup {A} (m : list (string * A)) (k : string) : option A :=
  match m with
  | [] => None
  | (k', v) :: rest => if String.eqb k' k then Some v else lookup rest k
  end.

(** One diagnostic; the provider only ever adds errors.  [Path] is the
    attribute an [AddAttributeError] points at. *)
Record Diagnostic : Type := mkDiag {
  Path : option string;
  Summary : string;
  Detail : string
}.

Definition AddError (summary detail : string) : Diagnostic :=
  mkDiag None summary detail.

Definition AddAttributeError (path summary detail : string) : Diagnostic :=
  mkDiag (Some path) summary detail.

(* ===================================================================== *)
(** * JSON values and the Go runtime the provider relies on *)
(* ===================================================================== *)

(** A JSON value: what [json.Marshal] is handed and what decoding into
    [interface{}] yields.  A number is kept by its text. *)
Inductive JSON : Type :=
| JNull
| JBool (b : bool)
| JNumber (text : string)
| JString (s : string)
| JArray (elems : list JSON)
| JObject (members : list (string * JSON)).

(** A Go slice built by [append] from [nil]: it stays [nil] when nothing
    was appended, and [nil] marshals as [null]. *)
Definition sliceJSON (elems : list JSON) : JSON :=
  match elems with
  | [] => JNull
  | _ => JArray elems
  end.

(** [v.(string)] on a decoded value, with the [ok] flag as [option]. *)
Definition asString (v : option JSON) : option string :=
  match v with
  | Some (JString s) => Some s
  | _ => None
  end.

(** One element of the data source's [apiResponse]. *)
Record apiHost : Type := mkApiHost {
  api_ID : string;
  api_Name : string
}.

(** Library behaviour the development does not re-implement: what
    [encoding/json] makes of a response body for each of the three
    decoding targets of the provider ([inl] is the error's text), the
    error [url.Parse] finds in a request URL, and the Unicode tables
    behind [strconv.IsPrint]. *)
Record GoRuntime : Type := mkRuntime {
  DecodeObject : string -> string + list (string * JSON);
  DecodeObjects : string -> string + list (list (string * JSON));
  DecodeHosts : string -> string + list apiHost;
  url_Parse_error : string -> option string;
  isPrintWide : Z -> bool
}.

(* ===================================================================== *)
(** * HTTP requests, the network and the operation monad *)
(* ===================================================================== *)

Inductive Method : Type := MethodGet | MethodPost | MethodDelete.

(** An outgoing request.  [Body] is the value that was marshalled into
    the request body. *)
Record Request : Type := mkRequest {
  ReqMethod : Method;
  URL : string;
  ReqHeader : Header;
  Body : option JSON
}.

Record Response : Type := mkResponse {
  Status : string;      (* e.g. 404 Not Found *)
  StatusCode : Z;
  RespBody : string
}.

Definition StatusOK : Z := 200.
Definition StatusCreated : Z := 201.
Definition StatusNoContent : Z := 204.

(** The remote side: the answer to a request, or the transport's error. *)
Definition Network : Type := Request -> string + Response.

(** How a run of provider code ends: normally, by returning early with
    the diagnostics added so far, or in a Go panic. *)
Inductive Res (A : Type) : Type :=
| Ok (a : A)
| Stop (ds : list Diagnostic)
| Panic.
Arguments Ok {A} a.
Arguments Stop {A} ds.
Arguments Panic {A}.

(** An operation reads the network and appends to the log of requests
    that reached it. *)
Definition M (A : Type) : Type := Network -> list Request -> Res A * list Request.

Definition ret {A} (a : A) : M A := fun _ log => (Ok a, log).

Definition bind {A B} (m : M A) (k : A -> M B) : M B :=
  fun net log =>
    match m net log with
    | (Ok a, log') => k a net log'
    | (Stop ds, log') => (Stop ds, log')
    | (Panic, log') => (Panic, log')
    end.

Definition stop {A} (d : Diagnostic) : M A := fun _ log => (Stop [d], log).
Definition panic {A} : M A := fun _ log => (Panic, log).

(** Hand a request to the network. *)
Definition roundTrip (req : Request) : M (string + Response) :=
  fun net log => (Ok (net req), (log ++ [req])%list).

Notation "x <- m ;; k" := (bind m (fun x => k))
  (at level 61, m at next level, right associativity).

Definition run {A} (m : M A) (net : Network) : Res A * list Request := m net [].

(** What the framework reports back after a call: the diagnostics and
    the state held in the response. *)
Record Reply (S : Type) : Type := mkReply {
  Diagnostics : list Diagnostic;
  State : S
}.
Arguments mkReply {S}.
Arguments Diagnostics {S}.
Arguments State {S}.

(** [resp.Diagnostics.HasError()] *)
Definition HasError {S} (r : Reply S) : bool :=
  match Diagnostics r with [] => false | _ => true end.

(** The response of a call whose response state starts as [initial] and
    is overwritten by [commit] on the path that reaches its state update;
    [None] when the call panicked. *)
Definition reply {A S} (initial : S) (commit : A -> S) (r : Res A) : option (Reply S) :=
  match r with
  | Ok a => Some (mkReply [] (commit a))
  | Stop ds => Some (mkReply ds initial)
  | Panic => None
  end.

(* ===================================================================== *)
(** * provider.go: transport, token exchange, configuration *)
(* ===================================================================== *)

Record authTransport : Type := mkAuthTransport {
  Token : string;
  BaseURL : string
}.

(** [http.Client]: [Transport] is [None] for the zero client
    ([&http.Client{}]), which uses the default transport. *)
Record Client : Type := mkClient {
  Transport : option authTransport
}.

(** [authTransport.RoundTrip]: set the bearer header, then delegate. *)
Definition RoundTrip (t : authTransport) (req : Request) : M (string + Response) :=
  let req := mkRequest (ReqMethod req) (URL req)
               (Header_Set (ReqHeader req) "Authorization" ("Bearer " ++ Token t))
               (Body req) in
  roundTrip req.

(** [client.Do(req)] *)
Definition Client_Do (c : Client) (req : Request) : M (string + Response) :=
  match Transport c with
  | Some t => RoundTrip t req
  | None => roundTrip req
  end.

(** The type assertion of [r.client.Transport] to a pointer to
    [authTransport]: a nil client or a transport of another type makes
    the expression panic. *)
Definition transportOf (client : option Client) : M authTransport :=
  match client with
  | Some c =>
    match Transport c with
    | Some t => ret t
    | None => panic
    end
  | None => panic
  end.

(** [r.client.Do(req)] on the client a resource or data source holds; a nil client panics. *)
Definition resourceClient_Do (client : option Client) (req : Request)
  : M (string + Response) :=
  match client with
  | Some c => Client_Do c req
  | None => panic
  end.

Section Provider.

Variable rt : GoRuntime.

(** [http.NewRequestWithContext]: fails when the URL does not parse. *)
Definition NewRequestWithContext (m : Method) (url : string) (body : option JSON)
  : string + Request :=
  match url_Parse_error rt url with
  | Some err => inl err
  | None => inr (mkRequest m url [] body)
  end.

Record JumpServerProviderModel : Type := mkProviderModel {
  cfg_BaseURL : TString;
  cfg_Username : TString;
  cfg_Password : TString;
  cfg_Token : TString
}.

(** [getToken]: one unauthenticated POST of the credentials; the token is
    the [token] string of the decoded answer.  The status code is not
    looked at. *)
Definition getToken (baseURL username password : string) : M (string + string) :=
  let url := baseURL ++ "/api/v1/authentication/auth/" in
  let credentials := JObject [("username", JString username);
                              ("password", JString password)] in
  match NewRequestWithContext MethodPost url (Some credentials) with
  | inl err => ret (inl err)
  | inr req =>
    let req := mkRequest (ReqMethod req) (URL req)
                 (Header_Set (ReqHeader req) "Content-Type" "application/json")
                 (Body req) in
    r <- roundTrip req ;;
    match r with
    | inl err => ret (inl err)
    | inr resp =>
      match DecodeObject rt (RespBody resp) with
      | inl err => ret (inl err)
      | inr result =>
        match asString (lookup result "token") with
        | Some token => ret (inr token)
        | None => ret (inl "unable to fetch token")
        end
      end
    end
  end.

Definition missingDetail (what field var : string) : string :=
  "The provider cannot create the JumpServer API client as there is a missing or empty value for the JumpServer API "
  ++ what ++ ". " ++ "Set the " ++ field
  ++ " value in the configuration or use the " ++ var
  ++ " environment variable. "
  ++ "If either is already set, ensure the value is not empty.".

(** [JumpServerProvider.Configure]: [getenv] is the process environment.
    On success the client handed to resources and data sources carries
    the exchanged token and the base URL. *)
Definition Configure (getenv : string -> string) (data : JumpServerProviderModel)
  : M Client :=
  let baseURL := getenv "JUMP_SERVER_BASE_URL" in
  let username := getenv "JUMP_SERVER_USERNAME" in
  let password := getenv "JUMP_SERVER_PASSWORD" in
  let baseURL := if negb (String_IsNull (cfg_BaseURL data))
                 then ValueString (cfg_BaseURL data) else baseURL in
  let username := if negb (String_IsNull (cfg_Username data))
                  then ValueString (cfg_Username data) else username in
  let password := if negb (String_IsNull (cfg_Password data))
                  then ValueString (cfg_Password data) else password in
  let diags :=
    ((if String.eqb baseURL EmptyString then
        [AddAttributeError "base_url" "Missing JumpServer API Base URL"
           (missingDetail "base URL" "base_url" "JUMP_SERVER_BASE_URL")]
      else [])
     ++ (if String.eqb username EmptyString then
        [AddAttributeError "username" "Missing JumpServer API Username"
           (missingDetail "username" "username" "JUMP_SERVER_USERNAME")]
      else [])
     ++ (if String.eqb password EmptyString then
        [AddAttributeError "password" "Missing JumpServer API Password"
           (missingDetail "password" "password" "JUMP_SERVER_PASSWORD")]
      else []))%list in
  match diags with
  | _ :: _ => fun _ log => (Stop diags, log)
  | [] =>
    r <- getToken baseURL username password ;;
    match r with
    | inl err =>
      stop (AddError "Unable to authenticate with JumpServer API"
              ("An unexpected error occurred when trying to authenticate with the JumpServer API: "
               ++ err))
    | inr token =>
      ret (mkClient (Some (mkAuthTransport token baseURL)))
    end
  end.

(** Lift a computation that touches no network. *)
Definition lift {A} (r : Res A) : M A := fun _ log => (r, log).

(* ===================================================================== *)
(** * provider.go: the host-suggestions data source *)
(* ===================================================================== *)

(** [HostModel]: one result of the data source. *)
Record HostModel : Type := mkHostModel {
  hm_ID : TString;
  hm_Name : TString
}.

Record HostSuggestionsDataSourceModel : Type := mkSuggestions {
  ds_ID : TString;
  ds_Name : TString;
  ds_Address : TString;
  ds_IsActive : TString;
  ds_Type : TString;
  ds_Category : TString;
  ds_Platform : TString;
  ds_IsGateway : TString;
  ds_ExcludePlatform : TString;
  ds_Domain : TString;
  ds_Protocols : TString;
  ds_DomainEnabled : TString;
  ds_PingEnabled : TString;
  ds_GatherFactsEnabled : TString;
  ds_ChangeSecretEnabled : TString;
  ds_PushAccountEnabled : TString;
  ds_VerifyAccountEnabled : TString;
  ds_GatherAccountsEnabled : TString;
  ds_Search : TString;
  ds_Order : TString;
  ds_Limit : TInt64;
  ds_Offset : TInt64;
  ds_Results : list HostModel;
  ds_TotalCount : TInt64;
  ds_Next : TString;
  ds_Previous : TString
}.

(** [if !v.IsNull() { queryParams.Add(key, v.ValueString()) }] *)
Definition addString (v : TString) (key : string) (q : Values) : Values :=
  if negb (String_IsNull v) then Values_Add q key (ValueString v) else q.

(** [if !v.IsNull() { queryParams.Add(key, fmt.Sprintf("%d", v.ValueInt64())) }] *)
Definition addInt64 (v : TInt64) (key : string) (q : Values) : Values :=
  if negb (Int64_IsNull v) then Values_Add q key (fmt_d (ValueInt64 v)) else q.

(** The query parameters built at the head of the data source's [Read]. *)
Definition queryParams (data : HostSuggestionsDataSourceModel) : Values :=
  let q := [] in
  let q := addString (ds_ID data) "id" q in
  let q := addString (ds_Name data) "name" q in
  let q := addString (ds_Address data) "address" q in
  let q := addString (ds_IsActive data) "is_active" q in
  let q := addString (ds_Type data) "type" q in
  let q := addString (ds_Category data) "category" q in
  let q := addString (ds_Platform data) "platform" q in
  let q := addString (ds_IsGateway data) "is_gateway" q in
  let q := addString (ds_ExcludePlatform data) "exclude_platform" q in
  let q := addString (ds_Domain data) "domain" q in
  let q := addString (ds_Protocols data) "protocols" q in
  let q := addString (ds_DomainEnabled data) "domain_enabled" q in
  let q := addString (ds_PingEnabled data) "ping_enabled" q in
  let q := addString (ds_GatherFactsEnabled data) "gather_facts_enabled" q in
  let q := addString (ds_ChangeSecretEnabled data) "change_secret_enabled" q in
  let q := addString (ds_PushAccountEnabled data) "push_account_enabled" q in
  let q := addString (ds_VerifyAccountEnabled data) "verify_account_enabled" q in
  let q := addString (ds_GatherAccountsEnabled data) "gather_accounts_enabled" q in
  let q := addString (ds_Search data) "search" q in
  let q := addString (ds_Order data) "order" q in
  let q := addInt64 (ds_Limit data) "limit" q in
  let q := addInt64 (ds_Offset data) "offset" q in
  q.

Definition suggestionsPath : string := "/api/v1/assets/hosts/suggestions/".

(** The URL the data source requests. *)
Definition suggestionsURL (t : authTransport) (data : HostSuggestionsDataSourceModel)
  : string :=
  BaseURL t ++ suggestionsPath ++ "?" ++ Values_Encode (queryParams data).

(** The mapping of the decoded array into the data model. *)
Definition withResults (data : HostSuggestionsDataSourceModel) (apiResponse : list apiHost)
  : HostSuggestionsDataSourceModel :=
  mkSuggestions
    (ds_ID data) (ds_Name data) (ds_Address data) (ds_IsActive data)
    (ds_Type data) (ds_Category data) (ds_Platform data) (ds_IsGateway data)
    (ds_ExcludePlatform data) (ds_Domain data) (ds_Protocols data)
    (ds_DomainEnabled data) (ds_PingEnabled data) (ds_GatherFactsEnabled data)
    (ds_ChangeSecretEnabled data) (ds_PushAccountEnabled data)
    (ds_VerifyAccountEnabled data) (ds_GatherAccountsEnabled data)
    (ds_Search data) (ds_Order data) (ds_Limit data) (ds_Offset data)
    (map (fun result => mkHostModel (StringValue (api_ID result))
                                    (StringValue (api_Name result)))
         apiResponse)
    (Int64Value (Z.of_nat (List.length apiResponse)))
    StringNull
    StringNull.

(** [HostSuggestionsDataSource.Read] *)
Definition HostSuggestionsDataSource_Read
    (client : option Client) (data : HostSuggestionsDataSourceModel)
  : M HostSuggestionsDataSourceModel :=
  t <- transportOf client ;;
  let fullURL := suggestionsURL t data in
  match NewRequestWithContext MethodGet fullURL None with
  | inl err => stop (AddError "Failed to create HTTP request" ("Error: " ++ err))
  | inr httpReq =>
    r <- resourceClient_Do client httpReq ;;
    match r with
    | inl err => stop (AddError "Failed to send HTTP request" ("Error: " ++ err))
    | inr httpResp =>
      if negb (StatusCode httpResp =? StatusOK) then
        stop (AddError "Unexpected HTTP response status"
                ("Received status code: " ++ fmt_d (StatusCode httpResp)))
      else
        match DecodeHosts rt (RespBody httpResp) with
        | inl err => stop (AddError "Failed to decode JSON response" ("Error: " ++ err))
        | inr apiResponse => ret (withResults data apiResponse)
        end
    end
  end.

(** The framework's response to a data source read: the state is empty
    until [resp.State.Set] stores the model. *)
Definition readDataSource (client : option Client) (data : HostSuggestionsDataSourceModel)
    (net : Network)
  : option (Reply (option HostSuggestionsDataSourceModel)) * list Request :=
  let (r, log) := run (HostSuggestionsDataSource_Read client data) net in
  (reply None Some r, log).

(* ===================================================================== *)
(** * resource_assets_host.go: the host resource *)
(* ===================================================================== *)

Record JumpServerHostResourceModel : Type := mkHost {
  ID : TString;
  Name : TString;
  IP : TString;
  Platform : TString;
  NodesDisplay : TList TString;
  Protocols : TList AttrValue
}.

(** The body of the loop over [plan.Protocols.Elements()]: one protocol
    object translated into its JSON object. *)
Definition protocolEntry (proto : AttrValue) : Res JSON :=
  match proto with
  | AObject attrs =>
    let nameAttr := lookup attrs "name" in
    let portAttr := lookup attrs "port" in
    match nameAttr with
    | None => Stop [AddError "Missing Attribute" "Protocol name is required"]
    | Some (AString name) =>
      let protocol := [("name", JString (ValueString name))] in
      match portAttr with
      | Some (AInt64 port) =>
        Ok (JObject (protocol ++ [("port", JNumber (fmt_d (ValueInt64 port)))])%list)
      | Some _ => Panic
      | None => Ok (JObject protocol)
      end
    | Some _ => Panic
    end
  | _ => Stop [AddError "Type Assertion Error" "Failed to assert protocol as types.Object"]
  end.

Fixpoint translateProtocols (elems : list AttrValue) : Res (list JSON) :=
  match elems with
  | [] => Ok []
  | proto :: rest =>
    match protocolEntry proto with
    | Ok protocol =>
      match translateProtocols rest with
      | Ok protocols => Ok (protocol :: protocols)
      | Stop ds => Stop ds
      | Panic => Panic
      end
    | Stop ds => Stop ds
    | Panic => Panic
    end
  end.

(** [nodes_display] as a slice of Go strings; [ElementsAs] refuses an
    unknown list. *)
Definition translateNodes (nodes : TList TString) : Res (list JSON) :=
  match nodes with
  | ListNull => Ok []
  | ListUnknown =>
    Stop [AddError "Data Conversion Error" "Failed to convert nodes_display to []string"]
  | ListValue elems => Ok (map (fun node => JString (ValueString node)) elems)
  end.

(** The request body of a host creation. *)
Definition hostPayload (plan : JumpServerHostResourceModel)
    (nodesDisplay protocols : list JSON) : JSON :=
  JObject [("name", JString (ValueString (Name plan)));
           ("address", JString (ValueString (IP plan)));
           ("platform", JString (ValueString (Platform plan)));
           ("nodes_display", sliceJSON nodesDisplay);
           ("protocols", sliceJSON protocols);
           ("is_active", JBool true)].

Definition hostsPath : string := "/api/v1/assets/hosts/".

Definition withID (plan : JumpServerHostResourceModel) (id : string)
  : JumpServerHostResourceModel :=
  mkHost (StringValue id) (Name plan) (IP plan) (Platform plan)
         (NodesDisplay plan) (Protocols plan).

(** [assetHostResource.Create]; the result is the model written to the
    state. *)
Definition assetHostResource_Create
    (client : option Client) (plan : JumpServerHostResourceModel)
  : M JumpServerHostResourceModel :=
  protocols <- lift (translateProtocols (Elements (Protocols plan))) ;;
  nodesDisplay <- lift (translateNodes (NodesDisplay plan)) ;;
  let asset := hostPayload plan nodesDisplay protocols in
  t <- transportOf client ;;
  let fullURL := BaseURL t ++ hostsPath in
  match NewRequestWithContext MethodPost fullURL (Some asset) with
  | inl err => stop (AddError "HTTP Request Error" ("Error creating asset: " ++ err))
  | inr httpReq =>
    let h := Header_Set (ReqHeader httpReq) "Content-Type" "application/json" in
    let h := Header_Set h "Authorization" ("Bearer " ++ Token t) in
    let httpReq := mkRequest (ReqMethod httpReq) (URL httpReq) h (Body httpReq) in
    r <- Client_Do (mkClient None) httpReq ;;
    match r with
    | inl err => stop (AddError "HTTP Request Error" ("Error creating asset: " ++ err))
    | inr respBody =>
      let body := RespBody respBody in
      if negb (StatusCode respBody =? StatusCreated) then
        stop (AddError "HTTP Status Error"
                ("Error creating asset: " ++ Status respBody ++ ", Response: " ++ body))
      else
        match DecodeObject rt body with
        | inl err =>
          stop (AddError "Response Decode Error" ("Error decoding response: " ++ err))
        | inr result =>
          match asString (lookup result "id") with
          | Some id => ret (withID plan id)
          | None => stop (AddError "API Error" "Unable to retrieve asset ID from response")
          end
        end
    end
  end.

Definition hostItemPath (id : string) : string := "/api/v1/assets/hosts/" ++ id ++ "/".

(** The lenient merge of [Read]: a field is overwritten only by a string
    of that name in the decoded object. *)
Definition mergeHost (state : JumpServerHostResourceModel) (result : list (string * JSON))
  : JumpServerHostResourceModel :=
  let name := match asString (lookup result "name") with
              | Some name => StringValue name
              | None => Name state
              end in
  let ip := match asString (lookup result "ip") with
            | Some ip => StringValue ip
            | None => IP state
            end in
  let platform := match asString (lookup result "platform") with
                  | Some platform => StringValue platform
                  | None => Platform state
                  end in
  mkHost (ID state) name ip platform (NodesDisplay state) (Protocols state).

(** [assetHostResource.Read] *)
Definition assetHostResource_Read
    (client : option Client) (state : JumpServerHostResourceModel)
  : M JumpServerHostResourceModel :=
  let id := ValueString (ID state) in
  let apiPath := hostItemPath id in
  t <- transportOf client ;;
  let fullURL := BaseURL t ++ apiPath in
  match NewRequestWithContext MethodGet fullURL None with
  | inl err => stop (AddError "HTTP Request Error" ("Unable to create request: " ++ err))
  | inr httpReq =>
    let h := Header_Set (ReqHeader httpReq) "accept" "application/json" in
    let h := Header_Set h "Authorization" ("Bearer " ++ Token t) in
    let httpReq := mkRequest (ReqMethod httpReq) (URL httpReq) h (Body httpReq) in
    r <- Client_Do (mkClient None) httpReq ;;
    match r with
    | inl err => stop (AddError "HTTP Request Error" ("Unable to send request: " ++ err))
    | inr httpResp =>
      if negb (StatusCode httpResp =? StatusOK) then
        stop (AddError "API Error"
                ("Unexpected status code: " ++ Status httpResp
                 ++ ", Response: " ++ RespBody httpResp))
      else
        match DecodeObject rt (RespBody httpResp) with
        | inl err => stop (AddError "JSON Decode Error" ("Unable to decode response: " ++ err))
        | inr result => ret (mergeHost state result)
        end
    end
  end.

(** [assetHostResource.Update]: the body is empty. *)
Definition assetHostResource_Update
    (client : option Client) (plan state : JumpServerHostResourceModel)
  : M unit :=
  ret tt.

(** [assetHostResource.Delete] *)
Definition assetHostResource_Delete
    (client : option Client) (state : JumpServerHostResourceModel)
  : M unit :=
  let id := ValueString (ID state) in
  if String.eqb id EmptyString then
    stop (AddError "Missing ID" "Resource ID is required for deletion")
  else
    let apiPath := hostItemPath id in
    t <- transportOf client ;;
    let fullURL := BaseURL t ++ apiPath in
    match NewRequestWithContext MethodDelete fullURL None with
    | inl err => stop (AddError "HTTP Request Error" ("Unable to create request: " ++ err))
    | inr httpReq =>
      let h := Header_Set (ReqHeader httpReq) "accept" "application/json" in
      let h := Header_Set h "Authorization" ("Bearer " ++ Token t) in
      let httpReq := mkRequest (ReqMethod httpReq) (URL httpReq) h (Body httpReq) in
      r <- Client_Do (mkClient None) httpReq ;;
      match r with
      | inl err => stop (AddError "HTTP Request Error" ("Unable to send request: " ++ err))
      | inr httpResp =>
        if negb (StatusCode httpResp =? StatusNoContent)
           && negb (StatusCode httpResp =? StatusOK) then
          stop (AddError "API Error"
                  ("Unexpected status code: " ++ Status httpResp
                   ++ ", Response: " ++ RespBody httpResp))
        else ret tt
      end
    end.

(** The framework's view of the four host calls.  A create starts from an
    empty state; read, update and delete start from the prior state, and
    the state of the response stays what it was unless the call reaches
    its [State.Set] or [RemoveResource]. *)
Definition createHost (client : option Client) (plan : JumpServerHostResourceModel)
    (net : Network)
  : option (Reply (option JumpServerHostResourceModel)) * list Request :=
  let (r, log) := run (assetHostResource_Create client plan) net in
  (reply None Some r, log).

Definition readHost (client : option Client) (prior : JumpServerHostResourceModel)
    (net : Network)
  : option (Reply (option JumpServerHostResourceModel)) * list Request :=
  let (r, log) := run (assetHostResource_Read client prior) net in
  (reply (Some prior) Some r, log).

Definition updateHost (client : option Client)
    (plan prior : JumpServerHostResourceModel) (net : Network)
  : option (Reply (option JumpServerHostResourceModel)) * list Request :=
  let (r, log) := run (assetHostResource_Update client plan prior) net in
  (reply (Some prior) (fun _ => Some prior) r, log).

Definition deleteHost (client : option Client) (prior : JumpServerHostResourceModel)
    (net : Network)
  : option (Reply (option JumpServerHostResourceModel)) * list Request :=
  let (r, log) := run (assetHostResource_Delete client prior) net in
  (reply (Some prior) (fun _ => None) r, log).

(* ===================================================================== *)
(** * The account resource *)
(* ===================================================================== *)

Record JumpServerAccountModel : Type := mkAccount {
  acc_Name : TString;
  acc_Username : TString;
  acc_Privileged : TBool;
  acc_Is_active : TBool;
  acc_Assets : TList TString
}.

(** The cut set of the [strings.Trim] call in [Create]: the left and
    right curly double quotes and the straight double quote. *)
Definition quoteCutset : string := "“”" ++ str1 dquote.

(** What [Create] parses for one element of [assets]: the element's
    [String()] rendering with the quotes on both sides removed. *)
Definition assetText (asset : TString) : string :=
  Trim (String_String (isPrintWide rt) asset) quoteCutset.

(** The validation loop of [Create]. *)
Fixpoint validateAssets (assets : list TString) : Res (list string) :=
  match assets with
  | [] => Ok []
  | asset :: rest =>
    let assetStr := assetText asset in
    match uuid_Parse assetStr with
    | None =>
      Stop [AddError "Invalid UUID" ("Asset '" ++ assetStr ++ "' is not a valid UUID")]
    | Some _ =>
      match validateAssets rest with
      | Ok validAssets => Ok (assetStr :: validAssets)
      | Stop ds => Stop ds
      | Panic => Panic
      end
    end
  end.

(** The request body of a bulk account creation. *)
Definition accountPayload (plan : JumpServerAccountModel) (validAssets : list string)
  : JSON :=
  JObject [("name", JString (ValueString (acc_Name plan)));
           ("username", JString (ValueString (acc_Username plan)));
           ("privileged", JBool (ValueBool (acc_Privileged plan)));
           ("is_active", JBool (ValueBool (acc_Is_active plan)));
           ("assets", sliceJSON (map JString validAssets))].

(** The URL literal of [Create]. *)
Definition accountBulkURL : string :=
  "http://172.30.9.65/api/v1/accounts/accounts/bulk/".

(** [accountResource.Create]; the result is the model written to the
    state. *)
Definition accountResource_Create
    (client : option Client) (plan : JumpServerAccountModel)
  : M JumpServerAccountModel :=
  validAssets <- lift (validateAssets (Elements (acc_Assets plan))) ;;
  let payload := accountPayload plan validAssets in
  let url := accountBulkURL in
  match NewRequestWithContext MethodPost url (Some payload) with
  | inl err => stop (AddError "Error creating HTTP request" err)
  | inr httpReq =>
    let httpReq := mkRequest (ReqMethod httpReq) (URL httpReq)
                     (Header_Set (ReqHeader httpReq) "Content-Type" "application/json")
                     (Body httpReq) in
    r <- resourceClient_Do client httpReq ;;
    match r with
    | inl err => stop (AddError "Error sending HTTP request" err)
    | inr httpResp =>
      if negb (StatusCode httpResp =? StatusOK) then
        stop (AddError "API Error"
                ("Unexpected status code: " ++ fmt_d (StatusCode httpResp)
                 ++ ", Response: " ++ RespBody httpResp))
      else
        match DecodeObjects rt (RespBody httpResp) with
        | inl err => stop (AddError "Error decoding API response" err)
        | inr apiResponse =>
          match apiResponse with
          | assetInfo :: _ =>
            match asString (lookup assetInfo "state") with
            | Some state =>
              if String.eqb state "created" then ret plan
              else stop (AddError "Invalid API response"
                           "The response did not contain the expected data")
            | None => stop (AddError "Invalid API response"
                              "The response did not contain the expected data")
            end
          | [] => ret plan
          end
        end
    end
  end.

(** [accountResource.Read], [Update] and [Delete]: the bodies are empty. *)
Definition accountResource_Read
    (client : option Client) (state : JumpServerAccountModel) : M unit :=
  ret tt.

Definition accountResource_Update
    (client : option Client) (plan state : JumpServerAccountModel) : M unit :=
  ret tt.

Definition accountResource_Delete
    (client : option Client) (state : JumpServerAccountModel) : M unit :=
  ret tt.

Definition createAccount (client : option Client) (plan : JumpServerAccountModel)
    (net : Network)
  : option (Reply (option JumpServerAccountModel)) * list Request :=
  let (r, log) := run (accountResource_Create client plan) net in
  (reply None Some r, log).

Definition updateAccount (client : option Client)
    (plan prior : JumpServerAccountModel) (net : Network)
  : option (Reply (option JumpServerAccountModel)) * list Request :=
  let (r, log) := run (accountResource_Update client plan prior) net in
  (reply (Some prior) (fun _ => Some prior) r, log).

(* ===================================================================== *)
(** * Notions of the specification *)
(* ===================================================================== *)

(** A call failed with a validation error: its diagnostics hold the
    [Invalid UUID] error. *)
Definition failsValidation {S} (r : option (Reply S)) : Prop :=
  exists rep d, r = Some rep /\ In d (Diagnostics rep) /\ Summary d = "Invalid UUID".

(** At least one element of the assets list is not a UUID by syntax:
    the element's value itself is what [uuid.Parse] refuses. *)
Definition someAssetNotUUID (plan : JumpServerAccountModel) : Prop :=
  exists a, In a (Elements (acc_Assets plan)) /\ uuid_Parse (ValueString a) = None.

(** A call succeeded: it returned and added no diagnostic. *)
Definition succeeded {S} (r : option (Reply S)) : Prop :=
  exists rep, r = Some rep /\ Diagnostics rep = [].

(** The identifier a creation response carries: the [id] string of the
    decoded body of a 201 answer. *)
Definition createdID (resp : Response) : option string :=
  if StatusCode resp =? 201 then
    match DecodeObject rt (RespBody resp) with
    | inr obj => asString (lookup obj "id")
    | inl _ => None
    end
  else None.

(** A state field after a lenient merge: the string the decoded object
    holds under [key], the prior value when there is none. *)
Definition mergedField (obj : list (string * JSON)) (key : string) (prior : TString)
  : TString :=
  match lookup obj key with
  | Some (JString s) => StringValue s
  | _ => prior
  end.

End Provider.

(* ===================================================================== *)
(** * The [Configure] methods of the resources and the data source *)
(* ===================================================================== *)

(** [req.ProviderData], an [any]: nil, a pointer to an [http.Client]
    (which may itself be a nil pointer), or a value of another type,
    kept by the name [%T] prints for it. *)
Inductive ProviderData : Type :=
| NoProviderData
| ClientData (c : option Client)
| OtherData (typeName : string).

Definition unexpectedConfigureType (typeName : string) : Diagnostic :=
  AddError "Unexpected Data Source Configure Type"
    ("Expected *http.Client, got: " ++ typeName
     ++ ". Please report this issue to the provider developers.").

(** [assetHostResource.Configure]: the diagnostics added and the
    resource's client after the call, [client] being the one before. *)
Definition assetHostResource_Configure (client : option Client) (pd : ProviderData)
  : list Diagnostic * option Client :=
  match pd with
  | NoProviderData => ([], client)
  | ClientData c => ([], c)
  | OtherData typeName => ([unexpectedConfigureType typeName], client)
  end.

(** [accountResource.Configure] *)
Definition accountResource_Configure (client : option Client) (pd : ProviderData)
  : list Diagnostic * option Client :=
  match pd with
  | NoProviderData => ([], client)
  | ClientData c => ([], c)
  | OtherData typeName => ([unexpectedConfigureType typeName], client)
  end.

(** [HostSuggestionsDataSource.Configure] *)
Definition HostSuggestionsDataSource_Configure (client : option Client) (pd : ProviderData)
  : list Diagnostic * option Client :=
  match pd with
  | NoProviderData => ([], client)
  | ClientData c => ([], c)
  | OtherData typeName => ([unexpectedConfigureType typeName], client)
  end.

(** What the provider's [Configure] leaves in [resp.ResourceData] and
    [resp.DataSourceData]: the client on the path that reaches the two
    assignments, nothing on the others. *)
Definition providerData (r : Res Client) : ProviderData :=
  match r with
  | Ok client => ClientData (Some client)
  | _ => NoProviderData
  end.

(** The values a header holds under a canonical key, in order. *)
Definition headerValues (h : Header) (key : string) : list string :=
  map snd (filter (fun kv => String.eqb (fst kv) key) h).

(** A byte string of printable ASCII without the double quote and the
    backslash. *)
Definition plainByte (b : Z) : bool :=
  (32 <=? b) && (b <=? 126) && negb (b =? 34) && negb (b =? 92).

Definition plainASCII (s : string) : bool := forallb plainByte (bytes s).

(** The member of a request body under [key]. *)
Definition member (v : option JSON) (key : string) : option JSON :=
  match v with
  | Some (JObject members) => lookup members key
  | _ => None
  end.

(** Adding one entry of a filter set to the query parameters. *)
Definition addFilter (q : Values) (kv : string * option string) : Values :=
  match snd kv with
  | Some v => Values_Add q (fst kv) v
  | None => q
  end.

(** The values a filter set holds for [key], in order. *)
Definition setValues (fs : list (string * option string)) (key : string) : list string :=
  flat_map (fun kv => if String.eqb (fst kv) key
                      then match snd kv with Some v => [v] | None => [] end
                      else [])
           fs.

(** A setting of the provider: the configured value unless it is null,
    the environment variable otherwise. *)
Definition effective (getenv : string -> string) (v : TString) (var : string) : string :=
  if String_IsNull v then getenv var else ValueString v.

(** The filter set of a query, by parameter name: [Some] of the text to
    send for a filter that is set, [None] for one left unset. *)
Definition setString (v : TString) : option string :=
  if String_IsNull v then None else Some (ValueString v).

Definition setInt64 (v : TInt64) : option string :=
  if Int64_IsNull v then None else Some (fmt_d (ValueInt64 v)).

Definition filters (data : HostSuggestionsDataSourceModel) : list (string * option string) :=
  [("id", setString (ds_ID data));
   ("name", setString (ds_Name data));
   ("address", setString (ds_Address data));
   ("is_active", setString (ds_IsActive data));
   ("type", setString (ds_Type data));
   ("category", setString (ds_Category data));
   ("platform", setString (ds_Platform data));
   ("is_gateway", setString (ds_IsGateway data));
   ("exclude_platform", setString (ds_ExcludePlatform data));
   ("domain", setString (ds_Domain data));
   ("protocols", setString (ds_Protocols data));
   ("domain_enabled", setString (ds_DomainEnabled data));
   ("ping_enabled", setString (ds_PingEnabled data));
   ("gather_facts_enabled", setString (ds_GatherFactsEnabled data));
   ("change_secret_enabled", setString (ds_ChangeSecretEnabled data));
   ("push_account_enabled", setString (ds_PushAccountEnabled data));
   ("verify_account_enabled", setString (ds_VerifyAccountEnabled data));
   ("gather_accounts_enabled", setString (ds_GatherAccountsEnabled data));
   ("search", setString (ds_Search data));
   ("order", setString (ds_Order data));
   ("limit", setInt64 (ds_Limit data));
   ("offset", setInt64 (ds_Offset data))].

(** The parameters a query string holds for [key], given the filter set. *)
Definition expectedParams (data : HostSuggestionsDataSourceModel) (key : string)
  : list string :=
  match lookup (filters data) key with
  | Some (Some v) => [v]
  | _ => []
  end.

(** The filters that are set, each with the text to send, in the order
    of declaration. *)
Definition keep (kv : string * option string) : list (string * string) :=
  match snd kv with
  | Some v => [(fst kv, v)]
  | None => []
  end.

Definition setFilters (data : HostSuggestionsDataSourceModel) : list (string * string) :=
  flat_map keep (filters data).

(** The entry of [url.Values] that holds one value under a name. *)
Definition single (kv : string * string) : string * list string := (fst kv, [snd kv]).

(** Strings joined by ampersands. *)
Fixpoint joinAmp (parts : list string) : string :=
  match parts with
  | [] => EmptyString
  | p :: rest =>
    match rest with
    | [] => p
    | _ => p ++ "&" ++ joinAmp rest
    end
  end.

(** The query string of a filter set: one [name=value] per filter that
    is set, name and value query-escaped, the names in sorted order. *)
Definition expectedQuery (data : HostSuggestionsDataSourceModel) : string :=
  joinAmp
    (map (fun name =>
            QueryEscape name ++ "="
            ++ QueryEscape (match lookup (setFilters data) name with
                            | Some v => v
                            | None => EmptyString
                            end))
         (sortKeys (map fst (setFilters data)))).

(** Only the [name] filter is set. *)
Definition onlyNameSet (data : HostSuggestionsDataSourceModel) : bool :=
  forallb (fun kv => if String.eqb (fst kv) "name"
                     then match snd kv with Some _ => true | None => false end
                     else match snd kv with Some _ => false | None => true end)
          (filters data).

(** The three settings [Configure] works with. *)
Definition configuredBaseURL (getenv : string -> string) (data : JumpServerProviderModel)
  : string := effective getenv (cfg_BaseURL data) "JUMP_SERVER_BASE_URL".

Definition configuredUsername (getenv : string -> string) (data : JumpServerProviderModel)
  : string := effective getenv (cfg_Username data) "JUMP_SERVER_USERNAME".

Definition configuredPassword (getenv : string -> string) (data : JumpServerProviderModel)
  : string := effective getenv (cfg_Password data) "JUMP_SERVER_PASSWORD".

(** The protocols schema of the host resource: a nested object with a
    string [name] and an integer [port].  An object the framework builds
    for this schema has both attributes; an optional attribute left out
    of the configuration is present with a null value. *)
Definition conformsToProtocolSchema (v : AttrValue) : bool :=
  match v with
  | AObject attrs =>
    match lookup attrs "name", lookup attrs "port" with
    | Some (AString _), Some (AInt64 _) => (List.length attrs =? 2)%nat
    | _, _ => false
    end
  | _ => false
  end.

(** Membership of a key in a JSON object. *)
Definition hasMember (v : JSON) (key : string) : bool :=
  match v with
  | JObject members => match lookup members key with Some _ => true | None => false end
  | _ => false
  end.

(** A provider model with another [token]. *)
Definition withToken (data : JumpServerProviderModel) (token : TString)
  : JumpServerProviderModel :=
  mkProviderModel (cfg_BaseURL data) (cfg_Username data) (cfg_Password data) token.

(* ===================================================================== *)
(** * Sample inputs for the concrete runs *)
(* ===================================================================== *)

(** [s] between two straight double quotes. *)
Definition quoted (s : string) : string := String dquote (s ++ str1 dquote).

Definition bodyCreated : string :=
  "{" ++ quoted "id" ++ ":" ++ quoted "h-42" ++ "}".

Definition bodyHost : string :=
  "{" ++ quoted "id" ++ ":" ++ quoted "h-42" ++ ","
      ++ quoted "name" ++ ":" ++ quoted "web-2" ++ ","
      ++ quoted "platform" ++ ":7}".

Definition bodyToken : string :=
  "{" ++ quoted "token" ++ ":" ++ quoted "tok-1" ++ "}".

Definition bodySuggestions : string :=
  "[{" ++ quoted "id" ++ ":" ++ quoted "h-1" ++ "," ++ quoted "name" ++ ":" ++ quoted "web-1" ++ "},"
  ++ "{" ++ quoted "id" ++ ":" ++ quoted "h-2" ++ "," ++ quoted "name" ++ ":" ++ quoted "web-2" ++ "}]".

(** The decoders on the bodies above, and an error on any other text. *)
Definition sampleDecodeObject (body : string) : string + list (string * JSON) :=
  if String.eqb body bodyCreated then inr [("id", JString "h-42")]
  else if String.eqb body bodyHost then
    inr [("id", JString "h-42"); ("name", JString "web-2"); ("platform", JNumber "7")]
  else if String.eqb body bodyToken then inr [("token", JString "tok-1")]
  else inl "invalid character".

Definition sampleDecodeHosts (body : string) : string + list apiHost :=
  if String.eqb body bodySuggestions then
    inr [mkApiHost "h-1" "web-1"; mkApiHost "h-2" "web-2"]
  else inl "invalid character".

(** The two code points of the Unicode tables the runs below touch:
    the curly double quotes U+201C and U+201D are printable. *)
Definition curlyQuotesPrintable (r : Z) : bool := (r =? 8220) || (r =? 8221).

Definition bodyBulk : string :=
  "[{" ++ quoted "asset" ++ ":" ++ quoted "web-1(10.0.0.5)" ++ ","
       ++ quoted "state" ++ ":" ++ quoted "created" ++ ","
       ++ quoted "changed" ++ ":true}]".

Definition sampleDecodeObjects (body : string) : string + list (list (string * JSON)) :=
  if String.eqb body bodyBulk then
    inr [[("asset", JString "web-1(10.0.0.5)");
          ("state", JString "created");
          ("changed", JBool true)]]
  else inl "invalid character".

Definition sampleRuntime : GoRuntime :=
  mkRuntime sampleDecodeObject
            sampleDecodeObjects
            sampleDecodeHosts
            (fun _ => None)
            curlyQuotesPrintable.

Definition sampleTransport : authTransport :=
  mkAuthTransport "tok-1" "https://jumpserver.example.com".

Definition sampleClient : option Client := Some (mkClient (Some sampleTransport)).

(** A network that answers every request with [resp]. *)
Definition answering (resp : Response) : Network := fun _ => inr resp.

Definition bulkCreated : Network := answering (mkResponse "200 OK" 200 bodyBulk).

(** The host of the specification's end-to-end scenario. *)
Definition sampleHost : JumpServerHostResourceModel :=
  mkHost StringNull (StringValue "web-1") (StringValue "10.0.0.5") (StringValue "Linux")
         (ListValue [StringValue "/Default"])
         (ListValue [AObject [("name", AString (StringValue "ssh"));
                              ("port", AInt64 (Int64Value 22))]]).

Definition sampleHostPresent : JumpServerHostResourceModel := withID sampleHost "h-42".

(** A protocol entry written without a port: the attribute is null. *)
Definition protocolWithoutPort : AttrValue :=
  AObject [("name", AString (StringValue "ssh")); ("port", AInt64 Int64Null)].

Definition sampleHostNoPort : JumpServerHostResourceModel :=
  mkHost StringNull (StringValue "web-1") (StringValue "10.0.0.5") (StringValue "Linux")
         (ListValue [StringValue "/Default"])
         (ListValue [protocolWithoutPort]).

(** The request a creation of [sampleHost] through [sampleClient] sends. *)
Definition sampleCreateRequest : Request :=
  mkRequest MethodPost "https://jumpserver.example.com/api/v1/assets/hosts/"
    [("Content-Type", "application/json"); ("Authorization", "Bearer tok-1")]
    (Some (JObject [("name", JString "web-1");
                    ("address", JString "10.0.0.5");
                    ("platform", JString "Linux");
                    ("nodes_display", JArray [JString "/Default"]);
                    ("protocols", JArray [JObject [("name", JString "ssh");
                                                   ("port", JNumber "22")]]);
                    ("is_active", JBool true)])).

(** The request a read or delete of [sampleHostPresent] sends. *)
Definition sampleItemRequest (m : Method) : Request :=
  mkRequest m "https://jumpserver.example.com/api/v1/assets/hosts/h-42/"
    [("Accept", "application/json"); ("Authorization", "Bearer tok-1")]
    None.

Definition created201 : Response := mkResponse "201 Created" 201 bodyCreated.
Definition ok200 (body : string) : Response := mkResponse "200 OK" 200 body.
Definition noContent204 : Response := mkResponse "204 No Content" 204 EmptyString.
Definition notFound404 : Response := mkResponse "404 Not Found" 404 "gone".

Definition sampleUUID : string := "550e8400-e29b-41d4-a716-446655440000".

Definition sampleAccount (assets : list TString) : JumpServerAccountModel :=
  mkAccount (StringValue "ops") (StringValue "root") (BoolValue true) (BoolValue true)
            (ListValue assets).

(** An asset identifier typed between curly quotes. *)
Definition curlyQuotedUUID : string := "“" ++ sampleUUID ++ "”".

Definition sampleQuery (name : TString) : HostSuggestionsDataSourceModel :=
  mkSuggestions StringNull name StringNull StringNull StringNull StringNull
    StringNull StringNull StringNull StringNull StringNull StringNull StringNull
    StringNull StringNull StringNull StringNull StringNull StringNull StringNull
    Int64Null Int64Null [] Int64Null StringNull StringNull.

(** A query by name with a page size. *)
Definition sampleQueryLimited : HostSuggestionsDataSourceModel :=
  mkSuggestions StringNull (StringValue "web 1") StringNull StringNull StringNull
    StringNull StringNull StringNull StringNull StringNull StringNull StringNull
    StringNull StringNull StringNull StringNull StringNull StringNull StringNull
    StringNull (Int64Value 10) Int64Null [] Int64Null StringNull StringNull.

Definition sampleConfig (token : TString) : JumpServerProviderModel :=
  mkProviderModel (StringValue "https://jumpserver.example.com")
                  (StringValue "admin") (StringValue "secret") token.

Definition noEnv : string -> string := fun _ => EmptyString.

Definition sampleSuggestionsRequest : Request :=
  mkRequest MethodGet
    "https://jumpserver.example.com/api/v1/assets/hosts/suggestions/?name=web+1"
    [("Authorization", "Bearer tok-1")] None.

Definition sampleAuthRequest : Request :=
  mkRequest MethodPost "https://jumpserver.example.com/api/v1/authentication/auth/"
    [("Content-Type", "application/json")]
    (Some (JObject [("username", JString "admin"); ("password", JString "secret")])).

(** Two networks that answer every request alike up to the status line:
    the same transport error, or answers with the same body. *)
Definition sameBodies (net net' : Network) : Prop :=
  forall req,
    match net req, net' req with
    | inl e, inl e' => e = e'
    | inr r, inr r' => RespBody r = RespBody r'
    | _, _ => False
    end.

(** The paths of the settings that are empty, in the order [Configure]
    checks them. *)
Definition missingSettings (baseURL username password : string) : list (option string) :=
  ((if String.eqb baseURL EmptyString then [Some "base_url"] else [])
   ++ (if String.eqb username EmptyString then [Some "username"] else [])
   ++ (if String.eqb password EmptyString then [Some "password"] else []))%list.

(** A network that fails every request. *)
Definition unreachable : Network := fun _ => inl "connection refused".

(** An environment with the three variables of the provider set. *)
Definition sampleEnv (var : string) : string :=
  if String.eqb var "JUMP_SERVER_BASE_URL" then "https://env.example.com"
  else if String.eqb var "JUMP_SERVER_USERNAME" then "env-user"
  else if String.eqb var "JUMP_SERVER_PASSWORD" then "env-pass"
  else EmptyString.

(** A configuration whose base URL is set to the empty string. *)
Definition emptyBaseConfig : JumpServerProviderModel :=
  mkProviderModel (StringValue EmptyString) (StringValue "admin")
                  (StringValue "secret") StringNull.

(** A protocol element [Create] refuses before any request: a value that
    is no object, or an object without a [name] attribute. *)
Definition malformedProtocol (proto : AttrValue) : bool :=
  match proto with
  | AObject attrs =>
    match lookup attrs "name" with
    | None => true
    | Some _ => false
    end
  | _ => true
  end.

(** A client as the provider's [Configure] builds it. *)
Definition configuredClient (t : authTransport) : option Client :=
  Some (mkClient (Some t)).

(** A plan whose only protocol has no name. *)
Definition sampleHostNamelessProtocol : JumpServerHostResourceModel :=
  mkHost StringNull (StringValue "web-1") (StringValue "10.0.0.5") (StringValue "Linux")
         (ListValue [StringValue "/Default"])
         (ListValue [AObject [("port", AInt64 (Int64Value 22))]]).

Definition bodyEmptyID : string :=
  "{" ++ quoted "id" ++ ":" ++ quoted EmptyString ++ "}".

(** A runtime whose object decoder also knows the body with an empty
    identifier. *)
Definition sampleRuntimeEmptyID : GoRuntime :=
  mkRuntime (fun body => if String.eqb body bodyEmptyID
                         then inr [("id", JString EmptyString)]
                         else sampleDecodeObject body)
            sampleDecodeObjects sampleDecodeHosts (fun _ => None) curlyQuotesPrintable.

(** The header of a host read or deletion. *)
Definition itemHeader (t : authTransport) : Header :=
  Header_Set (Header_Set [] "accept" "application/json")
             "Authorization" ("Bearer " ++ Token t).

(** The first entry of a bulk answer reports a creation. *)
Definition firstEntryCreated (entries : list (list (string * JSON))) : Prop :=
  match entries with
  | [] => True
  | first :: _ => lookup first "state" = Some (JString "created")
  end.

Definition bodyBulkMixed : string :=
  "[{" ++ quoted "state" ++ ":" ++ quoted "created" ++ "},{"
       ++ quoted "state" ++ ":" ++ quoted "failed" ++ "}]".

(** A runtime whose bulk decoder also knows an answer whose second entry
    reports a failure. *)
Definition sampleRuntimeMixed : GoRuntime :=
  mkRuntime sampleDecodeObject
            (fun body => if String.eqb body bodyBulkMixed
                         then inr [[("state", JString "created")];
                                   [("state", JString "failed")]]
                         else sampleDecodeObjects body)
            sampleDecodeHosts (fun _ => None) curlyQuotesPrintable.

Definition sampleUUID2 : string := "123e4567-e89b-12d3-a456-426614174000".

(* ===================================================================== *)
(** * Proofs *)
(* ===================================================================== *)

Ltac unfold_monad :=
  unfold run, bind, ret, stop, panic, lift, roundTrip, resourceClient_Do,
         Client_Do, RoundTrip, transportOf, NewRequestWithContext in *.

(** Case analysis on the subject of an innermost [match] or [if] of the
    goal, followed by the reductions this enables. *)
Ltac break_match :=
  match goal with
  | |- context [match ?x with _ => _ end] =>
    lazymatch x with
    | context [match _ with _ => _ end] => fail
    | _ => destruct x eqn:?
    end
  end; cbn.

Arguments String.append : simpl never.
Arguments Header_Set : simpl never.
Arguments fmt_d : simpl never.
Arguments Values_Encode : simpl never.

Ltac inv H := inversion H; subst; clear H.

(** The answer the network gave to the one request of a call. *)
Ltac same_response :=
  match goal with
  | H1 : ?net ?r = _, H2 : ?net ?r = inr _ |- _ =>
    rewrite H1 in H2; try discriminate H2; inv H2
  end.

(** Bring the status tests met along a path into the form of equations
    and inequations on the status code. *)
Ltac status_eqs :=
  unfold StatusCreated, StatusOK, StatusNoContent in *;
  repeat match goal with
         | H : negb _ = true |- _ => apply negb_true_iff in H
         | H : negb _ = false |- _ => apply negb_false_iff in H
         | H : andb _ _ = true |- _ => apply andb_true_iff in H; destruct H
         | H : andb _ _ = false |- _ => apply andb_false_iff in H; destruct H
         | H : (_ =? _) = true |- _ => apply Z.eqb_eq in H
         | H : (_ =? _) = false |- _ => apply Z.eqb_neq in H
         end.

(** ** The validation loop of the account resource *)

Section AccountValidation.

Variable rt : GoRuntime.

Lemma validateAssets_never_panics (assets : list TString) :
  validateAssets rt assets <> Panic.
Proof.
  induction assets as [|a rest IH]; simpl; [discriminate|].
  destruct (uuid_Parse (assetText rt a)); [|discriminate].
  destruct (validateAssets rt rest); congruence.
Qed.

Lemma validateAssets_Ok (assets : list TString) (valid : list string) :
  validateAssets rt assets = Ok valid ->
  valid = map (assetText rt) assets
  /\ forall a, In a assets -> uuid_Parse (assetText rt a) <> None.
Proof.
  revert valid; induction assets as [|a rest IH]; simpl; intros valid H.
  - inv H. split; [reflexivity|]. intros a [].
  - destruct (uuid_Parse (assetText rt a)) eqn:Hp; [|discriminate].
    destruct (validateAssets rt rest) as [v| |] eqn:Hr; try discriminate.
    inv H. destruct (IH v eq_refl) as [-> Hall]. split; [reflexivity|].
    intros b [<-|Hb]; [congruence|auto].
Qed.

Lemma validateAssets_Stop (assets : list TString) (ds : list Diagnostic) :
  validateAssets rt assets = Stop ds ->
  exists a, In a assets
         /\ uuid_Parse (assetText rt a) = None
         /\ ds = [AddError "Invalid UUID"
                    ("Asset '" ++ assetText rt a ++ "' is not a valid UUID")].
Proof.
  induction assets as [|a rest IH]; simpl; intros H; [discriminate|].
  destruct (uuid_Parse (assetText rt a)) eqn:Hp.
  - destruct (validateAssets rt rest) as [v|ds'|] eqn:Hr; try discriminate.
    inv H. destruct (IH eq_refl) as (b & Hin & Hb & Hds).
    exists b. auto.
  - inv H. exists a. auto.
Qed.

Lemma validateAssets_complete (assets : list TString) (a : TString) :
  In a assets -> uuid_Parse (assetText rt a) = None ->
  exists ds, validateAssets rt assets = Stop ds.
Proof.
  intros Hin Hp.
  destruct (validateAssets rt assets) as [v|ds|] eqn:Hv.
  - apply validateAssets_Ok in Hv. destruct Hv as [_ Hall].
    exfalso. exact (Hall a Hin Hp).
  - eauto.
  - exfalso. exact (validateAssets_never_panics _ Hv).
Qed.

(** After a passed validation, [Create] never reports [Invalid UUID], and
    every request it sends goes to the URL literal. *)
Lemma account_create_after_validation
    (client : option Client) (plan : JumpServerAccountModel) (net : Network)
    (valid : list string) :
  validateAssets rt (Elements (acc_Assets plan)) = Ok valid ->
  ~ failsValidation (fst (createAccount rt client plan net))
  /\ Forall (fun req => URL req = accountBulkURL)
            (snd (createAccount rt client plan net)).
Proof.
  intros Hv. unfold createAccount, accountResource_Create.
  unfold_monad. rewrite Hv. cbn.
  repeat break_match;
    (split;
     [ intros (rep & d & Hrep & Hin & Hs); try discriminate Hrep; inv Hrep;
       cbn in Hin;
       repeat (destruct Hin as [<-|Hin]; [discriminate Hs|]); contradiction
     | repeat constructor ]).
Qed.

End AccountValidation.

Lemma account_create_validation_stop
    (rt : GoRuntime) (client : option Client) (plan : JumpServerAccountModel)
    (net : Network) (ds : list Diagnostic) :
  validateAssets rt (Elements (acc_Assets plan)) = Stop ds ->
  createAccount rt client plan net = (Some (mkReply ds None), []).
Proof.
  intros Hv. unfold createAccount, accountResource_Create.
  unfold_monad. rewrite Hv. reflexivity.
Qed.

(** ** C1: the account creation request goes to a fixed address *)

(** C1 (code defect).  The specification has the bulk-creation request
    sent to the configured base URL followed by
    [/api/v1/accounts/accounts/bulk/].  The code posts to a URL literal
    instead: whatever the runtime, the client (and so the base URL), the
    plan and the network, every request an account creation sends has the
    literal as its URL; with the base URL
    [https://jumpserver.example.com] the one request of a creation goes
    to [http://172.30.9.65/...], not to the configured server. *)
Theorem account_create_posts_to_fixed_address :
  (forall rt client plan net,
      Forall (fun req => URL req = "http://172.30.9.65/api/v1/accounts/accounts/bulk/")
             (snd (createAccount rt client plan net)))
  /\ (exists req,
         snd (createAccount sampleRuntime sampleClient
                (sampleAccount [StringValue sampleUUID]) bulkCreated) = [req]
         /\ URL req = "http://172.30.9.65/api/v1/accounts/accounts/bulk/"
         /\ URL req <> BaseURL sampleTransport ++ "/api/v1/accounts/accounts/bulk/").
Proof.
  split.
  - intros rt client plan net.
    destruct (validateAssets rt (Elements (acc_Assets plan))) as [v|ds|] eqn:Hv.
    + exact (proj2 (account_create_after_validation rt client plan net v Hv)).
    + rewrite (account_create_validation_stop rt client plan net ds Hv).
      constructor.
    + exfalso. exact (validateAssets_never_panics _ _ Hv).
  - eexists. split; [vm_compute; reflexivity|].
    split; [reflexivity|]. vm_compute. discriminate.
Qed.

(** ** C2: local validation of the asset identifiers *)

(** Whatever else the Unicode tables hold, once they list the two curly
    quotes as printable the rendering of the curly-quoted identifier
    keeps them, and the trimming then leaves the bare identifier. *)
Lemma quote_curly_quoted (wide : Z -> bool) :
  wide 8220 = true -> wide 8221 = true ->
  Quote wide curlyQuotedUUID = String dquote (curlyQuotedUUID ++ str1 dquote).
Proof.
  intros H1 H2. unfold Quote. f_equal. f_equal.
  unfold curlyQuotedUUID, sampleUUID.
  vm_compute. rewrite H1, H2. reflexivity.
Qed.

Lemma assetText_curly_quoted (rt : GoRuntime) :
  isPrintWide rt 8220 = true -> isPrintWide rt 8221 = true ->
  assetText rt (StringValue curlyQuotedUUID) = sampleUUID
  /\ uuid_Parse (assetText rt (StringValue curlyQuotedUUID)) <> None
  /\ uuid_Parse curlyQuotedUUID = None.
Proof.
  intros H1 H2.
  assert (H : assetText rt (StringValue curlyQuotedUUID) = sampleUUID).
  { unfold assetText, String_String. rewrite (quote_curly_quoted _ H1 H2).
    vm_compute. reflexivity. }
  split; [exact H|]. rewrite H.
  split; vm_compute; [discriminate|reflexivity].
Qed.

(** C2, as the specification words it, fails on the code: an asset typed
    between curly quotes is not a UUID by syntax ([uuid.Parse] refuses
    the value), yet the creation passes validation, sends its request
    with the quotes stripped, and succeeds. *)
Lemma account_create_accepts_curly_quoted_uuid :
  someAssetNotUUID (sampleAccount [StringValue curlyQuotedUUID])
  /\ ~ failsValidation
        (fst (createAccount sampleRuntime sampleClient
                (sampleAccount [StringValue curlyQuotedUUID]) bulkCreated))
  /\ succeeded
        (fst (createAccount sampleRuntime sampleClient
                (sampleAccount [StringValue curlyQuotedUUID]) bulkCreated))
  /\ map Body (snd (createAccount sampleRuntime sampleClient
                      (sampleAccount [StringValue curlyQuotedUUID]) bulkCreated))
     = [Some (accountPayload (sampleAccount [StringValue curlyQuotedUUID]) [sampleUUID])].
Proof.
  split.
  { exists (StringValue curlyQuotedUUID). split; [left; reflexivity|].
    vm_compute. reflexivity. }
  split.
  { intros (rep & d & Hrep & Hin & Hs). vm_compute in Hrep. inv Hrep.
    destruct Hin. }
  split.
  { eexists. split; [vm_compute; reflexivity|reflexivity]. }
  vm_compute. reflexivity.
Qed.

(** C2 (amended).  For every account creation, the call fails with the
    [Invalid UUID] validation error if and only if, for at least one
    element of the assets list, the element's rendering with the double
    quotes (straight or curly) stripped from both sides fails
    [uuid.Parse]; and when it so fails, no HTTP request is sent. *)
Theorem account_create_validation_iff
    (rt : GoRuntime) (client : option Client) (plan : JumpServerAccountModel)
    (net : Network) :
  (failsValidation (fst (createAccount rt client plan net))
   <-> exists a, In a (Elements (acc_Assets plan))
              /\ uuid_Parse (assetText rt a) = None)
  /\ (failsValidation (fst (createAccount rt client plan net))
      -> snd (createAccount rt client plan net) = []).
Proof.
  destruct (validateAssets rt (Elements (acc_Assets plan))) as [v|ds|] eqn:Hv.
  - destruct (account_create_after_validation rt client plan net v Hv) as [Hno _].
    destruct (validateAssets_Ok rt _ _ Hv) as [_ Hall].
    split; [split|]; intros H.
    + contradiction.
    + destruct H as (a & Hin & Hp). exfalso. exact (Hall a Hin Hp).
    + contradiction.
  - rewrite (account_create_validation_stop rt client plan net ds Hv). cbn.
    destruct (validateAssets_Stop rt _ _ Hv) as (a & Hin & Hp & ->).
    split; [split|]; intros H.
    + exists a. auto.
    + eexists; eexists. split; [reflexivity|]. split; [left; reflexivity|reflexivity].
    + reflexivity.
  - exfalso. exact (validateAssets_never_panics _ _ Hv).
Qed.

(** A run of C2: the second asset is no UUID, the call stops with the
    validation error and the log of requests is empty. *)
Lemma account_create_validation_iff_witness :
  failsValidation
    (fst (createAccount sampleRuntime sampleClient
            (sampleAccount [StringValue sampleUUID; StringValue "not-a-uuid"])
            bulkCreated))
  /\ snd (createAccount sampleRuntime sampleClient
            (sampleAccount [StringValue sampleUUID; StringValue "not-a-uuid"])
            bulkCreated) = [].
Proof.
  destruct (account_create_validation_iff sampleRuntime sampleClient
              (sampleAccount [StringValue sampleUUID; StringValue "not-a-uuid"])
              bulkCreated) as [[_ Hback] Hlog].
  assert (Hfail : failsValidation
            (fst (createAccount sampleRuntime sampleClient
                    (sampleAccount [StringValue sampleUUID; StringValue "not-a-uuid"])
                    bulkCreated))).
  { apply Hback. exists (StringValue "not-a-uuid").
    split; [right; left; reflexivity|]. vm_compute. reflexivity. }
  split; [exact Hfail|exact (Hlog Hfail)].
Defined.

(** ** C3: the outcome of a host creation *)

Lemma protocolEntry_Stop (proto : AttrValue) (ds : list Diagnostic) :
  protocolEntry proto = Stop ds -> ds <> [].
Proof.
  unfold protocolEntry. repeat break_match; intros H; inv H; discriminate.
Qed.

Lemma translateProtocols_Stop (elems : list AttrValue) (ds : list Diagnostic) :
  translateProtocols elems = Stop ds -> ds <> [].
Proof.
  induction elems as [|p rest IH]; cbn; [discriminate|].
  destruct (protocolEntry p) eqn:Hp.
  - destruct (translateProtocols rest); intros H; inv H. auto.
  - intros H; inv H. eapply protocolEntry_Stop; eauto.
  - discriminate.
Qed.

Lemma translateNodes_Stop (nodes : TList TString) (ds : list Diagnostic) :
  translateNodes nodes = Stop ds -> ds <> [].
Proof. destruct nodes; cbn; intros H; inv H; discriminate. Qed.

(** C3.  For every host creation: the call succeeds exactly when it
    received an HTTP response with status 201 whose body decodes to a
    JSON object with an [id] string, and in that case the state holds
    that string as the identifier of the resource, the other attributes
    being those of the plan; for a response with any other status, or a
    201 body that does not decode or has no [id] string, the call
    reports one error and the state stays empty (no identifier is
    recorded). *)
Theorem host_create_succeeds_iff_created
    (rt : GoRuntime) (client : option Client) (plan : JumpServerHostResourceModel)
    (net : Network) :
  (succeeded (fst (createHost rt client plan net))
   <-> exists req resp id,
         snd (createHost rt client plan net) = [req]
         /\ net req = inr resp
         /\ createdID rt resp = Some id)
  /\ (forall req resp,
         snd (createHost rt client plan net) = [req] ->
         net req = inr resp ->
         match createdID rt resp with
         | Some id =>
           exists st,
             fst (createHost rt client plan net) = Some (mkReply [] (Some st))
             /\ ID st = StringValue id
             /\ Name st = Name plan
             /\ IP st = IP plan
             /\ Platform st = Platform plan
             /\ NodesDisplay st = NodesDisplay plan
             /\ Protocols st = Protocols plan
         | None =>
           exists d, fst (createHost rt client plan net) = Some (mkReply [d] None)
         end).
Proof.
  split.
  - unfold createHost, assetHostResource_Create, succeeded.
    unfold_monad. cbn.
    repeat break_match;
      (split;
       [ intros (rep & Hrep & Hd);
         first
           [ discriminate Hrep
           | inv Hrep; discriminate Hd
           | inv Hrep; cbn in Hd; subst; exfalso;
             solve [ eapply translateNodes_Stop; eauto
                   | eapply translateProtocols_Stop; eauto ]
           | do 3 eexists; split; [reflexivity|]; split; [eassumption|];
             unfold createdID, StatusCreated in *;
             match goal with
             | H : negb _ = false |- _ => apply negb_false_iff in H; rewrite H
             end;
             match goal with
             | H : DecodeObject _ _ = _ |- _ => rewrite H
             end;
             eassumption ]
       | intros (req & resp & id & Hlog & Hnet & Hid);
         first
           [ discriminate Hlog
           | inv Hlog; same_response; unfold createdID, StatusCreated in *;
             repeat match goal with
                    | H : negb _ = true |- _ => apply negb_true_iff in H
                    | H : negb _ = false |- _ => apply negb_false_iff in H
                    end;
             repeat match type of Hid with
                    | context [match ?x with _ => _ end] => destruct x eqn:?
                    end;
             first [ congruence | eexists; split; reflexivity ] ] ]).
  - intros req resp.
    unfold createHost, assetHostResource_Create, createdID.
    unfold_monad. cbn.
    repeat break_match; intros Hlog Hnet; try discriminate Hlog; inv Hlog;
      try same_response; status_eqs; try congruence; eauto;
      (eexists; split; [reflexivity|]; cbn [withID ID Name IP Platform
                                             NodesDisplay Protocols];
       repeat split; congruence).
Qed.

(** A run of C3: the scenario of the specification, answered with 201
    and the [id] [h-42]; the state records [h-42] as the identifier. *)
Lemma host_create_succeeds_iff_created_witness :
  snd (createHost sampleRuntime sampleClient sampleHost (answering created201))
  = [sampleCreateRequest]
  /\ answering created201 sampleCreateRequest = inr created201
  /\ createdID sampleRuntime created201 = Some "h-42"
  /\ exists st,
       fst (createHost sampleRuntime sampleClient sampleHost (answering created201))
       = Some (mkReply [] (Some st))
       /\ ID st = StringValue "h-42"
       /\ Name st = StringValue "web-1"
       /\ IP st = StringValue "10.0.0.5"
       /\ Platform st = StringValue "Linux"
       /\ NodesDisplay st = NodesDisplay sampleHost
       /\ Protocols st = Protocols sampleHost.
Proof.
  assert (Hlog : snd (createHost sampleRuntime sampleClient sampleHost
                        (answering created201)) = [sampleCreateRequest])
    by (vm_compute; reflexivity).
  assert (Hnet : answering created201 sampleCreateRequest = inr created201)
    by reflexivity.
  assert (Hid : createdID sampleRuntime created201 = Some "h-42")
    by (vm_compute; reflexivity).
  split; [exact Hlog|]. split; [exact Hnet|]. split; [exact Hid|].
  destruct (host_create_succeeds_iff_created sampleRuntime sampleClient sampleHost
              (answering created201)) as [_ H].
  specialize (H sampleCreateRequest created201 Hlog Hnet).
  rewrite Hid in H.
  destruct H as (st & Hst & HID & Hname & Hip & Hplatform & Hnodes & Hprotocols).
  exists st. split; [exact Hst|]. split; [exact HID|].
  split; [exact Hname|]. split; [exact Hip|]. split; [exact Hplatform|].
  split; [exact Hnodes|exact Hprotocols].
Defined.

(** ** C4: the outcome of a host deletion *)

(** C4.  For every host deletion with a known (non-empty) identifier
    that received an HTTP response: with status 200 or 204 the call
    succeeds and the resource is removed from the state; with any other
    status the call reports one API error that carries the status and
    the response body, and the state keeps the resource with its
    identifier. *)
Theorem host_delete_outcome
    (rt : GoRuntime) (client : option Client) (prior : JumpServerHostResourceModel)
    (net : Network) (req : Request) (resp : Response) :
  ValueString (ID prior) <> EmptyString ->
  snd (deleteHost rt client prior net) = [req] ->
  net req = inr resp ->
  (StatusCode resp = 200 \/ StatusCode resp = 204 ->
   fst (deleteHost rt client prior net) = Some (mkReply [] None))
  /\ (StatusCode resp <> 200 -> StatusCode resp <> 204 ->
      fst (deleteHost rt client prior net)
      = Some (mkReply [AddError "API Error"
                         ("Unexpected status code: " ++ Status resp
                          ++ ", Response: " ++ RespBody resp)]
                      (Some prior))).
Proof.
  intros _.
  unfold deleteHost, assetHostResource_Delete.
  unfold_monad. cbn.
  repeat break_match; intros Hlog Hnet; try discriminate Hlog; inv Hlog;
    try same_response; status_eqs;
    (split; [intros [?|?]|intros ? ?]); try reflexivity; try congruence.
Qed.

(** Two runs of C4: 204 removes the resource, 404 keeps it. *)
Lemma host_delete_outcome_witness :
  (ValueString (ID sampleHostPresent) <> EmptyString
   /\ snd (deleteHost sampleRuntime sampleClient sampleHostPresent (answering noContent204))
      = [sampleItemRequest MethodDelete]
   /\ fst (deleteHost sampleRuntime sampleClient sampleHostPresent (answering noContent204))
      = Some (mkReply [] None))
  /\ fst (deleteHost sampleRuntime sampleClient sampleHostPresent (answering notFound404))
     = Some (mkReply [AddError "API Error"
                        "Unexpected status code: 404 Not Found, Response: gone"]
                     (Some sampleHostPresent)).
Proof.
  assert (Hid : ValueString (ID sampleHostPresent) <> EmptyString)
    by (cbn; discriminate).
  assert (Hlog : snd (deleteHost sampleRuntime sampleClient sampleHostPresent
                        (answering noContent204))
                 = [sampleItemRequest MethodDelete])
    by (vm_compute; reflexivity).
  assert (Hlog' : snd (deleteHost sampleRuntime sampleClient sampleHostPresent
                         (answering notFound404))
                  = [sampleItemRequest MethodDelete])
    by (vm_compute; reflexivity).
  split; [split; [exact Hid|split; [exact Hlog|]]|].
  - destruct (host_delete_outcome sampleRuntime sampleClient sampleHostPresent
                (answering noContent204) (sampleItemRequest MethodDelete) noContent204
                Hid Hlog eq_refl) as [H _].
    apply H. right. reflexivity.
  - destruct (host_delete_outcome sampleRuntime sampleClient sampleHostPresent
                (answering notFound404) (sampleItemRequest MethodDelete) notFound404
                Hid Hlog' eq_refl) as [_ H].
    apply H; cbn; discriminate.
Defined.

(** ** C5: the lenient merge of a host read *)

Lemma mergeHost_fields (state : JumpServerHostResourceModel) (obj : list (string * JSON)) :
  mergeHost state obj
  = mkHost (ID state)
           (mergedField obj "name" (Name state))
           (mergedField obj "ip" (IP state))
           (mergedField obj "platform" (Platform state))
           (NodesDisplay state) (Protocols state).
Proof.
  unfold mergeHost, mergedField, asString.
  destruct (lookup obj "name") as [[]|], (lookup obj "ip") as [[]|],
           (lookup obj "platform") as [[]|]; reflexivity.
Qed.

(** C5.  For every host read that received an HTTP response.  With
    status 200 and a body that decodes, the new state takes [name], [ip]
    and [platform] from the strings of those names in the body, each
    keeping its prior value when the body has no such string, and the
    identifier, [nodes_display] and [protocols] are the prior ones; with
    status 200 and a body that does not decode, and with any other status
    (an API error carrying status and body), the state is the prior
    state unchanged. *)
Theorem host_read_merges_leniently
    (rt : GoRuntime) (client : option Client) (prior : JumpServerHostResourceModel)
    (net : Network) (req : Request) (resp : Response) :
  snd (readHost rt client prior net) = [req] ->
  net req = inr resp ->
  (StatusCode resp = 200 ->
   match DecodeObject rt (RespBody resp) with
   | inr obj =>
     fst (readHost rt client prior net)
     = Some (mkReply []
               (Some (mkHost (ID prior)
                             (mergedField obj "name" (Name prior))
                             (mergedField obj "ip" (IP prior))
                             (mergedField obj "platform" (Platform prior))
                             (NodesDisplay prior) (Protocols prior))))
   | inl err =>
     fst (readHost rt client prior net)
     = Some (mkReply [AddError "JSON Decode Error" ("Unable to decode response: " ++ err)]
                     (Some prior))
   end)
  /\ (StatusCode resp <> 200 ->
      fst (readHost rt client prior net)
      = Some (mkReply [AddError "API Error"
                         ("Unexpected status code: " ++ Status resp
                          ++ ", Response: " ++ RespBody resp)]
                      (Some prior))).
Proof.
  unfold readHost, assetHostResource_Read.
  unfold_monad. cbn.
  repeat break_match; intros Hlog Hnet; try discriminate Hlog; inv Hlog;
    try same_response; status_eqs;
    (split; intros Hs); try congruence;
    rewrite ?mergeHost_fields; try reflexivity; try congruence.
Qed.

(** A run of C5: the body renames the host and carries a number as
    [platform]; the name changes, everything else stays. *)
Lemma host_read_merges_leniently_witness :
  snd (readHost sampleRuntime sampleClient sampleHostPresent (answering (ok200 bodyHost)))
  = [sampleItemRequest MethodGet]
  /\ fst (readHost sampleRuntime sampleClient sampleHostPresent (answering (ok200 bodyHost)))
     = Some (mkReply []
               (Some (mkHost (StringValue "h-42") (StringValue "web-2")
                             (StringValue "10.0.0.5") (StringValue "Linux")
                             (NodesDisplay sampleHost) (Protocols sampleHost)))).
Proof.
  assert (Hlog : snd (readHost sampleRuntime sampleClient sampleHostPresent
                        (answering (ok200 bodyHost)))
                 = [sampleItemRequest MethodGet])
    by (vm_compute; reflexivity).
  split; [exact Hlog|].
  destruct (host_read_merges_leniently sampleRuntime sampleClient sampleHostPresent
              (answering (ok200 bodyHost)) (sampleItemRequest MethodGet)
              (ok200 bodyHost) Hlog eq_refl) as [H _].
  exact (H eq_refl).
Defined.

(** ** C6: updates do nothing *)

(** C6.  For every update of a host or of an account: the call returns
    normally, sends no HTTP request, adds no diagnostic, and the state of
    the response is the prior state. *)
Theorem update_is_a_noop :
  (forall client plan prior net,
      run (assetHostResource_Update client plan prior) net = (Ok tt, [])
      /\ updateHost client plan prior net = (Some (mkReply [] (Some prior)), []))
  /\ (forall client plan prior net,
         run (accountResource_Update client plan prior) net = (Ok tt, [])
         /\ updateAccount client plan prior net = (Some (mkReply [] (Some prior)), [])).
Proof.
  split; intros client plan prior net; split; reflexivity.
Qed.

(** ** C7: the port of a protocol entry *)

(** What the code decides on: the entry has a [port] member exactly when
    the attribute map of the object has a [port] key. *)
Lemma protocolEntry_port_follows_key
    (attrs : list (string * AttrValue)) (entry : JSON) :
  protocolEntry (AObject attrs) = Ok entry ->
  hasMember entry "name" = true
  /\ hasMember entry "port"
     = match lookup attrs "port" with Some _ => true | None => false end.
Proof.
  unfold protocolEntry.
  destruct (lookup attrs "name") as [[name| | |]|]; try discriminate.
  destruct (lookup attrs "port") as [[|port| |]|]; try discriminate;
    intros H; inv H; split; reflexivity.
Qed.

(** C7 (code defect).  The specification has a protocol entry without a
    port serialized without a [port] key.  An object of the protocols
    schema always has the [port] attribute, null when the configuration
    leaves it out, so the key test of the code always succeeds: every
    entry that conforms to the schema is sent with both [name] and
    [port], and the entry written without a port is sent with port 0. *)
Theorem protocol_without_port_is_sent_with_port_zero :
  conformsToProtocolSchema protocolWithoutPort = true
  /\ protocolEntry protocolWithoutPort
     = Ok (JObject [("name", JString "ssh"); ("port", JNumber "0")])
  /\ map Body (snd (createHost sampleRuntime sampleClient sampleHostNoPort
                      (answering created201)))
     = [Some (JObject [("name", JString "web-1");
                       ("address", JString "10.0.0.5");
                       ("platform", JString "Linux");
                       ("nodes_display", JArray [JString "/Default"]);
                       ("protocols", JArray [JObject [("name", JString "ssh");
                                                      ("port", JNumber "0")]]);
                       ("is_active", JBool true)])]
  /\ (forall proto,
         conformsToProtocolSchema proto = true ->
         exists entry,
           protocolEntry proto = Ok entry
           /\ hasMember entry "name" = true
           /\ hasMember entry "port" = true).
Proof.
  split; [reflexivity|]. split; [reflexivity|].
  split; [vm_compute; reflexivity|].
  intros [s|i|b|attrs]; cbn; try discriminate.
  destruct (lookup attrs "name") as [[name| | |]|] eqn:Hname; try discriminate.
  destruct (lookup attrs "port") as [[|port| |]|] eqn:Hport; try discriminate.
  intros _. eexists. split; [reflexivity|]. split; reflexivity.
Qed.

(** ** C8: the query parameters of the data source *)

Lemma Values_Lookup_Add (q : Values) (k v k' : string) :
  Values_Lookup (Values_Add q k v) k'
  = if String.eqb k k' then (Values_Lookup q k' ++ [v])%list else Values_Lookup q k'.
Proof.
  induction q as [|[k0 vs] rest IH]; cbn.
  - destruct (String.eqb k k'); reflexivity.
  - destruct (String.eqb_spec k0 k); subst; cbn.
    + destruct (String.eqb_spec k k'); reflexivity.
    + destruct (String.eqb_spec k0 k'); subst.
      * destruct (String.eqb_spec k k'); [congruence|reflexivity].
      * exact IH.
Qed.

Lemma setValues_cons (k : string) (o : option string)
    (rest : list (string * option string)) (key : string) :
  setValues ((k, o) :: rest) key
  = ((if String.eqb k key then match o with Some v => [v] | None => [] end else [])
     ++ setValues rest key)%list.
Proof. reflexivity. Qed.

Lemma Values_Lookup_fold (fs : list (string * option string)) (q : Values) (key : string) :
  Values_Lookup (fold_left addFilter fs q) key
  = (Values_Lookup q key ++ setValues fs key)%list.
Proof.
  revert q; induction fs as [|[k o] rest IH]; intros q.
  - cbn. rewrite app_nil_r. reflexivity.
  - cbn [fold_left]. rewrite IH, setValues_cons. unfold addFilter; cbn [fst snd].
    destruct o as [v|].
    + rewrite Values_Lookup_Add.
      destruct (String.eqb k key); [rewrite <- app_assoc|]; reflexivity.
    + destruct (String.eqb k key); reflexivity.
Qed.

Lemma setValues_absent (fs : list (string * option string)) (key : string) :
  ~ In key (map fst fs) -> setValues fs key = [].
Proof.
  induction fs as [|[k o] rest IH]; intros H; [reflexivity|].
  rewrite setValues_cons. cbn in H.
  destruct (String.eqb_spec k key); [exfalso; auto|].
  apply IH. intros Hin. apply H. right. exact Hin.
Qed.

Lemma setValues_lookup (fs : list (string * option string)) (key : string) :
  NoDup (map fst fs) ->
  setValues fs key = match lookup fs key with
                     | Some (Some v) => [v]
                     | _ => []
                     end.
Proof.
  induction fs as [|[k o] rest IH]; intros Hnd; [reflexivity|].
  rewrite setValues_cons. cbn in Hnd. inv Hnd. cbn [lookup].
  destruct (String.eqb_spec k key); subst.
  - rewrite (setValues_absent rest key) by assumption.
    rewrite app_nil_r. destruct o; reflexivity.
  - apply IH. assumption.
Qed.

Lemma addString_filter (v : TString) (key : string) (q : Values) :
  addString v key q = addFilter q (key, setString v).
Proof. destruct v; reflexivity. Qed.

Lemma addInt64_filter (v : TInt64) (key : string) (q : Values) :
  addInt64 v key q = addFilter q (key, setInt64 v).
Proof. destruct v; reflexivity. Qed.

Lemma queryParams_fold (data : HostSuggestionsDataSourceModel) :
  queryParams data = fold_left addFilter (filters data) [].
Proof.
  unfold queryParams. rewrite !addString_filter, !addInt64_filter. reflexivity.
Qed.

Lemma filters_keys_distinct (data : HostSuggestionsDataSourceModel) :
  NoDup (map fst (filters data)).
Proof.
  cbn. repeat (constructor; [cbn; intuition discriminate|]). constructor.
Qed.

Lemma queryParams_lookup (data : HostSuggestionsDataSourceModel) (key : string) :
  Values_Lookup (queryParams data) key = expectedParams data key.
Proof.
  rewrite queryParams_fold, Values_Lookup_fold. cbn [Values_Lookup app].
  apply setValues_lookup, filters_keys_distinct.
Qed.

Lemma setString_unset (v : TString) :
  match setString v with Some _ => false | None => true end = true -> v = StringNull.
Proof. destruct v; cbn; intros H; try discriminate H; reflexivity. Qed.

Lemma setInt64_unset (v : TInt64) :
  match setInt64 v with Some _ => false | None => true end = true -> v = Int64Null.
Proof. destruct v; cbn; intros H; try discriminate H; reflexivity. Qed.

Lemma queryParams_only_name (data : HostSuggestionsDataSourceModel) :
  onlyNameSet data = true ->
  queryParams data = [("name", [ValueString (ds_Name data)])].
Proof.
  destruct data. unfold onlyNameSet, filters.
  cbn [forallb fst snd String.eqb Ascii.eqb Bool.eqb
       ds_ID ds_Name ds_Address ds_IsActive ds_Type ds_Category ds_Platform
       ds_IsGateway ds_ExcludePlatform ds_Domain ds_Protocols ds_DomainEnabled
       ds_PingEnabled ds_GatherFactsEnabled ds_ChangeSecretEnabled
       ds_PushAccountEnabled ds_VerifyAccountEnabled ds_GatherAccountsEnabled
       ds_Search ds_Order ds_Limit ds_Offset].
  intros H.
  repeat (apply andb_true_iff in H; destruct H as [? H]).
  repeat match goal with
         | H : match setString _ with Some _ => false | None => true end = true |- _ =>
           apply setString_unset in H
         | H : match setInt64 _ with Some _ => false | None => true end = true |- _ =>
           apply setInt64_unset in H
         end.
  subst.
  match goal with
  | H : match setString ?v with Some _ => true | None => false end = true |- _ =>
    destruct v; try discriminate H
  end; reflexivity.
Qed.

(** *** The encoded query string *)

Lemma append_assoc (a b c : string) : (a ++ b) ++ c = a ++ (b ++ c).
Proof.
  induction a as [|x a IH]; [reflexivity|].
  change (String x ((a ++ b) ++ c) = String x (a ++ (b ++ c))).
  rewrite IH. reflexivity.
Qed.

Lemma length_append (a b : string) :
  String.length (a ++ b) = (String.length a + String.length b)%nat.
Proof.
  induction a as [|x a IH]; [reflexivity|].
  change (S (String.length (a ++ b)) = S (String.length a + String.length b)).
  rewrite IH. reflexivity.
Qed.

Lemma len_append_pair (buf a b : string) : (0 <? len (buf ++ a ++ "=" ++ b)) = true.
Proof.
  apply Z.ltb_lt. unfold len. rewrite !length_append. cbn [String.length]. lia.
Qed.

Lemma Values_Add_fresh (q : Values) (k v : string) :
  ~ In k (map fst q) -> Values_Add q k v = (q ++ [(k, [v])])%list.
Proof.
  induction q as [|[k0 vs] rest IH]; cbn; intros H; [reflexivity|].
  destruct (String.eqb_spec k0 k); [exfalso; auto|].
  rewrite IH; [reflexivity|]. intros Hin. apply H. right. exact Hin.
Qed.

Lemma fold_addFilter_fresh (fs : list (string * option string)) (q : Values) :
  NoDup (map fst q ++ map fst fs) ->
  fold_left addFilter fs q = (q ++ map single (flat_map keep fs))%list.
Proof.
  revert q; induction fs as [|[k o] rest IH]; intros q Hnd.
  - cbn. rewrite app_nil_r. reflexivity.
  - cbn [fold_left flat_map]. unfold addFilter at 2, keep at 1. cbn [fst snd].
    cbn [map] in Hnd.
    destruct o as [v|].
    + assert (Hk : ~ In k (map fst q)).
      { intros Hin. apply NoDup_remove_2 in Hnd. apply Hnd.
        apply in_or_app. left. exact Hin. }
      rewrite (Values_Add_fresh q k v Hk).
      rewrite IH.
      * cbn [app map]. rewrite <- app_assoc. reflexivity.
      * rewrite map_app. cbn [map fst]. rewrite <- app_assoc. exact Hnd.
    + cbn [app]. apply IH. apply NoDup_remove_1 in Hnd. exact Hnd.
Qed.

Lemma queryParams_setFilters (data : HostSuggestionsDataSourceModel) :
  queryParams data = map single (setFilters data).
Proof.
  rewrite queryParams_fold.
  rewrite (fold_addFilter_fresh (filters data) []); [reflexivity|].
  apply filters_keys_distinct.
Qed.

Lemma Values_Lookup_single (es : list (string * string)) (k : string) :
  Values_Lookup (map single es) k
  = match lookup es k with Some v => [v] | None => [] end.
Proof.
  induction es as [|[k0 v0] rest IH]; cbn; [reflexivity|].
  destruct (String.eqb k0 k); [reflexivity|exact IH].
Qed.

Lemma lookup_present {A} (es : list (string * A)) (k : string) :
  In k (map fst es) -> exists v, lookup es k = Some v.
Proof.
  induction es as [|[k0 v0] rest IH]; cbn; intros H; [contradiction|].
  destruct (String.eqb_spec k0 k); [eauto|].
  destruct H as [H|H]; [congruence|auto].
Qed.

Lemma lookup_present_inv {A} (es : list (string * A)) (k : string) (v : A) :
  lookup es k = Some v -> In k (map fst es).
Proof.
  induction es as [|[k0 v0] rest IH]; cbn; intros H; [discriminate H|].
  destruct (String.eqb_spec k0 k); [left; assumption|right; auto].
Qed.

Lemma In_insertKey (k x : string) (ks : list string) :
  In k (insertKey x ks) <-> k = x \/ In k ks.
Proof.
  induction ks as [|y ks IH]; cbn.
  - intuition.
  - destruct (String.leb x y); cbn; [intuition|]. rewrite IH. intuition.
Qed.

Lemma In_sortKeys (k : string) (ks : list string) :
  In k (sortKeys ks) <-> In k ks.
Proof.
  unfold sortKeys. induction ks as [|x ks IH]; cbn; [reflexivity|].
  rewrite In_insertKey, IH. intuition.
Qed.

(** The loop of [Encode] over keys that each hold one value appends the
    pieces, an ampersand between any two. *)
Lemma encode_fold (es : list (string * string)) (ks : list string) (buf : string) :
  (forall k, In k ks -> In k (map fst es)) ->
  fold_left (fun buf k => encodeKey buf (QueryEscape k) (Values_Lookup (map single es) k))
            ks buf
  = match ks with
    | [] => buf
    | _ =>
      (if 0 <? len buf then buf ++ "&" else buf)
      ++ joinAmp (map (fun name =>
                         QueryEscape name ++ "="
                         ++ QueryEscape (match lookup es name with
                                         | Some v => v
                                         | None => EmptyString
                                         end))
                      ks)
    end.
Proof.
  revert buf; induction ks as [|k ks IH]; intros buf Hin; [reflexivity|].
  cbn [fold_left]. rewrite Values_Lookup_single.
  destruct (lookup_present es k (Hin k (or_introl eq_refl))) as [v Hv].
  rewrite Hv. cbn [encodeKey].
  rewrite IH by (intros k' Hk'; apply Hin; right; exact Hk').
  destruct ks as [|k' ks'].
  - cbn [map joinAmp]. rewrite Hv. reflexivity.
  - remember (k' :: ks') as rest.
    cbn [map joinAmp]. rewrite Hv.
    destruct (map _ rest) eqn:Hm; [subst rest; discriminate Hm|].
    rewrite <- Hm. clear Hm.
    rewrite len_append_pair.
    rewrite !append_assoc. reflexivity.
Qed.

Lemma queryParams_encode (data : HostSuggestionsDataSourceModel) :
  Values_Encode (queryParams data) = expectedQuery data.
Proof.
  rewrite queryParams_setFilters. unfold Values_Encode, expectedQuery.
  assert (Hkeys : map fst (map single (setFilters data)) = map fst (setFilters data)).
  { rewrite map_map. apply map_ext. intros [k v]. reflexivity. }
  rewrite Hkeys.
  rewrite encode_fold by (intros k Hk; exact (proj1 (In_sortKeys k _) Hk)).
  destruct (sortKeys (map fst (setFilters data))); reflexivity.
Qed.

Lemma setFilters_names (data : HostSuggestionsDataSourceModel) (key : string) :
  In key (sortKeys (map fst (setFilters data)))
  <-> exists v, lookup (filters data) key = Some (Some v).
Proof.
  rewrite In_sortKeys. unfold setFilters.
  pose proof (filters_keys_distinct data) as Hnd.
  induction (filters data) as [|[k o] rest IH]; cbn [flat_map lookup].
  - cbn. split; [contradiction|intros [v H]; discriminate H].
  - cbn [map fst] in Hnd. inv Hnd. rewrite map_app, in_app_iff, IH by assumption.
    destruct (String.eqb_spec k key); subst.
    + split.
      * intros [H|[v H]].
        -- destruct o as [v|]; cbn in H; [eauto|contradiction].
        -- exfalso. apply lookup_present_inv in H. contradiction.
      * intros [v H]. inv H. left. cbn. left. reflexivity.
    + split.
      * intros [H|H]; [|exact H].
        destruct o as [v|]; cbn in H; [|contradiction].
        destruct H as [H|[]]. congruence.
      * intros H. right. exact H.
Qed.

Lemma suggestions_requests_use_query
    (rt : GoRuntime) (t : authTransport) (data : HostSuggestionsDataSourceModel)
    (net : Network) :
  Forall (fun req => URL req = suggestionsURL t data)
         (snd (readDataSource rt (Some (mkClient (Some t))) data net)).
Proof.
  unfold readDataSource, HostSuggestionsDataSource_Read.
  unfold_monad. cbn.
  repeat break_match; repeat constructor.
Qed.

(** C8.  For every query: the parameters sent under a filter's name are
    the one value of that filter when it is set (non-null) and none at
    all when it is unset; the query string is the ampersand-joined list
    of [name=value], query-escaped, for exactly the filters that are set
    (names in sorted order), so a filter is serialized exactly when it is
    set and an unset filter is never sent as an empty string; when only
    [name] is set the query string is the single parameter
    [name=<value>]; and that query string is the one in the URL of the
    request. *)
Theorem query_serializes_exactly_the_set_filters :
  (forall data key,
      Values_Lookup (queryParams data) key = expectedParams data key)
  /\ (forall data, Values_Encode (queryParams data) = expectedQuery data)
  /\ (forall data key,
         In key (sortKeys (map fst (setFilters data)))
         <-> exists v, lookup (filters data) key = Some (Some v))
  /\ (forall data,
         onlyNameSet data = true ->
         Values_Encode (queryParams data)
         = "name=" ++ QueryEscape (ValueString (ds_Name data)))
  /\ (forall rt t data net,
         Forall (fun req => URL req
                            = BaseURL t ++ "/api/v1/assets/hosts/suggestions/"
                              ++ "?" ++ Values_Encode (queryParams data))
                (snd (readDataSource rt (Some (mkClient (Some t))) data net))).
Proof.
  split; [exact queryParams_lookup|].
  split; [exact queryParams_encode|].
  split; [exact setFilters_names|].
  split.
  { intros data H. rewrite (queryParams_only_name data H). reflexivity. }
  exact suggestions_requests_use_query.
Qed.

(** Two runs of C8: only the name [web 1] is set; the name and a page
    size are set. *)
Lemma query_serializes_exactly_the_set_filters_witness :
  onlyNameSet (sampleQuery (StringValue "web 1")) = true
  /\ Values_Encode (queryParams (sampleQuery (StringValue "web 1"))) = "name=web+1"
  /\ Values_Lookup (queryParams (sampleQuery (StringValue "web 1"))) "name" = ["web 1"]
  /\ Values_Lookup (queryParams (sampleQuery (StringValue "web 1"))) "address" = []
  /\ Values_Encode (queryParams sampleQueryLimited) = "limit=10&name=web+1"
  /\ map URL (snd (readDataSource sampleRuntime sampleClient
                     (sampleQuery (StringValue "web 1"))
                     (answering (ok200 bodySuggestions))))
     = ["https://jumpserver.example.com/api/v1/assets/hosts/suggestions/?name=web+1"].
Proof.
  destruct query_serializes_exactly_the_set_filters
    as (Hlookup & Hencode & _ & Hname & Hurl).
  assert (Hset : onlyNameSet (sampleQuery (StringValue "web 1")) = true)
    by reflexivity.
  split; [exact Hset|].
  split; [exact (Hname (sampleQuery (StringValue "web 1")) Hset)|].
  split; [exact (Hlookup (sampleQuery (StringValue "web 1")) "name")|].
  split; [exact (Hlookup (sampleQuery (StringValue "web 1")) "address")|].
  split; [rewrite (Hencode sampleQueryLimited); vm_compute; reflexivity|].
  vm_compute. reflexivity.
Defined.

(** ** C9: the result set of the data source *)

(** C9.  For every query answered with status 200 and a body that
    decodes as an array: the call succeeds, the total count of the state
    is the length of the decoded array, and the results are the array's
    elements, one typed entry (identifier, name) per element in the same
    order. *)
Theorem suggestions_count_is_array_length
    (rt : GoRuntime) (client : option Client) (data : HostSuggestionsDataSourceModel)
    (net : Network) (req : Request) (resp : Response) (apiResponse : list apiHost) :
  snd (readDataSource rt client data net) = [req] ->
  net req = inr resp ->
  StatusCode resp = 200 ->
  DecodeHosts rt (RespBody resp) = inr apiResponse ->
  exists st,
    fst (readDataSource rt client data net) = Some (mkReply [] (Some st))
    /\ ds_TotalCount st = Int64Value (Z.of_nat (List.length apiResponse))
    /\ List.length (ds_Results st) = List.length apiResponse
    /\ ds_Results st
       = map (fun e => mkHostModel (StringValue (api_ID e)) (StringValue (api_Name e)))
             apiResponse.
Proof.
  unfold readDataSource, HostSuggestionsDataSource_Read.
  unfold_monad. cbn.
  repeat break_match; intros Hlog Hnet Hs Hd; try discriminate Hlog; inv Hlog;
    try same_response; status_eqs; try congruence;
    rewrite Hd in *;
    match goal with H : inr _ = inr _ |- _ => inv H end;
    (eexists; split; [reflexivity|]; cbn;
     split; [reflexivity|]; split; [apply length_map|reflexivity]).
Qed.

(** A run of C9: two hosts in the answer. *)
Lemma suggestions_count_is_array_length_witness :
  snd (readDataSource sampleRuntime sampleClient (sampleQuery (StringValue "web 1"))
         (answering (ok200 bodySuggestions)))
  = [sampleSuggestionsRequest]
  /\ exists st,
      fst (readDataSource sampleRuntime sampleClient (sampleQuery (StringValue "web 1"))
             (answering (ok200 bodySuggestions)))
      = Some (mkReply [] (Some st))
      /\ ds_TotalCount st = Int64Value 2
      /\ ds_Results st = [mkHostModel (StringValue "h-1") (StringValue "web-1");
                          mkHostModel (StringValue "h-2") (StringValue "web-2")].
Proof.
  assert (Hlog : snd (readDataSource sampleRuntime sampleClient
                        (sampleQuery (StringValue "web 1"))
                        (answering (ok200 bodySuggestions)))
                 = [sampleSuggestionsRequest])
    by (vm_compute; reflexivity).
  split; [exact Hlog|].
  destruct (suggestions_count_is_array_length sampleRuntime sampleClient
              (sampleQuery (StringValue "web 1")) (answering (ok200 bodySuggestions))
              sampleSuggestionsRequest (ok200 bodySuggestions)
              [mkApiHost "h-1" "web-1"; mkApiHost "h-2" "web-2"]
              Hlog eq_refl eq_refl eq_refl)
    as (st & Hst & Hcount & _ & Hres).
  exists st. split; [exact Hst|]. split; [exact Hcount|exact Hres].
Defined.

(** ** C10: the token attribute of the provider configuration *)

(** C10.  For every provider configuration: the outcome of [Configure]
    (result and requests sent) is the same whatever the [token]
    attribute holds; once base URL, username and password are present,
    the outcome is that of the [getToken] exchange with them; and
    whenever a client results, exactly one request was sent, the POST of
    the credentials to the authentication endpoint, and the transport of
    the client carries the token decoded from its answer. *)
Theorem configure_never_reads_token
    (rt : GoRuntime) (getenv : string -> string) (data : JumpServerProviderModel)
    (net : Network) :
  (forall token,
      run (Configure rt getenv (withToken data token)) net
      = run (Configure rt getenv data) net)
  /\ (configuredBaseURL getenv data <> EmptyString ->
      configuredUsername getenv data <> EmptyString ->
      configuredPassword getenv data <> EmptyString ->
      run (Configure rt getenv data) net
      = match run (getToken rt (configuredBaseURL getenv data)
                     (configuredUsername getenv data)
                     (configuredPassword getenv data)) net with
        | (Ok (inr tok), log) =>
          (Ok (mkClient (Some (mkAuthTransport tok (configuredBaseURL getenv data)))), log)
        | (Ok (inl err), log) =>
          (Stop [AddError "Unable to authenticate with JumpServer API"
                   ("An unexpected error occurred when trying to authenticate with the JumpServer API: "
                    ++ err)], log)
        | (Stop ds, log) => (Stop ds, log)
        | (Panic, log) => (Panic, log)
        end)
  /\ (forall client log,
         run (Configure rt getenv data) net = (Ok client, log) ->
         exists req resp obj tok,
           log = [req]
           /\ ReqMethod req = MethodPost
           /\ URL req = configuredBaseURL getenv data ++ "/api/v1/authentication/auth/"
           /\ Body req = Some (JObject
                                 [("username", JString (configuredUsername getenv data));
                                  ("password", JString (configuredPassword getenv data))])
           /\ net req = inr resp
           /\ DecodeObject rt (RespBody resp) = inr obj
           /\ asString (lookup obj "token") = Some tok
           /\ client = mkClient (Some (mkAuthTransport tok (configuredBaseURL getenv data)))).
Proof.
  split; [intros token; reflexivity|].
  unfold configuredBaseURL, configuredUsername, configuredPassword, effective.
  split.
  - intros Hb Hu Hp. unfold Configure.
    destruct (String_IsNull (cfg_BaseURL data)), (String_IsNull (cfg_Username data)),
             (String_IsNull (cfg_Password data));
      cbn [negb] in *;
      apply String.eqb_neq in Hb, Hu, Hp; rewrite Hb, Hu, Hp; cbn [app];
      unfold getToken; unfold_monad; cbn;
      repeat break_match; reflexivity.
  - intros client log. unfold Configure, getToken.
    destruct (String_IsNull (cfg_BaseURL data)), (String_IsNull (cfg_Username data)),
             (String_IsNull (cfg_Password data));
      cbn [negb];
      unfold_monad; cbn;
      repeat break_match; intros H; try discriminate H; inv H;
      do 4 eexists; repeat (split; [try reflexivity; eassumption|]); reflexivity.
Qed.

(** A run of C10: a token is supplied in the configuration, and the
    client still carries the token of the exchange. *)
Lemma configure_never_reads_token_witness :
  configuredBaseURL noEnv (sampleConfig (StringValue "external")) <> EmptyString
  /\ run (Configure sampleRuntime noEnv (sampleConfig (StringValue "external")))
         (answering (ok200 bodyToken))
     = (Ok (mkClient (Some (mkAuthTransport "tok-1" "https://jumpserver.example.com"))),
        [sampleAuthRequest])
  /\ run (Configure sampleRuntime noEnv (sampleConfig (StringValue "external")))
         (answering (ok200 bodyToken))
     = run (Configure sampleRuntime noEnv (sampleConfig StringNull))
           (answering (ok200 bodyToken)).
Proof.
  destruct (configure_never_reads_token sampleRuntime noEnv (sampleConfig StringNull)
              (answering (ok200 bodyToken))) as (Hsame & Hexch & _).
  assert (Hb : configuredBaseURL noEnv (sampleConfig (StringValue "external"))
               <> EmptyString) by (cbn; discriminate).
  split; [exact Hb|].
  split.
  - rewrite (Hsame (StringValue "external")
             : run (Configure sampleRuntime noEnv (sampleConfig (StringValue "external")))
                   (answering (ok200 bodyToken)) = _).
    rewrite Hexch by (cbn; discriminate).
    vm_compute. reflexivity.
  - exact (Hsame (StringValue "external")).
Defined.

(* ===================================================================== *)
(** * Further properties of the code *)
(* ===================================================================== *)

(** ** Headers and the authenticating transport *)

Lemma filter_none {A} (p : A -> bool) (l : list A) :
  filter p (filter (fun x => negb (p x)) l) = [].
Proof.
  induction l as [|x l IH]; cbn; [reflexivity|].
  destruct (p x) eqn:Hp; cbn; [exact IH|]. rewrite Hp. exact IH.
Qed.

Lemma headerValues_Set_same (h : Header) (key value : string) :
  headerValues (Header_Set h key value) (CanonicalMIMEHeaderKey key) = [value].
Proof.
  unfold headerValues, Header_Set. rewrite filter_app.
  rewrite (filter_none (fun kv => String.eqb (fst kv) (CanonicalMIMEHeaderKey key)) h).
  cbn [filter fst app]. rewrite String.eqb_refl. reflexivity.
Qed.

Lemma headerValues_Set_other (h : Header) (key value other : string) :
  other <> CanonicalMIMEHeaderKey key ->
  headerValues (Header_Set h key value) other = headerValues h other.
Proof.
  intros Hne. unfold headerValues, Header_Set. rewrite filter_app.
  cbn [filter fst].
  destruct (String.eqb_spec (CanonicalMIMEHeaderKey key) other); [congruence|].
  rewrite app_nil_r. f_equal.
  induction h as [|[k v] h IH]; cbn; [reflexivity|].
  destruct (String.eqb_spec k (CanonicalMIMEHeaderKey key)); subst; cbn.
  - destruct (String.eqb_spec (CanonicalMIMEHeaderKey key) other); [congruence|exact IH].
  - destruct (String.eqb k other); [f_equal|]; exact IH.
Qed.

(** X1.  The authenticating transport hands the network the request it
    was given with exactly one [Authorization] header, [Bearer] followed
    by the token, whatever the request held under that key before;
    method, URL, body and every other header are untouched, and the
    request is logged once. *)
Theorem roundTrip_injects_one_bearer_header
    (t : authTransport) (req : Request) (net : Network) (log : list Request) :
  exists sent,
    RoundTrip t req net log = (Ok (net sent), (log ++ [sent])%list)
    /\ ReqMethod sent = ReqMethod req
    /\ URL sent = URL req
    /\ Body sent = Body req
    /\ headerValues (ReqHeader sent) "Authorization" = ["Bearer " ++ Token t]
    /\ forall key, key <> "Authorization" ->
                   headerValues (ReqHeader sent) key = headerValues (ReqHeader req) key.
Proof.
  eexists. split; [reflexivity|]. cbn [ReqMethod URL Body ReqHeader].
  repeat (split; [reflexivity|]).
  split.
  - exact (headerValues_Set_same (ReqHeader req) "Authorization" ("Bearer " ++ Token t)).
  - intros key Hkey.
    exact (headerValues_Set_other (ReqHeader req) "Authorization" _ key Hkey).
Qed.

(** ** The token exchange *)

(** X2.  [getToken] never looks at the status of the answer: against two
    networks that give the same transport errors and the same bodies,
    whatever the status lines, it returns the same result and sends the
    same request. *)
Theorem getToken_ignores_status
    (rt : GoRuntime) (baseURL username password : string) (net net' : Network) :
  sameBodies net net' ->
  run (getToken rt baseURL username password) net
  = run (getToken rt baseURL username password) net'.
Proof.
  intros Hsame. unfold getToken. unfold_monad. cbn.
  destruct (url_Parse_error rt _); [reflexivity|]. cbn.
  match goal with |- context [net ?r] => specialize (Hsame r) end.
  destruct (net _) as [e|r], (net' _) as [e'|r']; try contradiction; cbn.
  - subst. reflexivity.
  - rewrite Hsame. repeat break_match; reflexivity.
Qed.

(** A run of X2: an answer 401 that carries a token yields the token,
    as the answer 200 does. *)
Lemma getToken_ignores_status_witness :
  sameBodies (answering (mkResponse "401 Unauthorized" 401 bodyToken))
             (answering (ok200 bodyToken))
  /\ fst (run (getToken sampleRuntime "https://jumpserver.example.com" "admin" "secret")
              (answering (mkResponse "401 Unauthorized" 401 bodyToken)))
     = Ok (inr "tok-1").
Proof.
  assert (H : sameBodies (answering (mkResponse "401 Unauthorized" 401 bodyToken))
                         (answering (ok200 bodyToken)))
    by (intros req; reflexivity).
  split; [exact H|].
  rewrite (getToken_ignores_status sampleRuntime "https://jumpserver.example.com"
             "admin" "secret" _ _ H).
  vm_compute. reflexivity.
Defined.

(** X3.  [getToken] always returns (a token or an error value, never a
    diagnostic or a panic) after at most one request; the request is the
    POST of the two credentials as JSON to the authentication endpoint
    under the base URL, with a JSON content type and without any
    [Authorization] header; and the result is a token exactly when that
    request was answered and the decoded body holds a string under
    [token]. *)
Theorem getToken_outcome
    (rt : GoRuntime) (baseURL username password : string) (net : Network) :
  (exists r, fst (run (getToken rt baseURL username password) net) = Ok r)
  /\ (snd (run (getToken rt baseURL username password) net) = []
      \/ exists req,
          snd (run (getToken rt baseURL username password) net) = [req]
          /\ ReqMethod req = MethodPost
          /\ URL req = baseURL ++ "/api/v1/authentication/auth/"
          /\ Body req = Some (JObject [("username", JString username);
                                       ("password", JString password)])
          /\ headerValues (ReqHeader req) "Content-Type" = ["application/json"]
          /\ headerValues (ReqHeader req) "Authorization" = [])
  /\ (forall token,
         fst (run (getToken rt baseURL username password) net) = Ok (inr token)
         <-> exists req resp obj,
               snd (run (getToken rt baseURL username password) net) = [req]
               /\ net req = inr resp
               /\ DecodeObject rt (RespBody resp) = inr obj
               /\ lookup obj "token" = Some (JString token)).
Proof.
  unfold getToken. unfold_monad. cbn.
  destruct (url_Parse_error rt _) eqn:Hurl; cbn.
  { split; [eauto|]. split; [left; reflexivity|].
    intros token. split; [discriminate|].
    intros (req & resp & obj & Hlog & _). discriminate Hlog. }
  split.
  { repeat break_match; eauto. }
  split.
  { right. destruct (net _); cbn; repeat break_match; cbn;
      (eexists; split; [reflexivity|]; repeat (split; [reflexivity|]); reflexivity). }
  intros token.
  destruct (net _) as [e|resp] eqn:Hnet; cbn.
  { split; [discriminate|].
    intros (req & r & obj & Hlog & Hn & _). inv Hlog. congruence. }
  destruct (DecodeObject rt (RespBody resp)) as [e|obj] eqn:Hdec; cbn.
  { split; [discriminate|].
    intros (req & r & o & Hlog & Hn & Hd & _). inv Hlog. congruence. }
  unfold asString.
  destruct (lookup obj "token") as [[|b|n|tok|l|m]|] eqn:Hl; cbn;
    (split;
     [ intros H;
       first [ discriminate H
             | inv H; do 3 eexists;
               split; [reflexivity|]; split; [eassumption|]; split; eassumption ]
     | intros (req & r & o & Hlog & Hn & Hd & Ht); inv Hlog;
       rewrite Hnet in Hn; inv Hn; rewrite Hdec in Hd; inv Hd;
       rewrite Hl in Ht; first [ discriminate Ht | inv Ht; reflexivity ] ]).
Qed.

(** ** Provider configuration *)

(** X4.  When one of the three settings (configured value, or the
    environment variable for a null attribute) is empty, [Configure]
    sends no request and stops with one attribute error per empty
    setting, on the paths [base_url], [username] and [password] in that
    order. *)
Theorem configure_reports_every_missing_setting
    (rt : GoRuntime) (getenv : string -> string) (data : JumpServerProviderModel)
    (net : Network) :
  configuredBaseURL getenv data = EmptyString
  \/ configuredUsername getenv data = EmptyString
  \/ configuredPassword getenv data = EmptyString ->
  exists ds,
    run (Configure rt getenv data) net = (Stop ds, [])
    /\ ds <> []
    /\ map Path ds = missingSettings (configuredBaseURL getenv data)
                                     (configuredUsername getenv data)
                                     (configuredPassword getenv data).
Proof.
  unfold configuredBaseURL, configuredUsername, configuredPassword, effective,
         missingSettings, Configure.
  destruct (String_IsNull (cfg_BaseURL data)), (String_IsNull (cfg_Username data)),
           (String_IsNull (cfg_Password data)); cbn [negb];
    intros H;
    repeat match goal with
           | |- context [String.eqb ?a EmptyString] =>
             destruct (String.eqb_spec a EmptyString)
           end;
    try (exfalso; intuition congruence);
    cbn; (eexists; split; [reflexivity|]; split; [discriminate|reflexivity]).
Qed.

(** A run of X4: nothing is configured and the environment is empty. *)
Lemma configure_reports_every_missing_setting_witness :
  configuredBaseURL noEnv (mkProviderModel StringNull StringNull StringNull StringNull)
  = EmptyString
  /\ exists ds,
      run (Configure sampleRuntime noEnv
             (mkProviderModel StringNull StringNull StringNull StringNull))
          (answering (ok200 bodyToken))
      = (Stop ds, [])
      /\ map Path ds = [Some "base_url"; Some "username"; Some "password"].
Proof.
  split; [reflexivity|].
  destruct (configure_reports_every_missing_setting sampleRuntime noEnv
              (mkProviderModel StringNull StringNull StringNull StringNull)
              (answering (ok200 bodyToken)) (or_introl eq_refl))
    as (ds & Hrun & _ & Hpaths).
  exists ds. split; [exact Hrun|exact Hpaths].
Defined.

(** X5.  The environment is consulted only for attributes that are null:
    when [base_url], [username] and [password] are all non-null, any two
    environments give the same outcome, so an attribute set to the empty
    string is not replaced by its variable. *)
Theorem configure_environment_fills_only_null_attributes
    (rt : GoRuntime) (getenv getenv' : string -> string)
    (data : JumpServerProviderModel) (net : Network) :
  String_IsNull (cfg_BaseURL data) = false ->
  String_IsNull (cfg_Username data) = false ->
  String_IsNull (cfg_Password data) = false ->
  run (Configure rt getenv data) net = run (Configure rt getenv' data) net.
Proof.
  intros Hb Hu Hp. unfold Configure. rewrite Hb, Hu, Hp. reflexivity.
Qed.

(** A run of X5: the base URL is set to the empty string while the
    variable holds one; configuration stops on the missing base URL. *)
Lemma configure_environment_fills_only_null_attributes_witness :
  String_IsNull (cfg_BaseURL emptyBaseConfig) = false
  /\ sampleEnv "JUMP_SERVER_BASE_URL" = "https://env.example.com"
  /\ exists d,
      run (Configure sampleRuntime sampleEnv emptyBaseConfig) (answering (ok200 bodyToken))
      = (Stop [d], [])
      /\ Path d = Some "base_url".
Proof.
  split; [reflexivity|]. split; [reflexivity|].
  rewrite (configure_environment_fills_only_null_attributes sampleRuntime sampleEnv noEnv
             emptyBaseConfig (answering (ok200 bodyToken)) eq_refl eq_refl eq_refl).
  eexists. split; [vm_compute; reflexivity|reflexivity].
Defined.

(** ** The host resource *)

Lemma translateNodes_Ok (nodes : TList TString) (out : list JSON) :
  translateNodes nodes = Ok out ->
  out = map (fun node => JString (ValueString node)) (Elements nodes).
Proof. destruct nodes; cbn; intros H; inv H; reflexivity. Qed.

Lemma translateProtocols_Ok (elems : list AttrValue) (out : list JSON) :
  translateProtocols elems = Ok out ->
  Forall2 (fun proto entry => protocolEntry proto = Ok entry) elems out.
Proof.
  revert out; induction elems as [|p rest IH]; cbn; intros out H.
  - inv H. constructor.
  - destruct (protocolEntry p) eqn:Hp; try discriminate.
    destruct (translateProtocols rest) eqn:Hr; try discriminate.
    inv H. constructor; auto.
Qed.

(** X6.  Every request a host creation sends is the one POST to the
    hosts collection under the base URL of the resource's transport,
    with a JSON content type and the transport's token as bearer; its
    body carries the plan's name, the plan's [ip] under [address], the
    platform, the display nodes and the translated protocols in order
    (an empty list as [null]), and [is_active] true. *)
Theorem host_create_request
    (rt : GoRuntime) (client : option Client) (plan : JumpServerHostResourceModel)
    (net : Network) (req : Request) :
  In req (snd (createHost rt client plan net)) ->
  exists t protocols,
    client = Some (mkClient (Some t))
    /\ translateProtocols (Elements (Protocols plan)) = Ok protocols
    /\ snd (createHost rt client plan net) = [req]
    /\ ReqMethod req = MethodPost
    /\ URL req = BaseURL t ++ "/api/v1/assets/hosts/"
    /\ headerValues (ReqHeader req) "Content-Type" = ["application/json"]
    /\ headerValues (ReqHeader req) "Authorization" = ["Bearer " ++ Token t]
    /\ member (Body req) "name" = Some (JString (ValueString (Name plan)))
    /\ member (Body req) "address" = Some (JString (ValueString (IP plan)))
    /\ member (Body req) "platform" = Some (JString (ValueString (Platform plan)))
    /\ member (Body req) "nodes_display"
       = Some (sliceJSON (map (fun node => JString (ValueString node))
                              (Elements (NodesDisplay plan))))
    /\ member (Body req) "protocols" = Some (sliceJSON protocols)
    /\ member (Body req) "is_active" = Some (JBool true).
Proof.
  unfold createHost, assetHostResource_Create.
  unfold_monad. cbn.
  destruct (translateProtocols (Elements (Protocols plan))) as [protocols| |] eqn:Hp;
    cbn; try contradiction.
  destruct (translateNodes (NodesDisplay plan)) as [nodes| |] eqn:Hn;
    cbn; try contradiction.
  apply translateNodes_Ok in Hn. subst nodes.
  destruct client as [[[t|]]|]; cbn; try contradiction.
  destruct (url_Parse_error rt _); cbn; try contradiction.
  intros Hin. exists t, protocols.
  split; [reflexivity|]. split; [reflexivity|].
  revert Hin. repeat break_match; cbn; intros [<-|[]];
    repeat split; try reflexivity; vm_compute; reflexivity.
Qed.

(** A run of X6: the scenario of the specification. *)
Lemma host_create_request_witness :
  In sampleCreateRequest
     (snd (createHost sampleRuntime sampleClient sampleHost (answering created201)))
  /\ member (Body sampleCreateRequest) "is_active" = Some (JBool true)
  /\ member (Body sampleCreateRequest) "address" = Some (JString "10.0.0.5")
  /\ URL sampleCreateRequest = "https://jumpserver.example.com/api/v1/assets/hosts/".
Proof.
  assert (Hin : In sampleCreateRequest
                   (snd (createHost sampleRuntime sampleClient sampleHost
                           (answering created201))))
    by (vm_compute; left; reflexivity).
  split; [exact Hin|].
  destruct (host_create_request sampleRuntime sampleClient sampleHost
              (answering created201) sampleCreateRequest Hin)
    as (t & protocols & Hc & _ & _ & _ & Hurl & _ & _ & _ & Haddr & _ & _ & _ & Hact).
  split; [exact Hact|]. split; [exact Haddr|].
  inv Hc. exact Hurl.
Defined.

Lemma protocolEntry_malformed (proto : AttrValue) :
  malformedProtocol proto = true -> exists d, protocolEntry proto = Stop [d].
Proof.
  destruct proto as [s|i|b|attrs]; cbn; eauto.
  destruct (lookup attrs "name"); [discriminate|eauto].
Qed.

Lemma translateProtocols_malformed (elems : list AttrValue) (out : list JSON) :
  existsb malformedProtocol elems = true -> translateProtocols elems <> Ok out.
Proof.
  revert out; induction elems as [|p rest IH]; cbn; intros out H; [discriminate H|].
  apply orb_true_iff in H. destruct H as [H|H].
  - destruct (protocolEntry_malformed p H) as [d ->]. discriminate.
  - destruct (protocolEntry p); try discriminate.
    destruct (translateProtocols rest) eqn:Hr; try discriminate.
    exfalso. exact (IH _ H eq_refl).
Qed.

(** X7.  A host creation whose plan holds a protocol element that is no
    object or has no [name] attribute, or whose display nodes are
    unknown, ends before any request is sent, and not in success. *)
Theorem host_create_stops_before_request
    (rt : GoRuntime) (client : option Client) (plan : JumpServerHostResourceModel)
    (net : Network) :
  existsb malformedProtocol (Elements (Protocols plan)) = true
  \/ NodesDisplay plan = ListUnknown ->
  snd (createHost rt client plan net) = []
  /\ ~ succeeded (fst (createHost rt client plan net)).
Proof.
  intros H. unfold createHost, assetHostResource_Create, succeeded.
  unfold_monad. cbn.
  destruct (translateProtocols (Elements (Protocols plan))) as [protocols|ds|] eqn:Hp; cbn.
  - destruct H as [H|H].
    + exfalso. exact (translateProtocols_malformed _ _ H Hp).
    + rewrite H. cbn. split; [reflexivity|].
      intros (rep & Hrep & Hd). inv Hrep. discriminate Hd.
  - split; [reflexivity|].
    intros (rep & Hrep & Hd). inv Hrep. cbn in Hd. subst.
    exact (translateProtocols_Stop _ _ Hp eq_refl).
  - split; [reflexivity|]. intros (rep & Hrep & _). discriminate Hrep.
Qed.

(** A run of X7: the only protocol has a port and no name. *)
Lemma host_create_stops_before_request_witness :
  existsb malformedProtocol (Elements (Protocols sampleHostNamelessProtocol)) = true
  /\ createHost sampleRuntime sampleClient sampleHostNamelessProtocol
                (answering created201)
     = (Some (mkReply [AddError "Missing Attribute" "Protocol name is required"] None), []).
Proof.
  assert (H : existsb malformedProtocol (Elements (Protocols sampleHostNamelessProtocol))
              = true) by reflexivity.
  split; [exact H|].
  destruct (host_create_stops_before_request sampleRuntime sampleClient
              sampleHostNamelessProtocol (answering created201) (or_introl H))
    as [Hlog _].
  destruct (createHost sampleRuntime sampleClient sampleHostNamelessProtocol
              (answering created201)) as [r log] eqn:Hrun.
  cbn in Hlog. subst log. f_equal.
  apply (f_equal fst) in Hrun. cbn in Hrun. rewrite <- Hrun. reflexivity.
Defined.

(** X8.  Whatever happens to a host read that returns (URL error,
    transport error, any status, any body), the state of the response
    still holds the resource, with the identifier, the display nodes and
    the protocols it had before; and when the read reports an error the
    state is the prior state unchanged.  In particular a 404 answer does
    not remove the resource from the state. *)
Theorem host_read_never_drops_the_resource
    (rt : GoRuntime) (client : option Client) (prior : JumpServerHostResourceModel)
    (net : Network) (rep : Reply (option JumpServerHostResourceModel)) :
  fst (readHost rt client prior net) = Some rep ->
  exists st,
    State rep = Some st
    /\ ID st = ID prior
    /\ NodesDisplay st = NodesDisplay prior
    /\ Protocols st = Protocols prior
    /\ (HasError rep = true -> st = prior).
Proof.
  unfold readHost, assetHostResource_Read.
  unfold_monad. cbn.
  repeat break_match; intros H; try discriminate H; inv H; cbn;
    (eexists; split; [reflexivity|]);
    rewrite ?mergeHost_fields; cbn;
    repeat (split; [reflexivity|]); intros He; try reflexivity; discriminate He.
Qed.

(** A run of X8: the server no longer knows the host. *)
Lemma host_read_never_drops_the_resource_witness :
  exists rep,
    fst (readHost sampleRuntime sampleClient sampleHostPresent (answering notFound404))
    = Some rep
    /\ HasError rep = true
    /\ State rep = Some sampleHostPresent.
Proof.
  destruct (fst (readHost sampleRuntime sampleClient sampleHostPresent
                   (answering notFound404))) as [rep|] eqn:Hrun;
    [|vm_compute in Hrun; discriminate Hrun].
  exists rep. split; [reflexivity|].
  destruct (host_read_never_drops_the_resource sampleRuntime sampleClient
              sampleHostPresent (answering notFound404) rep Hrun)
    as (st & Hst & _ & _ & _ & Herr).
  assert (He : HasError rep = true).
  { vm_compute in Hrun. inv Hrun. reflexivity. }
  split; [exact He|]. rewrite Hst, (Herr He). reflexivity.
Defined.

(** X9.  Create followed by Read: the state a successful creation
    leaves is the plan with a known identifier and nothing else changed,
    and a read of that state through the same client, against any
    network, returns with the same identifier. *)
Theorem host_create_then_read_keeps_identifier
    (rt : GoRuntime) (client : option Client) (plan : JumpServerHostResourceModel)
    (net : Network) (st : JumpServerHostResourceModel) (log : list Request) :
  createHost rt client plan net = (Some (mkReply [] (Some st)), log) ->
  (exists id, st = withID plan id)
  /\ forall net', exists rep st',
       fst (readHost rt client st net') = Some rep
       /\ State rep = Some st'
       /\ ID st' = ID st.
Proof.
  unfold createHost, assetHostResource_Create.
  unfold_monad. cbn.
  destruct (translateProtocols (Elements (Protocols plan))); cbn; try discriminate.
  destruct (translateNodes (NodesDisplay plan)); cbn; try discriminate.
  destruct client as [[[t|]]|]; cbn; try discriminate.
  intros Hc.
  assert (Hst : exists id, st = withID plan id).
  { revert Hc. repeat break_match; intros H; inv H; eauto. }
  split; [exact Hst|]. clear Hc.
  intros net'. unfold readHost, assetHostResource_Read.
  unfold_monad. cbn.
  repeat break_match; cbn;
    (do 2 eexists; split; [reflexivity|]; split; [reflexivity|]);
    rewrite ?mergeHost_fields; reflexivity.
Qed.

(** A run of X9: created as [h-42], then read while the server answers
    with a renamed host. *)
Lemma host_create_then_read_keeps_identifier_witness :
  createHost sampleRuntime sampleClient sampleHost (answering created201)
  = (Some (mkReply [] (Some sampleHostPresent)), [sampleCreateRequest])
  /\ exists rep st',
      fst (readHost sampleRuntime sampleClient sampleHostPresent
             (answering (ok200 bodyHost))) = Some rep
      /\ State rep = Some st'
      /\ ID st' = StringValue "h-42".
Proof.
  assert (Hc : createHost sampleRuntime sampleClient sampleHost (answering created201)
               = (Some (mkReply [] (Some sampleHostPresent)), [sampleCreateRequest]))
    by (vm_compute; reflexivity).
  split; [exact Hc|].
  destruct (host_create_then_read_keeps_identifier sampleRuntime sampleClient sampleHost
              (answering created201) sampleHostPresent [sampleCreateRequest] Hc)
    as [_ Hread].
  exact (Hread (answering (ok200 bodyHost))).
Defined.

(** X10.  A host creation records whatever string the answer holds
    under [id], the empty string included; the resource it then leaves in
    the state cannot be deleted: every deletion of it stops with the
    [Missing ID] error, sends nothing and keeps the state. *)
Theorem host_created_with_empty_identifier_cannot_be_deleted
    (rt : GoRuntime) (client : option Client) (plan : JumpServerHostResourceModel)
    (net : Network) (req : Request) (resp : Response) :
  snd (createHost rt client plan net) = [req] ->
  net req = inr resp ->
  createdID rt resp = Some EmptyString ->
  fst (createHost rt client plan net)
  = Some (mkReply [] (Some (withID plan EmptyString)))
  /\ forall net',
      deleteHost rt client (withID plan EmptyString) net'
      = (Some (mkReply [AddError "Missing ID" "Resource ID is required for deletion"]
                       (Some (withID plan EmptyString))),
         []).
Proof.
  intros Hlog Hnet Hid. split; [|intros net'; reflexivity].
  revert Hlog Hnet Hid.
  unfold createHost, assetHostResource_Create, createdID.
  unfold_monad. cbn.
  repeat break_match; intros Hlog Hnet Hid; try discriminate Hlog; inv Hlog;
    try same_response; status_eqs; try congruence.
Qed.

(** A run of X10. *)
Lemma host_created_with_empty_identifier_cannot_be_deleted_witness :
  snd (createHost sampleRuntimeEmptyID sampleClient sampleHost
         (answering (mkResponse "201 Created" 201 bodyEmptyID)))
  = [sampleCreateRequest]
  /\ createdID sampleRuntimeEmptyID (mkResponse "201 Created" 201 bodyEmptyID)
     = Some EmptyString
  /\ succeeded (fst (createHost sampleRuntimeEmptyID sampleClient sampleHost
                       (answering (mkResponse "201 Created" 201 bodyEmptyID))))
  /\ snd (deleteHost sampleRuntimeEmptyID sampleClient (withID sampleHost EmptyString)
            (answering noContent204)) = [].
Proof.
  assert (Hlog : snd (createHost sampleRuntimeEmptyID sampleClient sampleHost
                        (answering (mkResponse "201 Created" 201 bodyEmptyID)))
                 = [sampleCreateRequest]) by (vm_compute; reflexivity).
  assert (Hid : createdID sampleRuntimeEmptyID (mkResponse "201 Created" 201 bodyEmptyID)
                = Some EmptyString) by (vm_compute; reflexivity).
  split; [exact Hlog|]. split; [exact Hid|].
  destruct (host_created_with_empty_identifier_cannot_be_deleted sampleRuntimeEmptyID
              sampleClient sampleHost _ _ _ Hlog eq_refl Hid) as [Hc Hd].
  split.
  - eexists. split; [exact Hc|reflexivity].
  - rewrite (Hd (answering noContent204)). reflexivity.
Defined.

(** X11.  A host deletion that returns removes the resource from the
    state exactly when its request was answered with status 200 or 204;
    in every other outcome (no identifier, URL error, transport error,
    another status) it reports an error and the state is the prior state;
    and without an identifier it sends no request at all. *)
Theorem host_delete_removes_only_on_success
    (rt : GoRuntime) (client : option Client) (prior : JumpServerHostResourceModel)
    (net : Network) (rep : Reply (option JumpServerHostResourceModel)) :
  fst (deleteHost rt client prior net) = Some rep ->
  (State rep = None
   <-> exists req resp,
         snd (deleteHost rt client prior net) = [req]
         /\ net req = inr resp
         /\ (StatusCode resp = 200 \/ StatusCode resp = 204))
  /\ (State rep = None /\ HasError rep = false
      \/ State rep = Some prior /\ HasError rep = true)
  /\ (ValueString (ID prior) = EmptyString -> snd (deleteHost rt client prior net) = []).
Proof.
  unfold deleteHost, assetHostResource_Delete.
  unfold_monad. cbn.
  repeat break_match; intros H; try discriminate H; inv H; cbn;
    status_eqs;
    (split;
     [ split;
       [ intros Hs;
         first [ discriminate Hs
               | do 2 eexists; split; [reflexivity|]; split; [eassumption|]; lia ]
       | intros (req & resp & Hlog & Hnet & Hst);
         first [ discriminate Hlog
               | reflexivity
               | inv Hlog; same_response; exfalso; lia
               | inv Hlog; congruence ] ]
     | split;
       [ first [ left; split; reflexivity | right; split; reflexivity ]
       | intros Hid;
         first [ reflexivity
               | rewrite Hid in *; cbn in *; discriminate ] ] ]).
Qed.

(** A run of X11: the server is unreachable; the resource stays. *)
Lemma host_delete_removes_only_on_success_witness :
  exists rep,
    fst (deleteHost sampleRuntime sampleClient sampleHostPresent unreachable) = Some rep
    /\ State rep = Some sampleHostPresent
    /\ HasError rep = true.
Proof.
  destruct (fst (deleteHost sampleRuntime sampleClient sampleHostPresent unreachable))
    as [rep|] eqn:Hrun; [|vm_compute in Hrun; discriminate Hrun].
  exists rep. split; [reflexivity|].
  destruct (host_delete_removes_only_on_success sampleRuntime sampleClient
              sampleHostPresent unreachable rep Hrun) as (_ & [[Hs He]|[Hs He]] & _).
  - exfalso. vm_compute in Hrun. inv Hrun. discriminate Hs.
  - split; assumption.
Defined.

Lemma host_read_request
    (rt : GoRuntime) (client : option Client) (prior : JumpServerHostResourceModel)
    (net : Network) (req : Request) :
  In req (snd (readHost rt client prior net)) ->
  exists t,
    client = Some (mkClient (Some t))
    /\ req = mkRequest MethodGet
                       (BaseURL t ++ "/api/v1/assets/hosts/"
                        ++ ValueString (ID prior) ++ "/")
                       (itemHeader t) None
    /\ snd (readHost rt client prior net) = [req].
Proof.
  unfold readHost, assetHostResource_Read.
  unfold_monad. cbn.
  destruct client as [[[t|]]|]; cbn; try contradiction.
  destruct (url_Parse_error rt _); cbn; try contradiction.
  intros Hin. exists t. split; [reflexivity|].
  revert Hin. repeat break_match; cbn; intros [<-|[]]; split; reflexivity.
Qed.

Lemma host_delete_request
    (rt : GoRuntime) (client : option Client) (prior : JumpServerHostResourceModel)
    (net : Network) (req : Request) :
  In req (snd (deleteHost rt client prior net)) ->
  exists t,
    client = Some (mkClient (Some t))
    /\ req = mkRequest MethodDelete
                       (BaseURL t ++ "/api/v1/assets/hosts/"
                        ++ ValueString (ID prior) ++ "/")
                       (itemHeader t) None
    /\ snd (deleteHost rt client prior net) = [req]
    /\ ValueString (ID prior) <> EmptyString.
Proof.
  unfold deleteHost, assetHostResource_Delete.
  unfold_monad. cbn.
  destruct (String.eqb_spec (ValueString (ID prior)) EmptyString) as [Hid|Hid]; cbn;
    try contradiction.
  destruct client as [[[t|]]|]; cbn; try contradiction.
  destruct (url_Parse_error rt _); cbn; try contradiction.
  intros Hin. exists t. split; [reflexivity|].
  revert Hin. repeat break_match; cbn; intros [<-|[]];
    (split; [reflexivity|]); (split; [reflexivity|assumption]).
Qed.

(** X12.  Every request a host read or a host deletion sends is the one
    request, GET or DELETE, to the item URL: the base URL of the
    transport, the hosts collection path, the identifier of the state and
    a slash; it has no body, asks for JSON and carries the transport's
    token as bearer. *)
Theorem host_item_request
    (rt : GoRuntime) (client : option Client) (prior : JumpServerHostResourceModel)
    (net : Network) (req : Request) :
  In req (snd (readHost rt client prior net))
  \/ In req (snd (deleteHost rt client prior net)) ->
  exists t,
    client = Some (mkClient (Some t))
    /\ URL req = BaseURL t ++ "/api/v1/assets/hosts/" ++ ValueString (ID prior) ++ "/"
    /\ Body req = None
    /\ headerValues (ReqHeader req) "Accept" = ["application/json"]
    /\ headerValues (ReqHeader req) "Authorization" = ["Bearer " ++ Token t]
    /\ (In req (snd (readHost rt client prior net)) ->
        ReqMethod req = MethodGet /\ snd (readHost rt client prior net) = [req])
    /\ (In req (snd (deleteHost rt client prior net)) ->
        ReqMethod req = MethodDelete /\ snd (deleteHost rt client prior net) = [req]
        /\ ValueString (ID prior) <> EmptyString).
Proof.
  intros Hin.
  assert (Hshape : exists t m,
             client = Some (mkClient (Some t))
             /\ req = mkRequest m
                                (BaseURL t ++ "/api/v1/assets/hosts/"
                                 ++ ValueString (ID prior) ++ "/")
                                (itemHeader t) None).
  { destruct Hin as [Hin|Hin].
    - destruct (host_read_request _ _ _ _ _ Hin) as (t & Hc & Hreq & _). eauto.
    - destruct (host_delete_request _ _ _ _ _ Hin) as (t & Hc & Hreq & _). eauto. }
  destruct Hshape as (t & m & Hc & Hreq).
  exists t. split; [exact Hc|].
  split; [rewrite Hreq; reflexivity|].
  split; [rewrite Hreq; reflexivity|].
  split; [rewrite Hreq; vm_compute; reflexivity|].
  split; [rewrite Hreq; vm_compute; reflexivity|].
  split.
  - intros Hr. destruct (host_read_request _ _ _ _ _ Hr) as (t' & _ & Hreq' & Hlog).
    split; [rewrite Hreq'; reflexivity|exact Hlog].
  - intros Hd. destruct (host_delete_request _ _ _ _ _ Hd) as (t' & _ & Hreq' & Hlog & Hid).
    split; [rewrite Hreq'; reflexivity|]. split; [exact Hlog|exact Hid].
Qed.

(** A run of X12: the deletion of [h-42]. *)
Lemma host_item_request_witness :
  In (sampleItemRequest MethodDelete)
     (snd (deleteHost sampleRuntime sampleClient sampleHostPresent (answering noContent204)))
  /\ URL (sampleItemRequest MethodDelete)
     = "https://jumpserver.example.com/api/v1/assets/hosts/h-42/"
  /\ headerValues (ReqHeader (sampleItemRequest MethodDelete)) "Authorization"
     = ["Bearer tok-1"].
Proof.
  assert (Hin : In (sampleItemRequest MethodDelete)
                   (snd (deleteHost sampleRuntime sampleClient sampleHostPresent
                           (answering noContent204))))
    by (vm_compute; left; reflexivity).
  split; [exact Hin|].
  destruct (host_item_request sampleRuntime sampleClient sampleHostPresent
              (answering noContent204) (sampleItemRequest MethodDelete)
              (or_intror Hin))
    as (t & Hc & Hurl & _ & _ & Hauth & _).
  inv Hc. split; [exact Hurl|exact Hauth].
Defined.

Lemma protocolEntry_conformant (proto : AttrValue) :
  conformsToProtocolSchema proto = true -> exists entry, protocolEntry proto = Ok entry.
Proof.
  destruct proto as [s|i|b|attrs]; cbn; try discriminate.
  destruct (lookup attrs "name") as [[name|n|b|o]|]; try discriminate.
  destruct (lookup attrs "port") as [[s|port|b|o]|]; try discriminate.
  eauto.
Qed.

Lemma translateProtocols_conformant (elems : list AttrValue) :
  forallb conformsToProtocolSchema elems = true ->
  exists out, translateProtocols elems = Ok out.
Proof.
  induction elems as [|p rest IH]; cbn; intros H; [eauto|].
  apply andb_true_iff in H. destruct H as [Hp Hrest].
  destruct (protocolEntry_conformant p Hp) as [e ->].
  destruct (IH Hrest) as [out ->]. eauto.
Qed.

Lemma translateNodes_never_panics (nodes : TList TString) :
  translateNodes nodes <> Panic.
Proof. destruct nodes; discriminate. Qed.

(** X13.  Once the client is the one the provider builds (a client with
    the authenticating transport), no call panics: a host read, a host
    deletion, an account creation and a query always return with a
    response, and so does a host creation whose protocols conform to the
    schema. *)
Theorem calls_return_once_configured
    (rt : GoRuntime) (t : authTransport) (net : Network)
    (plan prior : JumpServerHostResourceModel) (account : JumpServerAccountModel)
    (query : HostSuggestionsDataSourceModel) :
  forallb conformsToProtocolSchema (Elements (Protocols plan)) = true ->
  fst (createHost rt (configuredClient t) plan net) <> None
  /\ fst (readHost rt (configuredClient t) prior net) <> None
  /\ fst (deleteHost rt (configuredClient t) prior net) <> None
  /\ fst (createAccount rt (configuredClient t) account net) <> None
  /\ fst (readDataSource rt (configuredClient t) query net) <> None.
Proof.
  intros Hp. destruct (translateProtocols_conformant _ Hp) as [out Hout].
  unfold configuredClient.
  split; [|split; [|split; [|split]]].
  - unfold createHost, assetHostResource_Create. unfold_monad. cbn.
    rewrite Hout. cbn.
    destruct (translateNodes (NodesDisplay plan)) eqn:Hn; cbn;
      [|discriminate|exfalso; exact (translateNodes_never_panics _ Hn)].
    repeat break_match; discriminate.
  - unfold readHost, assetHostResource_Read. unfold_monad. cbn.
    repeat break_match; discriminate.
  - unfold deleteHost, assetHostResource_Delete. unfold_monad. cbn.
    repeat break_match; discriminate.
  - unfold createAccount, accountResource_Create. unfold_monad. cbn.
    destruct (validateAssets rt (Elements (acc_Assets account))) eqn:Hv; cbn.
    + repeat break_match; discriminate.
    + discriminate.
    + exfalso. exact (validateAssets_never_panics _ _ Hv).
  - unfold readDataSource, HostSuggestionsDataSource_Read. unfold_monad. cbn.
    repeat break_match; discriminate.
Qed.

(** A run of X13 with the sample host. *)
Lemma calls_return_once_configured_witness :
  forallb conformsToProtocolSchema (Elements (Protocols sampleHost)) = true
  /\ fst (createHost sampleRuntime (configuredClient sampleTransport) sampleHost
            unreachable) <> None.
Proof.
  assert (H : forallb conformsToProtocolSchema (Elements (Protocols sampleHost)) = true)
    by reflexivity.
  split; [exact H|].
  exact (proj1 (calls_return_once_configured sampleRuntime sampleTransport unreachable
                  sampleHost sampleHost (sampleAccount []) (sampleQuery StringNull) H)).
Defined.

(** ** The account resource *)

(** X14.  Of the array a bulk creation is answered with, only the first
    entry is looked at: with status 200 and a body that decodes, the call
    succeeds exactly when the array is empty or its first entry has the
    string [created] under [state], whatever the other entries say; and
    on success the state is the plan as it was given. *)
Theorem account_create_checks_first_entry_only
    (rt : GoRuntime) (client : option Client) (plan : JumpServerAccountModel)
    (net : Network) (req : Request) (resp : Response)
    (entries : list (list (string * JSON))) :
  snd (createAccount rt client plan net) = [req] ->
  net req = inr resp ->
  StatusCode resp = 200 ->
  DecodeObjects rt (RespBody resp) = inr entries ->
  (succeeded (fst (createAccount rt client plan net)) <-> firstEntryCreated entries)
  /\ (firstEntryCreated entries ->
      fst (createAccount rt client plan net) = Some (mkReply [] (Some plan)))
  /\ (~ firstEntryCreated entries ->
      fst (createAccount rt client plan net)
      = Some (mkReply [AddError "Invalid API response"
                         "The response did not contain the expected data"] None)).
Proof.
  unfold createAccount, accountResource_Create, succeeded.
  unfold_monad. cbn.
  repeat break_match; intros Hlog Hn Hs Hd; try discriminate Hlog; inv Hlog;
    try same_response; status_eqs; try congruence;
    match goal with
    | H : DecodeObjects _ _ = ?v |- _ =>
      lazymatch v with
      | inr entries => fail
      | _ => rewrite H in Hd; first [ discriminate Hd | inv Hd ]
      end
    end;
    unfold firstEntryCreated, asString in *;
    repeat match goal with
           | H : match ?x with _ => _ end = _ |- _ => destruct x eqn:?; try discriminate H
           | H : Some _ = Some _ |- _ => inv H
           | H : String.eqb _ _ = true |- _ => apply String.eqb_eq in H; subst
           | H : String.eqb _ _ = false |- _ => apply String.eqb_neq in H
           end;
    (split;
     [ split;
       [ intros (rep & Hrep & Hdg); inv Hrep;
         first [ discriminate Hdg | exact I | reflexivity ]
       | intros H;
         first [ eexists; split; reflexivity
               | discriminate H
               | inv H; congruence ] ]
     | split;
       [ intros H; first [ reflexivity | discriminate H | inv H; congruence ]
       | intros H; first [ reflexivity
                         | exfalso; apply H; first [ exact I | reflexivity ] ] ] ]).
Qed.

(** A run of X14: the second entry reports a failure, the call succeeds. *)
Lemma account_create_checks_first_entry_only_witness :
  DecodeObjects sampleRuntimeMixed bodyBulkMixed
  = inr [[("state", JString "created")]; [("state", JString "failed")]]
  /\ fst (createAccount sampleRuntimeMixed sampleClient
            (sampleAccount [StringValue sampleUUID; StringValue sampleUUID2])
            (answering (ok200 bodyBulkMixed)))
     = Some (mkReply [] (Some (sampleAccount [StringValue sampleUUID;
                                              StringValue sampleUUID2]))).
Proof.
  assert (Hd : DecodeObjects sampleRuntimeMixed (RespBody (ok200 bodyBulkMixed))
               = inr [[("state", JString "created")]; [("state", JString "failed")]])
    by reflexivity.
  split; [exact Hd|].
  assert (Hlog : exists req,
             snd (createAccount sampleRuntimeMixed sampleClient
                    (sampleAccount [StringValue sampleUUID; StringValue sampleUUID2])
                    (answering (ok200 bodyBulkMixed))) = [req])
    by (eexists; vm_compute; reflexivity).
  destruct Hlog as [req Hlog].
  destruct (account_create_checks_first_entry_only sampleRuntimeMixed sampleClient
              (sampleAccount [StringValue sampleUUID; StringValue sampleUUID2])
              (answering (ok200 bodyBulkMixed)) req (ok200 bodyBulkMixed) _
              Hlog eq_refl eq_refl Hd) as (_ & Hok & _).
  apply Hok. reflexivity.
Defined.

Lemma account_create_log
    (rt : GoRuntime) (c : Client) (plan : JumpServerAccountModel)
    (net : Network) (valid : list string) (req : Request) :
  validateAssets rt (Elements (acc_Assets plan)) = Ok valid ->
  In req (snd (createAccount rt (Some c) plan net)) ->
  snd (createAccount rt (Some c) plan net) = [req]
  /\ req = mkRequest MethodPost accountBulkURL
             (match Transport c with
              | Some t =>
                Header_Set (Header_Set [] "Content-Type" "application/json")
                           "Authorization" ("Bearer " ++ Token t)
              | None => Header_Set [] "Content-Type" "application/json"
              end)
             (Some (accountPayload plan valid)).
Proof.
  intros Hv. unfold createAccount, accountResource_Create.
  unfold_monad. rewrite Hv. cbn.
  repeat break_match; cbn; intros Hin; try contradiction;
    destruct Hin as [<-|[]]; split; reflexivity.
Qed.


(** X15.  Every request an account creation sends is the one POST whose
    body carries the plan's name, username, privileged and active flags
    and, under [assets], the stripped renderings of the plan's assets in
    order, each of which parsed as a UUID (an empty list as [null]); it
    has a JSON content type, and it carries a bearer token exactly when
    the client has the authenticating transport. *)
Theorem account_create_request
    (rt : GoRuntime) (client : option Client) (plan : JumpServerAccountModel)
    (net : Network) (req : Request) :
  In req (snd (createAccount rt client plan net)) ->
  exists c,
    client = Some c
    /\ snd (createAccount rt client plan net) = [req]
    /\ ReqMethod req = MethodPost
    /\ headerValues (ReqHeader req) "Content-Type" = ["application/json"]
    /\ headerValues (ReqHeader req) "Authorization"
       = match Transport c with
         | Some t => ["Bearer " ++ Token t]
         | None => []
         end
    /\ member (Body req) "name" = Some (JString (ValueString (acc_Name plan)))
    /\ member (Body req) "username" = Some (JString (ValueString (acc_Username plan)))
    /\ member (Body req) "privileged" = Some (JBool (ValueBool (acc_Privileged plan)))
    /\ member (Body req) "is_active" = Some (JBool (ValueBool (acc_Is_active plan)))
    /\ member (Body req) "assets"
       = Some (sliceJSON (map (fun a => JString (assetText rt a))
                              (Elements (acc_Assets plan))))
    /\ Forall (fun a => uuid_Parse (assetText rt a) <> None)
              (Elements (acc_Assets plan)).
Proof.
  intros Hin. destruct client as [c|].
  2:{ exfalso. revert Hin. unfold createAccount, accountResource_Create.
      unfold_monad. cbn.
      destruct (validateAssets rt (Elements (acc_Assets plan))); cbn;
        try contradiction.
      destruct (url_Parse_error rt accountBulkURL); cbn; contradiction. }
  exists c. split; [reflexivity|].
  destruct (validateAssets rt (Elements (acc_Assets plan))) as [valid|ds|] eqn:Hv.
  - destruct (account_create_log rt c plan net valid req Hv Hin) as [Hlog ->].
    destruct (validateAssets_Ok rt _ _ Hv) as [-> Hall].
    split; [exact Hlog|]. cbn [ReqMethod ReqHeader Body].
    split; [reflexivity|].
    split.
    { destruct (Transport c).
      - rewrite headerValues_Set_other by (vm_compute; discriminate).
        exact (headerValues_Set_same [] "Content-Type" "application/json").
      - exact (headerValues_Set_same [] "Content-Type" "application/json"). }
    split.
    { destruct (Transport c) as [t|].
      - exact (headerValues_Set_same _ "Authorization" ("Bearer " ++ Token t)).
      - rewrite headerValues_Set_other by (vm_compute; discriminate). reflexivity. }
    repeat (split; [reflexivity|]).
    split; [cbn [member accountPayload]; rewrite map_map; reflexivity|].
    apply Forall_forall. exact Hall.
  - rewrite (account_create_validation_stop rt (Some c) plan net ds Hv) in Hin.
    contradiction.
  - exfalso. exact (validateAssets_never_panics _ _ Hv).
Qed.

(** A run of X15: a curly-quoted asset is sent stripped. *)
Lemma account_create_request_witness :
  exists req,
    In req (snd (createAccount sampleRuntime sampleClient
                   (sampleAccount [StringValue curlyQuotedUUID]) bulkCreated))
    /\ member (Body req) "assets" = Some (JArray [JString sampleUUID])
    /\ headerValues (ReqHeader req) "Authorization" = ["Bearer tok-1"].
Proof.
  assert (Hlog : exists req,
             snd (createAccount sampleRuntime sampleClient
                    (sampleAccount [StringValue curlyQuotedUUID]) bulkCreated) = [req])
    by (eexists; vm_compute; reflexivity).
  destruct Hlog as [req Hlog]. exists req.
  assert (Hin : In req (snd (createAccount sampleRuntime sampleClient
                               (sampleAccount [StringValue curlyQuotedUUID]) bulkCreated)))
    by (rewrite Hlog; left; reflexivity).
  split; [exact Hin|].
  destruct (account_create_request sampleRuntime sampleClient
              (sampleAccount [StringValue curlyQuotedUUID]) bulkCreated req Hin)
    as (c & Hc & _ & _ & _ & Hauth & _ & _ & _ & _ & Hassets & _).
  inv Hc. split; [rewrite Hassets; vm_compute; reflexivity|exact Hauth].
Defined.

(** *** Identifiers of plain ASCII *)

Lemma plainByte_spec (b : Z) :
  plainByte b = true -> 32 <= b <= 126 /\ b <> 34 /\ b <> 92.
Proof.
  unfold plainByte. rewrite !andb_true_iff, !negb_true_iff.
  intros [[[H1 H2] H3] H4].
  apply Z.leb_le in H1, H2. apply Z.eqb_neq in H3, H4. lia.
Qed.

Lemma chr_byte_of (c : ascii) : chr (byte_of c) = c.
Proof.
  unfold chr, byte_of.
  assert (H : (N_of_ascii c < 256)%N) by apply N_ascii_bounded.
  rewrite Z.mod_small by lia. rewrite N2Z.id. apply ascii_N_embedding.
Qed.

(** Decide the integer tests of the goal by arithmetic. *)
Ltac z_tests :=
  repeat match goal with
         | |- context [?a <? ?b] => destruct (Z.ltb_spec a b); try lia
         | |- context [?a <=? ?b] => destruct (Z.leb_spec a b); try lia
         | |- context [?a =? ?b] => destruct (Z.eqb_spec a b); try lia
         end.

Lemma quoteBody_plain (wide : Z -> bool) (s : string) :
  plainASCII s = true -> quoteBody wide s 0 = s.
Proof.
  induction s as [|c s IH]; [reflexivity|].
  unfold plainASCII. cbn [bytes forallb]. intros H.
  apply andb_true_iff in H. destruct H as [Hc Hs].
  apply plainByte_spec in Hc.
  cbn [quoteBody]. unfold RuneSelf, RuneError.
  destruct (Z.ltb_spec (byte_of c) 128); [|lia].
  assert (Hne : (byte_of c =? 65533) = false) by (apply Z.eqb_neq; lia).
  rewrite Hne. rewrite andb_false_r.
  unfold appendEscapedRune, IsPrint.
  replace (byte_of dquote) with 34 by reflexivity.
  replace (byte_of backslash) with 92 by reflexivity.
  destruct (Z.eqb_spec (byte_of c) 34); [lia|].
  destruct (Z.eqb_spec (byte_of c) 92); [lia|]. cbn [orb].
  destruct (Z.leb_spec (byte_of c) 255); [|lia].
  destruct (Z.leb_spec 32 (byte_of c)); [|lia].
  destruct (Z.leb_spec (byte_of c) 126); [|lia]. cbn [andb].
  unfold encodeRune.
  destruct (Z.leb_spec 0 (byte_of c)); [|lia].
  destruct (Z.leb_spec (byte_of c) 127); [|lia]. cbn [andb].
  rewrite chr_byte_of.
  change (String c (quoteBody wide s (1 - 1)) = String c s).
  f_equal. exact (IH Hs).
Qed.

Lemma ContainsRune_cutset_plain (b : Z) :
  plainByte b = true -> ContainsRune quoteCutset b = false.
Proof.
  intros H. apply plainByte_spec in H. unfold ContainsRune, RuneSelf.
  destruct (Z.leb_spec 0 b); [|lia]. destruct (Z.ltb_spec b 128); [|lia].
  cbn [andb].
  replace (bytes quoteCutset) with [226; 128; 156; 226; 128; 157; 34] by reflexivity.
  cbn [existsb]. z_tests; reflexivity.
Qed.

Lemma get_append_last (x : string) (c : ascii) :
  String.get (String.length x) (x ++ str1 c) = Some c.
Proof. induction x as [|y x IH]; [reflexivity|exact IH]. Qed.

Lemma byteAt_last (x : string) (c : ascii) :
  byteAt (x ++ str1 c) (len (x ++ str1 c) - 1) = byte_of c.
Proof.
  unfold byteAt, len. rewrite length_append. cbn [String.length str1].
  destruct (Z.ltb_spec (Z.of_nat (String.length x + 1) - 1) 0); [lia|].
  replace (Z.to_nat (Z.of_nat (String.length x + 1) - 1)) with (String.length x) by lia.
  rewrite get_append_last. reflexivity.
Qed.

Lemma take_append (x y : string) : take (String.length x) (x ++ y) = x.
Proof.
  induction x as [|c x IH]; [destruct y; reflexivity|].
  change (String c (take (String.length x) (x ++ y)) = String c x).
  rewrite IH. reflexivity.
Qed.

Lemma snoc_cases (s : string) :
  s = EmptyString \/ exists x c, s = x ++ str1 c.
Proof.
  induction s as [|c s IH]; [left; reflexivity|]. right.
  destruct IH as [->|(x & d & ->)].
  - exists EmptyString, c. reflexivity.
  - exists (String c x), d. reflexivity.
Qed.

Lemma plainASCII_last (x : string) (c : ascii) :
  plainASCII (x ++ str1 c) = true -> plainByte (byte_of c) = true.
Proof.
  unfold plainASCII. induction x as [|y x IH].
  - cbn [append str1 bytes forallb]. intros H.
    apply andb_true_iff in H. apply H.
  - change (bytes (String y x ++ str1 c)) with (byte_of y :: bytes (x ++ str1 c)).
    cbn [forallb]. intros H. apply andb_true_iff in H. apply IH. apply H.
Qed.

(** One round of the right trimming: a string that ends in a byte of the
    cut set loses it; one that ends in a plain byte is left alone. *)
Lemma trimRight_step_quote (fuel : nat) (x : string) :
  trimRightUnicode_loop (S fuel) (x ++ str1 dquote) quoteCutset
  = trimRightUnicode_loop fuel x quoteCutset.
Proof.
  cbn [trimRightUnicode_loop].
  assert (Hlen : (len (x ++ str1 dquote) =? 0) = false).
  { apply Z.eqb_neq. unfold len. rewrite length_append. cbn. lia. }
  rewrite Hlen, byteAt_last.
  replace (byte_of dquote) with 34 by reflexivity.
  replace (34 <? RuneSelf) with true by reflexivity.
  replace (ContainsRune quoteCutset 34) with true by reflexivity.
  cbn [negb]. rewrite length_append. cbn [String.length str1].
  replace (String.length x + 1 - 1)%nat with (String.length x) by lia.
  rewrite take_append. reflexivity.
Qed.

Lemma trimRight_stop_plain (fuel : nat) (x : string) (c : ascii) :
  plainByte (byte_of c) = true ->
  trimRightUnicode_loop fuel (x ++ str1 c) quoteCutset = x ++ str1 c.
Proof.
  intros Hc. destruct fuel as [|fuel]; [reflexivity|].
  cbn [trimRightUnicode_loop].
  destruct (len (x ++ str1 c) =? 0); [reflexivity|].
  rewrite byteAt_last.
  pose proof (plainByte_spec _ Hc) as Hb. unfold RuneSelf.
  destruct (Z.ltb_spec (byte_of c) 128); [|lia].
  rewrite (ContainsRune_cutset_plain _ Hc). reflexivity.
Qed.

Lemma trimLeft_stop_plain (fuel : nat) (s : string) :
  plainASCII s = true -> trimLeftUnicode_loop fuel s quoteCutset = s.
Proof.
  intros Hs. destruct fuel as [|fuel]; [reflexivity|].
  destruct s as [|c s]; [reflexivity|].
  cbn [trimLeftUnicode_loop].
  unfold plainASCII in Hs. cbn [bytes forallb] in Hs.
  apply andb_true_iff in Hs. destruct Hs as [Hc _].
  pose proof (plainByte_spec _ Hc) as Hb. unfold RuneSelf.
  destruct (Z.ltb_spec (byte_of c) 128); [|lia].
  rewrite (ContainsRune_cutset_plain _ Hc). reflexivity.
Qed.

Lemma Trim_quoted_plain (s : string) :
  plainASCII s = true ->
  Trim (String dquote (s ++ str1 dquote)) quoteCutset = s.
Proof.
  intros Hs. unfold Trim.
  replace (len (String dquote (s ++ str1 dquote)) =? 0) with false
    by (symmetry; apply Z.eqb_neq; unfold len; cbn [String.length]; lia).
  replace (len quoteCutset =? 0) with false by reflexivity.
  cbn [orb]. unfold trimRightUnicode, trimLeftUnicode.
  cbn [String.length].
  change (String dquote (s ++ str1 dquote)) with (String dquote s ++ str1 dquote).
  rewrite trimRight_step_quote.
  destruct (snoc_cases s) as [->|(x & c & ->)].
  - reflexivity.
  - change (String dquote (x ++ str1 c)) with (String dquote x ++ str1 c).
    rewrite (trimRight_stop_plain _ _ _ (plainASCII_last _ _ Hs)).
    change (String dquote x ++ str1 c) with (String dquote (x ++ str1 c)).
    cbn [String.length trimLeftUnicode_loop].
    replace (byte_of dquote) with 34 by reflexivity.
    replace (34 <? RuneSelf) with true by reflexivity.
    replace (ContainsRune quoteCutset 34) with true by reflexivity.
    cbn [negb drop].
    apply trimLeft_stop_plain. exact Hs.
Qed.

Lemma assetText_plain (rt : GoRuntime) (s : string) :
  plainASCII s = true -> assetText rt (StringValue s) = s.
Proof.
  intros Hs. unfold assetText, String_String, Quote.
  rewrite (quoteBody_plain _ _ Hs). apply Trim_quoted_plain. exact Hs.
Qed.

Lemma account_create_fails_on
    (rt : GoRuntime) (client : option Client) (plan : JumpServerAccountModel)
    (net : Network) (a : TString) :
  In a (Elements (acc_Assets plan)) ->
  uuid_Parse (assetText rt a) = None ->
  failsValidation (fst (createAccount rt client plan net))
  /\ snd (createAccount rt client plan net) = [].
Proof.
  intros Hin Hp.
  destruct (validateAssets_complete rt _ a Hin Hp) as [ds Hv].
  rewrite (account_create_validation_stop rt client plan net ds Hv).
  destruct (validateAssets_Stop rt _ _ Hv) as (b & _ & _ & ->).
  split; [|reflexivity].
  eexists; eexists. split; [reflexivity|]. split; [left; reflexivity|reflexivity].
Qed.

Lemma account_create_failure_names_asset
    (rt : GoRuntime) (client : option Client) (plan : JumpServerAccountModel)
    (net : Network) :
  failsValidation (fst (createAccount rt client plan net)) ->
  exists a, In a (Elements (acc_Assets plan)) /\ uuid_Parse (assetText rt a) = None.
Proof.
  intros Hf.
  destruct (validateAssets rt (Elements (acc_Assets plan))) as [v|ds|] eqn:Hv.
  - destruct (account_create_after_validation rt client plan net v Hv) as [Hno _].
    contradiction.
  - destruct (validateAssets_Stop rt _ _ Hv) as (a & Hin & Hp & _). eauto.
  - exfalso. exact (validateAssets_never_panics _ _ Hv).
Qed.

Lemma account_create_nil_client_log
    (rt : GoRuntime) (plan : JumpServerAccountModel) (net : Network) :
  snd (createAccount rt None plan net) = [].
Proof.
  unfold createAccount, accountResource_Create. unfold_monad. cbn.
  destruct (validateAssets rt (Elements (acc_Assets plan))); cbn; try reflexivity.
  destruct (url_Parse_error rt accountBulkURL); reflexivity.
Qed.

(** X16.  When every element of the assets list is a known string of
    printable ASCII without a double quote or a backslash (as every UUID
    in its usual spellings is), the rendering and the trimming cancel:
    the creation fails validation exactly when one of the values
    themselves is not a UUID, and every request sent carries the values
    unchanged and in order. *)
Theorem account_create_plain_identifiers
    (rt : GoRuntime) (client : option Client) (plan : JumpServerAccountModel)
    (net : Network) :
  (forall a, In a (Elements (acc_Assets plan)) ->
             exists s, a = StringValue s /\ plainASCII s = true) ->
  (failsValidation (fst (createAccount rt client plan net)) <-> someAssetNotUUID plan)
  /\ (forall req,
         In req (snd (createAccount rt client plan net)) ->
         member (Body req) "assets"
         = Some (sliceJSON (map (fun a => JString (ValueString a))
                                (Elements (acc_Assets plan))))).
Proof.
  intros Hplain.
  assert (Htext : forall a, In a (Elements (acc_Assets plan)) ->
                            assetText rt a = ValueString a).
  { intros a Hin. destruct (Hplain a Hin) as (s & -> & Hs).
    exact (assetText_plain rt s Hs). }
  split.
  - split.
    + intros Hf.
      destruct (account_create_failure_names_asset rt client plan net Hf)
        as (a & Hin & Hp).
      exists a. split; [exact Hin|]. rewrite <- (Htext a Hin). exact Hp.
    + intros (a & Hin & Hp). rewrite <- (Htext a Hin) in Hp.
      exact (proj1 (account_create_fails_on rt client plan net a Hin Hp)).
  - intros req Hin. destruct client as [c|].
    2:{ rewrite account_create_nil_client_log in Hin. contradiction. }
    destruct (validateAssets rt (Elements (acc_Assets plan))) as [valid|ds|] eqn:Hv.
    + destruct (account_create_log rt c plan net valid req Hv Hin) as [_ ->].
      destruct (validateAssets_Ok rt _ _ Hv) as [-> _].
      cbn [Body member accountPayload].
      change (Some (sliceJSON (map JString (map (assetText rt)
                                              (Elements (acc_Assets plan)))))
              = Some (sliceJSON (map (fun a => JString (ValueString a))
                                     (Elements (acc_Assets plan))))).
      rewrite map_map. do 2 f_equal.
      apply map_ext_in. intros a Ha. rewrite (Htext a Ha). reflexivity.
    + rewrite (account_create_validation_stop rt (Some c) plan net ds Hv) in Hin.
      contradiction.
    + exfalso. exact (validateAssets_never_panics _ _ Hv).
Qed.

(** A run of X16: a bare UUID and a second string that is none. *)
Lemma account_create_plain_identifiers_witness :
  (forall a, In a [StringValue sampleUUID; StringValue "not-a-uuid"] ->
             exists s, a = StringValue s /\ plainASCII s = true)
  /\ failsValidation
       (fst (createAccount sampleRuntime sampleClient
               (sampleAccount [StringValue sampleUUID; StringValue "not-a-uuid"])
               bulkCreated)).
Proof.
  assert (Hplain : forall a,
             In a (Elements (acc_Assets
                      (sampleAccount [StringValue sampleUUID; StringValue "not-a-uuid"]))) ->
             exists s, a = StringValue s /\ plainASCII s = true).
  { intros a [<-|[<-|[]]]; eexists; (split; [reflexivity|vm_compute; reflexivity]). }
  split; [exact Hplain|].
  apply (proj1 (account_create_plain_identifiers sampleRuntime sampleClient
                  (sampleAccount [StringValue sampleUUID; StringValue "not-a-uuid"])
                  bulkCreated Hplain)).
  exists (StringValue "not-a-uuid").
  split; [right; left; reflexivity|vm_compute; reflexivity].
Defined.

(** X17.  A null or unknown element of the assets list is never a UUID:
    a creation whose list holds one fails validation and sends no
    request, whatever the other elements are. *)
Theorem account_create_rejects_null_assets
    (rt : GoRuntime) (client : option Client) (plan : JumpServerAccountModel)
    (net : Network) (a : TString) :
  In a (Elements (acc_Assets plan)) ->
  a = StringNull \/ a = StringUnknown ->
  failsValidation (fst (createAccount rt client plan net))
  /\ snd (createAccount rt client plan net) = [].
Proof.
  intros Hin Ha.
  apply (account_create_fails_on rt client plan net a Hin).
  destruct Ha as [->| ->]; vm_compute; reflexivity.
Qed.

(** A run of X17: a null element after a UUID. *)
Lemma account_create_rejects_null_assets_witness :
  In StringNull (Elements (acc_Assets (sampleAccount [StringValue sampleUUID; StringNull])))
  /\ failsValidation
       (fst (createAccount sampleRuntime sampleClient
               (sampleAccount [StringValue sampleUUID; StringNull]) bulkCreated))
  /\ snd (createAccount sampleRuntime sampleClient
            (sampleAccount [StringValue sampleUUID; StringNull]) bulkCreated) = [].
Proof.
  assert (Hin : In StringNull
                   (Elements (acc_Assets
                      (sampleAccount [StringValue sampleUUID; StringNull]))))
    by (right; left; reflexivity).
  split; [exact Hin|].
  exact (account_create_rejects_null_assets sampleRuntime sampleClient
           (sampleAccount [StringValue sampleUUID; StringNull]) bulkCreated
           StringNull Hin (or_introl eq_refl)).
Defined.

(** ** The host-suggestions data source *)

Lemma suggestions_request_shape
    (rt : GoRuntime) (client : option Client) (data : HostSuggestionsDataSourceModel)
    (net : Network) (req : Request) :
  In req (snd (readDataSource rt client data net)) ->
  exists t,
    client = Some (mkClient (Some t))
    /\ snd (readDataSource rt client data net) = [req]
    /\ req = mkRequest MethodGet (suggestionsURL t data)
               (Header_Set [] "Authorization" ("Bearer " ++ Token t)) None.
Proof.
  unfold readDataSource, HostSuggestionsDataSource_Read.
  unfold_monad. cbn.
  destruct client as [[[t|]]|]; cbn; try contradiction.
  destruct (url_Parse_error rt _); cbn; try contradiction.
  intros Hin. exists t. split; [reflexivity|].
  revert Hin. repeat break_match; cbn; intros [<-|[]]; split; reflexivity.
Qed.

(** X18.  For every query that sent its request: the read succeeds
    exactly when the request was answered with status 200 and a body
    that decodes as an array of hosts; a read that does not succeed
    reports an error and stores no state, an answer with another status
    giving the one error that names the status code; and a state that is
    stored repeats the filters of the query and leaves [next] and
    [previous] null. *)
Theorem suggestions_read_outcome
    (rt : GoRuntime) (client : option Client) (data : HostSuggestionsDataSourceModel)
    (net : Network) (req : Request) :
  snd (readDataSource rt client data net) = [req] ->
  (succeeded (fst (readDataSource rt client data net))
   <-> exists resp hosts,
         net req = inr resp
         /\ StatusCode resp = 200
         /\ DecodeHosts rt (RespBody resp) = inr hosts)
  /\ (~ succeeded (fst (readDataSource rt client data net)) ->
      exists ds, ds <> []
                 /\ fst (readDataSource rt client data net) = Some (mkReply ds None))
  /\ (forall resp,
         net req = inr resp -> StatusCode resp <> 200 ->
         fst (readDataSource rt client data net)
         = Some (mkReply [AddError "Unexpected HTTP response status"
                            ("Received status code: " ++ fmt_d (StatusCode resp))]
                         None))
  /\ (forall rep st,
         fst (readDataSource rt client data net) = Some rep ->
         State rep = Some st ->
         filters st = filters data
         /\ ds_Next st = StringNull
         /\ ds_Previous st = StringNull).
Proof.
  unfold readDataSource, HostSuggestionsDataSource_Read, succeeded.
  unfold_monad. cbn.
  repeat break_match; intros Hlog; try discriminate Hlog; inv Hlog; status_eqs;
    (split;
     [ split;
       [ intros (rep & Hrep & Hd); inv Hrep; first [ discriminate Hd | eauto 6 ]
       | intros (resp & hosts & Hn & Hs & Hdec);
         same_response; first [ congruence | eexists; split; reflexivity ] ]
     | split;
       [ intros Hns;
         first [ eexists; split; [|reflexivity]; discriminate
               | exfalso; apply Hns; eexists; split; reflexivity ]
       | split;
         [ intros resp Hn Hs; same_response; first [ congruence | reflexivity ]
         | intros rep st Hrep Hst; inv Hrep; cbn in Hst;
           first [ discriminate Hst | inv Hst; repeat split; reflexivity ] ] ] ]).
Qed.

(** A run of X18: an answer 404 stores nothing. *)
Lemma suggestions_read_outcome_witness :
  snd (readDataSource sampleRuntime sampleClient (sampleQuery (StringValue "web 1"))
         (answering notFound404))
  = [sampleSuggestionsRequest]
  /\ fst (readDataSource sampleRuntime sampleClient (sampleQuery (StringValue "web 1"))
            (answering notFound404))
     = Some (mkReply [AddError "Unexpected HTTP response status"
                        "Received status code: 404"] None).
Proof.
  assert (Hlog : snd (readDataSource sampleRuntime sampleClient
                        (sampleQuery (StringValue "web 1")) (answering notFound404))
                 = [sampleSuggestionsRequest])
    by (vm_compute; reflexivity).
  split; [exact Hlog|].
  destruct (suggestions_read_outcome sampleRuntime sampleClient
              (sampleQuery (StringValue "web 1")) (answering notFound404)
              sampleSuggestionsRequest Hlog) as (_ & _ & Hstatus & _).
  rewrite (Hstatus notFound404 eq_refl); [reflexivity|].
  vm_compute. discriminate.
Defined.

(** X19.  Every request a query sends is the one GET, without a body, of
    the suggestions URL under the base URL of the client's transport;
    the transport adds the bearer token, and the code sets no other
    header. *)
Theorem suggestions_request
    (rt : GoRuntime) (client : option Client) (data : HostSuggestionsDataSourceModel)
    (net : Network) (req : Request) :
  In req (snd (readDataSource rt client data net)) ->
  exists t,
    client = Some (mkClient (Some t))
    /\ snd (readDataSource rt client data net) = [req]
    /\ ReqMethod req = MethodGet
    /\ URL req = BaseURL t ++ "/api/v1/assets/hosts/suggestions/" ++ "?"
                 ++ Values_Encode (queryParams data)
    /\ Body req = None
    /\ headerValues (ReqHeader req) "Authorization" = ["Bearer " ++ Token t]
    /\ forall key, key <> "Authorization" -> headerValues (ReqHeader req) key = [].
Proof.
  intros Hin.
  destruct (suggestions_request_shape rt client data net req Hin) as (t & Hc & Hlog & ->).
  exists t. split; [exact Hc|]. split; [exact Hlog|].
  cbn [ReqMethod URL Body ReqHeader].
  do 3 (split; [reflexivity|]).
  split.
  - exact (headerValues_Set_same [] "Authorization" ("Bearer " ++ Token t)).
  - intros key Hkey.
    rewrite (headerValues_Set_other [] "Authorization" _ key Hkey). reflexivity.
Qed.

(** A run of X19: the query by the name [web 1]. *)
Lemma suggestions_request_witness :
  In sampleSuggestionsRequest
     (snd (readDataSource sampleRuntime sampleClient (sampleQuery (StringValue "web 1"))
             (answering (ok200 bodySuggestions))))
  /\ headerValues (ReqHeader sampleSuggestionsRequest) "Authorization" = ["Bearer tok-1"]
  /\ headerValues (ReqHeader sampleSuggestionsRequest) "Accept" = [].
Proof.
  assert (Hin : In sampleSuggestionsRequest
                   (snd (readDataSource sampleRuntime sampleClient
                           (sampleQuery (StringValue "web 1"))
                           (answering (ok200 bodySuggestions)))))
    by (vm_compute; left; reflexivity).
  split; [exact Hin|].
  destruct (suggestions_request sampleRuntime sampleClient
              (sampleQuery (StringValue "web 1")) (answering (ok200 bodySuggestions))
              sampleSuggestionsRequest Hin) as (t & Hc & _ & _ & _ & _ & Hauth & Hother).
  inv Hc. split; [exact Hauth|]. apply Hother. discriminate.
Defined.

(** ** From the provider's configuration to the requests of the resources *)

Lemma configure_Ok_client
    (rt : GoRuntime) (getenv : string -> string) (data : JumpServerProviderModel)
    (net : Network) (c : Client) :
  fst (run (Configure rt getenv data) net) = Ok c ->
  exists token,
    c = mkClient (Some (mkAuthTransport token (configuredBaseURL getenv data))).
Proof.
  unfold configuredBaseURL, effective, Configure, getToken.
  destruct (String_IsNull (cfg_BaseURL data)), (String_IsNull (cfg_Username data)),
           (String_IsNull (cfg_Password data));
    cbn [negb];
    unfold_monad; cbn;
    repeat break_match; intros H; try discriminate H; inv H;
    eexists; reflexivity.
Qed.

Lemma host_create_addressed
    (rt : GoRuntime) (t : authTransport) (plan : JumpServerHostResourceModel)
    (net : Network) (req : Request) :
  In req (snd (createHost rt (Some (mkClient (Some t))) plan net)) ->
  URL req = BaseURL t ++ hostsPath
  /\ headerValues (ReqHeader req) "Authorization" = ["Bearer " ++ Token t].
Proof.
  unfold createHost, assetHostResource_Create.
  unfold_monad. cbn.
  destruct (translateProtocols (Elements (Protocols plan))); cbn; try contradiction.
  destruct (translateNodes (NodesDisplay plan)); cbn; try contradiction.
  destruct (url_Parse_error rt _); cbn; try contradiction.
  repeat break_match; cbn; intros [<-|[]]; (split; [reflexivity|]);
    exact (headerValues_Set_same _ "Authorization" ("Bearer " ++ Token t)).
Qed.

(** X20.  When the provider's [Configure] returns a client, each
    resource and the data source stores that very client without a
    diagnostic, whatever it held before, and the calls made with it go
    to the configured base URL with the token of the exchange as bearer:
    a host creation to the hosts collection, a query to the suggestions
    URL; an account creation carries the same bearer token. *)
Theorem configured_client_reaches_the_requests
    (rt : GoRuntime) (getenv : string -> string) (data : JumpServerProviderModel)
    (net : Network) (c : Client) (prior : option Client) :
  fst (run (Configure rt getenv data) net) = Ok c ->
  let pd := providerData (fst (run (Configure rt getenv data) net)) in
  assetHostResource_Configure prior pd = ([], Some c)
  /\ accountResource_Configure prior pd = ([], Some c)
  /\ HostSuggestionsDataSource_Configure prior pd = ([], Some c)
  /\ exists token,
      Transport c = Some (mkAuthTransport token (configuredBaseURL getenv data))
      /\ (forall plan net' req,
             In req (snd (createHost rt (snd (assetHostResource_Configure prior pd))
                            plan net')) ->
             URL req = configuredBaseURL getenv data ++ "/api/v1/assets/hosts/"
             /\ headerValues (ReqHeader req) "Authorization" = ["Bearer " ++ token])
      /\ (forall query net' req,
             In req (snd (readDataSource rt
                            (snd (HostSuggestionsDataSource_Configure prior pd))
                            query net')) ->
             URL req = configuredBaseURL getenv data
                       ++ "/api/v1/assets/hosts/suggestions/" ++ "?"
                       ++ Values_Encode (queryParams query)
             /\ headerValues (ReqHeader req) "Authorization" = ["Bearer " ++ token])
      /\ (forall plan net' req,
             In req (snd (createAccount rt (snd (accountResource_Configure prior pd))
                            plan net')) ->
             headerValues (ReqHeader req) "Authorization" = ["Bearer " ++ token]).
Proof.
  intros Hc pd. subst pd. rewrite Hc.
  destruct (configure_Ok_client rt getenv data net c Hc) as [token ->].
  cbn [providerData assetHostResource_Configure accountResource_Configure
       HostSuggestionsDataSource_Configure snd Transport].
  repeat (split; [reflexivity|]).
  exists token. split; [reflexivity|].
  split; [|split].
  - intros plan net' req Hin.
    exact (host_create_addressed rt _ plan net' req Hin).
  - intros query net' req Hin.
    destruct (suggestions_request_shape rt _ query net' req Hin) as (t & Ht & _ & ->).
    inv Ht. cbn [URL ReqHeader]. split; [reflexivity|].
    exact (headerValues_Set_same [] "Authorization" ("Bearer " ++ token)).
  - intros plan net' req Hin.
    destruct (validateAssets rt (Elements (acc_Assets plan))) as [valid|ds|] eqn:Hv.
    + destruct (account_create_log rt _ plan net' valid req Hv Hin) as [_ ->].
      cbn [ReqHeader Transport].
      exact (headerValues_Set_same _ "Authorization" ("Bearer " ++ token)).
    + rewrite (account_create_validation_stop rt _ plan net' ds Hv) in Hin.
      contradiction.
    + exfalso. exact (validateAssets_never_panics _ _ Hv).
Qed.

(** A run of X20: the configuration of the specification's scenario,
    then the creation of its host. *)
Lemma configured_client_reaches_the_requests_witness :
  fst (run (Configure sampleRuntime noEnv (sampleConfig StringNull))
           (answering (ok200 bodyToken)))
  = Ok (mkClient (Some sampleTransport))
  /\ forall req,
      In req (snd (createHost sampleRuntime
                     (snd (assetHostResource_Configure None
                             (providerData
                                (fst (run (Configure sampleRuntime noEnv
                                             (sampleConfig StringNull))
                                          (answering (ok200 bodyToken)))))))
                     sampleHost (answering created201))) ->
      URL req = "https://jumpserver.example.com/api/v1/assets/hosts/"
      /\ headerValues (ReqHeader req) "Authorization" = ["Bearer tok-1"].
Proof.
  assert (Hc : fst (run (Configure sampleRuntime noEnv (sampleConfig StringNull))
                        (answering (ok200 bodyToken)))
               = Ok (mkClient (Some sampleTransport)))
    by (vm_compute; reflexivity).
  split; [exact Hc|].
  destruct (configured_client_reaches_the_requests sampleRuntime noEnv
              (sampleConfig StringNull) (answering (ok200 bodyToken))
              (mkClient (Some sampleTransport)) None Hc)
    as (_ & _ & _ & token & Ht & Hhost & _).
  inv Ht. exact (fun req => Hhost sampleHost (answering created201) req).
Defined.

(** ** Requests per call *)

(** X21.  No call sends more than one request: the provider's
    configuration, a host creation, read or deletion, an account
    creation and a query each hand the network at most one request,
    whatever it answers; nothing is retried and no further page is
    fetched. *)
Theorem calls_send_at_most_one_request
    (rt : GoRuntime) (getenv : string -> string) (net : Network)
    (client : option Client) (config : JumpServerProviderModel)
    (plan prior : JumpServerHostResourceModel) (account : JumpServerAccountModel)
    (query : HostSuggestionsDataSourceModel) :
  (List.length (snd (run (Configure rt getenv config) net)) <= 1)%nat
  /\ (List.length (snd (createHost rt client plan net)) <= 1)%nat
  /\ (List.length (snd (readHost rt client prior net)) <= 1)%nat
  /\ (List.length (snd (deleteHost rt client prior net)) <= 1)%nat
  /\ (List.length (snd (createAccount rt client account net)) <= 1)%nat
  /\ (List.length (snd (readDataSource rt client query net)) <= 1)%nat.
Proof.
  split; [|split; [|split; [|split; [|split]]]].
  - unfold Configure, getToken.
    destruct (String_IsNull (cfg_BaseURL config)), (String_IsNull (cfg_Username config)),
             (String_IsNull (cfg_Password config));
      cbn [negb]; unfold_monad; cbn; repeat break_match; cbn; lia.
  - unfold createHost, assetHostResource_Create. unfold_monad. cbn.
    destruct (translateProtocols (Elements (Protocols plan))); cbn; try lia.
    destruct (translateNodes (NodesDisplay plan)); cbn; try lia.
    repeat break_match; cbn; lia.
  - unfold readHost, assetHostResource_Read. unfold_monad. cbn.
    repeat break_match; cbn; lia.
  - unfold deleteHost, assetHostResource_Delete. unfold_monad. cbn.
    repeat break_match; cbn; lia.
  - unfold createAccount, accountResource_Create. unfold_monad. cbn.
    destruct (validateAssets rt (Elements (acc_Assets account))); cbn; try lia.
    repeat break_match; cbn; lia.
  - unfold readDataSource, HostSuggestionsDataSource_Read. unfold_monad. cbn.
    repeat break_match; cbn; lia.
Qed.
